(** * File upload and retrieval handlers of the api4 package

    A shallow embedding of [src/api4/file.go] and of the later revision of
    the same file kept in [src/unnamed/part_001] (the one with the buffered
    pre-scan of the multipart body), with the properties of the upload and
    retrieval handlers stated over it.

    Conventions of the embedding:
    - a Go [string] is a [string], a [[]byte] a list of [Z] in [0, 256);
    - [int64] quantities (sizes, content lengths, status codes) are [Z];
    - the handler context [c *Context] is passed and returned explicitly;
    - the application [c.App] is a record of its methods over an abstract
      application state that [UploadFile] threads;
    - a [*multipart.Reader] is the list of parts it yields, followed by
      [io.EOF] or by a read error. *)

From Stdlib Require Import ZArith String Ascii List Bool Lia DecimalString.
From stdpp Require Import gmap strings list.

Local Open Scope string_scope.
Local Open Scope Z_scope.
Local Open Scope list_scope.

(** ** Status codes of net/http used by the handlers *)

Definition StatusCreated : Z := 201.
Definition StatusBadRequest : Z := 400.
Definition StatusForbidden : Z := 403.
Definition StatusNotFound : Z := 404.
Definition StatusRequestEntityTooLarge : Z := 413.
Definition StatusInternalServerError : Z := 500.
Definition StatusNotImplemented : Z := 501.

(** ** Data model *)

(** [model.AppError], as built by [model.NewAppError where id params details status]. *)
Record AppError := NewAppError {
  Where : string;
  ErrId : string;
  ErrParams : list (string * string);
  DetailedError : string;
  StatusCode : Z
}.

(** [c.Err.StatusCode = code] on an error already built. *)
Definition withStatusCode (e : AppError) (code : Z) : AppError :=
  NewAppError (Where e) (ErrId e) (ErrParams e) (DetailedError e) code.

(** [model.FileInfo]: the fields the handlers read. *)
Record FileInfo := {
  Id : string;
  CreatorId : string;
  PostId : string;
  Path : string;
  ThumbnailPath : string;
  PreviewPath : string;
  Name : string;
  Size : Z;
  MimeType : string
}.

(** [model.FileUploadResponse]. *)
Record FileUploadResponse := {
  FileInfos : list FileInfo;
  ClientIds : list string
}.

(** An [io.Reader]: the bytes it delivers, then [io.EOF] ([None]) or a read
    error. *)
Record ByteStream := {
  Data : string;
  ReadErr : option string
}.

(** A [*multipart.Part]: [p.FormName()], [p.FileName()] and its content. *)
Record Part := {
  FormName : string;
  FileName : string;
  Content : ByteStream
}.

(** A [*multipart.Reader]: the parts [NextPart] returns one after the other,
    then [io.EOF] ([None]) or an error.  A part whose content breaks off
    with a read error leaves the reader in that error (see [NextPart]). *)
Record Reader := {
  Parts : list Part;
  Final : option string
}.

(** A [*multipart.FileHeader] of a parsed form: the file name, the buffered
    content, and the error [Open] returns if the content cannot be opened. *)
Record FileHeader := {
  Filename : string;
  content : string;
  OpenErr : option string
}.

(** A [*multipart.Form]. *)
Record Form := {
  Value : gmap string (list string);
  File : gmap string (list FileHeader)
}.

(** [app.UploadFileContext]. *)
Record UploadFileContext := {
  Timestamp : Z;
  TeamId : string;
  ChannelId : string;
  UserId : string;
  ClientId : string;
  UploadName : string;
  ContentLength : Z;
  Input : ByteStream
}.

(** [model.Config().FileSettings]. *)
Record FileSettings := {
  EnableFileAttachments : bool;
  MaxFileSize : Z;
  EnablePublicLink : bool;
  PublicLinkSalt : string;
  DriverName : string
}.

(** The handler context: [c.Params], [c.Session] and [c.Err]. *)
Record Context := {
  Params_ChannelId : string;
  Params_Filename : string;
  Params_FileId : string;
  Session_UserId : string;
  Err : option AppError
}.

Definition setErr (c : Context) (e : AppError) : Context :=
  {| Params_ChannelId := Params_ChannelId c;
     Params_Filename := Params_Filename c;
     Params_FileId := Params_FileId c;
     Session_UserId := Session_UserId c;
     Err := Some e |}.

Definition setChannelId (c : Context) (v : string) : Context :=
  {| Params_ChannelId := v;
     Params_Filename := Params_Filename c;
     Params_FileId := Params_FileId c;
     Session_UserId := Session_UserId c;
     Err := Err c |}.

(** What a handler wrote to its [http.ResponseWriter]. *)
Inductive Written :=
  | JsonResponse (resp : FileUploadResponse)
  | Text (msg : string)
  | FileBytes (body : ByteStream)
  | ErrorPage (e : AppError).

Record ResponseWriter := {
  Header : gmap string string;
  Status : option Z;
  Body : list Written
}.

Definition emptyWriter : ResponseWriter :=
  {| Header := ∅; Status := None; Body := [] |}.

(** [w.Header().Set(k, v)]. *)
Definition HeaderSet (k v : string) (w : ResponseWriter) : ResponseWriter :=
  {| Header := <[k := v]> (Header w); Status := Status w; Body := Body w |}.

(** [w.WriteHeader(code)]. *)
Definition WriteHeader (code : Z) (w : ResponseWriter) : ResponseWriter :=
  {| Header := Header w; Status := Some code; Body := Body w |}.

(** [w.Write(...)]. *)
Definition Write (x : Written) (w : ResponseWriter) : ResponseWriter :=
  {| Header := Header w; Status := Status w; Body := Body w ++ [x] |}.

(** [http.Error(w, msg, code)]. *)
Definition httpError (msg : string) (code : Z) (w : ResponseWriter) : ResponseWriter :=
  Write (Text msg)
    (WriteHeader code
       (HeaderSet "X-Content-Type-Options" "nosniff"
          (HeaderSet "Content-Type" "text/plain; charset=utf-8" w))).

(** The application behind [c.App], over an abstract state [S] (the file
    store and the database).  The methods are not part of the files
    embedded here; the handlers are stated for every implementation.
    Permissions and id validity are taken as fixed while one request is
    handled.  The record also carries the two library functions that are
    left abstract: [url.PathEscape], and the memory accounting of
    [multipart.Reader.ReadForm] ([FormTooLarge maxMemory parts] says that
    the library gives up with [ErrMessageTooLarge]). *)
Record App (S : Type) := {
  Config : FileSettings;
  UploadFile : UploadFileContext -> S -> (AppError + FileInfo) * S;
  UploadFiles :
    string -> string -> string -> list ByteStream -> list string ->
    list string -> Z -> S -> (AppError + FileUploadResponse) * S;
  UploadMultipartFiles :
    string -> string -> string -> list FileHeader -> list string ->
    Z -> S -> (AppError + FileUploadResponse) * S;
  SessionHasPermissionToChannel : string -> string -> string -> bool;
  GetFileInfo : string -> S -> AppError + FileInfo;
  FileReader : string -> S -> AppError + ByteStream;
  GeneratePublicLinkHash : string -> string -> string;
  IsValidId : string -> bool;
  PathEscape : string -> string;
  FormTooLarge : Z -> list Part -> bool
}.

Arguments Config {S} _.
Arguments UploadFile {S} _ _ _.
Arguments UploadFiles {S} _ _ _ _ _ _ _ _ _.
Arguments UploadMultipartFiles {S} _ _ _ _ _ _ _ _.
Arguments SessionHasPermissionToChannel {S} _ _ _ _.
Arguments GetFileInfo {S} _ _ _.
Arguments FileReader {S} _ _ _.
Arguments GeneratePublicLinkHash {S} _ _ _.
Arguments IsValidId {S} _ _.
Arguments PathEscape {S} _ _.
Arguments FormTooLarge {S} _ _ _.

Definition FILE_TEAM_ID : string := "noteam".
Definition PREVIEW_IMAGE_TYPE : string := "image/jpeg".
Definition THUMBNAIL_IMAGE_TYPE : string := "image/jpeg".
Definition PERMISSION_UPLOAD_FILE : string := "upload_file".

Definition UNSAFE_CONTENT_TYPES : list string :=
  [ "application/javascript";
    "application/ecmascript";
    "text/javascript";
    "text/ecmascript";
    "application/x-javascript";
    "text/html" ].

Definition MEDIA_CONTENT_TYPES : list string :=
  [ "image/jpeg";
    "image/png";
    "image/bmp";
    "image/gif";
    "video/avi";
    "video/mpeg";
    "video/mp4";
    "audio/mpeg";
    "audio/wav" ].

(** ** Context helpers

    [api4/context.go] is not among the embedded files. *)

(** Modelled from the spec: [c.SetInvalidParam], missing from the sources;
    the spec's InvalidParam (400) for a malformed or unknown form field. *)
Definition SetInvalidParam (c : Context) (parameter : string) : Context :=
  setErr c (NewAppError "Context" "api.context.invalid_body_param.app_error"
              [("Name", parameter)] "" StatusBadRequest).

(** Modelled from the spec: [c.SetInvalidUrlParam], missing from the sources;
    the spec's InvalidParam (400) for a malformed id or a missing required
    field of the URL. *)
Definition SetInvalidUrlParam (c : Context) (parameter : string) : Context :=
  setErr c (NewAppError "Context" "api.context.invalid_url_param.app_error"
              [("Name", parameter)] "" StatusBadRequest).

(** Modelled from the spec: [c.SetPermissionError], missing from the sources;
    the spec's Forbidden (403) when the session lacks the permission. *)
Definition SetPermissionError (c : Context) (permission : string) : Context :=
  setErr c (NewAppError "Permissions" "api.context.permissions.app_error" []
              ("userId=" +:+ Session_UserId c +:+ ", permission=" +:+ permission)
              StatusForbidden).

(** Modelled from the spec: [c.RequireChannelId], missing from the sources;
    it keeps an earlier error and rejects a malformed channel id with 400. *)
Definition RequireChannelId {S} (a : App S) (c : Context) : Context :=
  match Err c with
  | Some _ => c
  | None =>
      if IsValidId a (Params_ChannelId c) then c
      else SetInvalidUrlParam c "channel_id"
  end.

(** Modelled from the spec: [c.RequireFileId], missing from the sources;
    it keeps an earlier error and rejects a malformed file id with 400. *)
Definition RequireFileId {S} (a : App S) (c : Context) : Context :=
  match Err c with
  | Some _ => c
  | None =>
      if IsValidId a (Params_FileId c) then c
      else SetInvalidUrlParam c "file_id"
  end.

(** Modelled from the spec: [c.RequireFilename], missing from the sources;
    an empty filename in the URL is a 400. *)
Definition RequireFilename (c : Context) : Context :=
  match Err c with
  | Some _ => c
  | None =>
      if decide (Params_Filename c = "") then SetInvalidUrlParam c "filename"
      else c
  end.

(** ** Library functions the handlers call *)

(** [strings.HasPrefix(s, prefix)]. *)
Definition HasPrefix (s prefix : string) : bool := String.prefix prefix s.

(** [len(s)] of a Go string, as an [int]. *)
Definition len (s : string) : Z := Z.of_nat (String.length s).

(** The error result of an [io] call: [nil], [io.EOF] or another error. *)
Inductive IoErr :=
  | NoErr
  | EOF
  | OtherErr (msg : string).

(** [io.CopyN(&b, p, n)] into a fresh buffer: the bytes copied and the error.
    [n] bytes copied give [nil]; a source that ends earlier gives [io.EOF],
    one that fails earlier its error. *)
Definition CopyN (p : ByteStream) (n : Z) : string * IoErr :=
  if n <=? len (Data p) then (String.substring 0 (Z.to_nat n) (Data p), NoErr)
  else (Data p, match ReadErr p with
                | None => EOF
                | Some e => OtherErr e
                end).

(** [[]byte(s)]. *)
Definition bytes (s : string) : list Z :=
  map (fun ch => Z.of_N (N_of_ascii ch)) (list_ascii_of_string s).

(** [subtle.ConstantTimeByteEq(x, y)]:
    [int((uint32(x^y) - 1) >> 31)]. *)
Definition ConstantTimeByteEq (x y : Z) : Z :=
  Z.shiftr ((Z.lxor x y - 1) mod 2 ^ 32) 31.

(** The loop of [subtle.ConstantTimeCompare]: [v |= x[i] ^ y[i]] for every
    index of [x], together with the number of iterations made. *)
Fixpoint ConstantTimeCompare_loop (x y : list Z) (v : Z) (steps : nat) : Z * nat :=
  match x, y with
  | xi :: x', yi :: y' =>
      ConstantTimeCompare_loop x' y' (Z.lor v (Z.lxor xi yi)) (Datatypes.S steps)
  | _, _ => (v, steps)
  end.

(** [subtle.ConstantTimeCompare(x, y)] with the number of loop iterations
    it makes: slices of different lengths return 0 at once. *)
Definition ConstantTimeCompare_cost (x y : list Z) : Z * nat :=
  if decide (length x = length y) then
    let '(v, steps) := ConstantTimeCompare_loop x y 0 O in
    (ConstantTimeByteEq v 0, steps)
  else (0, O).

Definition ConstantTimeCompare (x y : list Z) : Z :=
  fst (ConstantTimeCompare_cost x y).

(** [strconv.Itoa]. *)
Definition Itoa (n : Z) : string := NilEmpty.string_of_int (Z.to_int n).

(** ** Requests *)

(** What [r.MultipartReader()] finds in the request: a multipart body, a
    body that is not multipart ([http.ErrNotMultipart]), or a multipart
    header it cannot use (a missing boundary, for one). *)
Inductive RequestBody :=
  | Multipart (mr : Reader)
  | NotMultipart (body : ByteStream)
  | BadMultipart (err : string).

Record Request := {
  Req_ContentLength : Z;
  Query : gmap string (list string);
  ParseFormErr : option string;
  Req_Body : RequestBody
}.

(** [r.URL.Query().Get(key)]: the first value, or the empty string. *)
Definition QueryGet (r : Request) (key : string) : string :=
  match Query r !! key with
  | Some (v :: _) => v
  | _ => ""
  end.

(** The message of [http.ErrNotMultipart]. *)
Definition ErrNotMultipart : string :=
  "request Content-Type isn't multipart/form-data".

(** The message of [multipart.ErrMessageTooLarge]. *)
Definition ErrMessageTooLarge : string := "multipart: message too large".

(** ** The file response ([writeFileResponse]) *)

(** The loop over [UNSAFE_CONTENT_TYPES]: the first prefix that matches
    rewrites the type and leaves the loop. *)
Fixpoint rewriteUnsafe (contentType : string) (unsafe : list string) : string :=
  match unsafe with
  | [] => contentType
  | unsafeContentType :: rest =>
      if HasPrefix contentType unsafeContentType then "text/plain"
      else rewriteUnsafe contentType rest
  end.

(** The loop over [MEDIA_CONTENT_TYPES]. *)
Fixpoint isMediaType (contentType : string) (media : list string) : bool :=
  match media with
  | [] => false
  | mediaContentType :: rest =>
      if HasPrefix contentType mediaContentType then true
      else isMediaType contentType rest
  end.

(** The double quote of the Content-Disposition header. *)
Definition dquote : string := String "034"%char EmptyString.

(** The Content-Type header [writeFileResponse] emits. *)
Definition responseContentType (contentType : string) : string :=
  if decide (contentType = "") then "application/octet-stream"
  else rewriteUnsafe contentType UNSAFE_CONTENT_TYPES.

(** [toDownload] of [writeFileResponse], from the rewritten content type. *)
Definition toDownload (contentType : string) (forceDownload : bool) : bool :=
  if forceDownload then true
  else negb (isMediaType contentType MEDIA_CONTENT_TYPES).

Definition writeFileResponse {S} (a : App S) (filename contentType : string)
    (contentSize : Z) (fileReader : ByteStream) (forceDownload : bool)
    (w : ResponseWriter) : ResponseWriter * option AppError :=
  let w := HeaderSet "Cache-Control" "max-age=2592000, private" w in
  let w := HeaderSet "X-Content-Type-Options" "nosniff" w in
  let w := if 0 <? contentSize
           then HeaderSet "Content-Length" (Itoa contentSize) w else w in
  let contentType := responseContentType contentType in
  let w := HeaderSet "Content-Type" contentType w in
  let filename := PathEscape a filename in
  let w :=
    if toDownload contentType forceDownload then
      HeaderSet "Content-Disposition"
        ("attachment;filename=" +:+ dquote +:+ filename +:+ dquote +:+
         "; filename*=UTF-8''" +:+ filename) w
    else
      HeaderSet "Content-Disposition"
        ("inline;filename=" +:+ dquote +:+ filename +:+ dquote +:+
         "; filename*=UTF-8''" +:+ filename) w in
  let w := HeaderSet "X-Frame-Options" "DENY" w in
  let w := HeaderSet "Content-Security-Policy" "Frame-ancestors 'none'" w in
  (Write (FileBytes fileReader) w, None).

(** ** The public link ([getPublicFile]) *)

(** How a handler ends: it returns, or it panics (a call on a nil reader). *)
Inductive Outcome :=
  | Returned (w : ResponseWriter) (c : Context)
  | Panicked (w : ResponseWriter) (c : Context).

(** [utils.RenderWebAppError]: the error is shown as a page. *)
Definition RenderWebAppError (e : AppError) (w : ResponseWriter) : ResponseWriter :=
  Write (ErrorPage e) w.

Definition publicInvalid : AppError :=
  NewAppError "getPublicFile" "api.file.get_file.public_invalid.app_error" []
    "" StatusBadRequest.

(** [getPublicFile], together with the number of loop iterations that its
    call of [subtle.ConstantTimeCompare] makes (none on the ways out before
    the comparison). *)
Definition getPublicFile_steps {S} (a : App S) (c : Context)
    (w : ResponseWriter) (r : Request) (s : S) : Outcome * nat :=
  let c := RequireFileId a c in
  match Err c with
  | Some _ => (Returned w c, O)
  | None =>
  if negb (EnablePublicLink (Config a)) then
    (Returned w
       (setErr c (NewAppError "getPublicFile"
                    "api.file.get_public_link.disabled.app_error" [] ""
                    StatusNotImplemented)), O)
  else
  match GetFileInfo a (Params_FileId c) s with
  | inl err => (Returned w (setErr c err), O)
  | inr info =>
  let hash := QueryGet r "h" in
  if decide (len hash = 0) then
    (Returned (RenderWebAppError publicInvalid w) (setErr c publicInvalid), O)
  else
  let '(v, steps) :=
    ConstantTimeCompare_cost (bytes hash)
      (bytes (GeneratePublicLinkHash a (Id info)
                (PublicLinkSalt (Config a)))) in
  if decide (v <> 1) then
    (Returned (RenderWebAppError publicInvalid w) (setErr c publicInvalid),
     steps)
  else
  match FileReader a (Path info) s with
  | inl err =>
      (* no return after the error: the deferred [fileReader.Close()] is
         taken on the nil reader *)
      (Panicked w (setErr c (withStatusCode err StatusNotFound)), steps)
  | inr fileReader =>
      match writeFileResponse a (Name info) (MimeType info) (Size info)
              fileReader false w with
      | (w, Some err) => (Returned w (setErr c err), steps)
      | (w, None) => (Returned w c, steps)
      end
  end
  end
  end.

(** What [getPublicFile] leaves behind. *)
Definition getPublicFile {S} (a : App S) (c : Context) (w : ResponseWriter)
    (r : Request) (s : S) : Outcome :=
  (getPublicFile_steps a c w r s).1.

(** ** Reading a multipart body *)

(** The error [mr.NextPart()] returns once the parts are exhausted. *)
Definition endOfParts (final : option string) : IoErr :=
  match final with
  | None => EOF
  | Some e => OtherErr e
  end.

(** [mr.NextPart()]: the next part and the reader after it, or the error.
    After a part whose content fails to read, the reader has nothing left
    but that error. *)
Definition NextPart (mr : Reader) : (Part * Reader) + IoErr :=
  match Parts mr with
  | [] => inr (endOfParts (Final mr))
  | p :: rest =>
      match ReadErr (Content p) with
      | None => inl (p, {| Parts := rest; Final := Final mr |})
      | Some e => inl (p, {| Parts := []; Final := Some e |})
      end
  end.

(** [form.Value[key]] and [form.File[key]]: a missing key is the nil slice. *)
Definition formValue (form : Form) (key : string) : list string :=
  default [] (Value form !! key).

Definition formFile (form : Form) (key : string) : list FileHeader :=
  default [] (File form !! key).

Definition addValue (form : Form) (name v : string) : Form :=
  {| Value := <[name := formValue form name ++ [v]]> (Value form);
     File := File form |}.

Definition addFile (form : Form) (name : string) (fh : FileHeader) : Form :=
  {| Value := Value form;
     File := <[name := formFile form name ++ [fh]]> (File form) |}.

(** The loop of [mr.ReadForm]: every named part is read to its end; a part
    without a file name is a value, the others are files, kept in the order
    of the stream under their form name. *)
Fixpoint readFormParts (ps : list Part) (form : Form) : string + Form :=
  match ps with
  | [] => inr form
  | p :: rest =>
      match ReadErr (Content p) with
      | Some e => inl e
      | None =>
          if decide (FormName p = "") then readFormParts rest form
          else if decide (FileName p = "") then
            readFormParts rest (addValue form (FormName p) (Data (Content p)))
          else
            readFormParts rest
              (addFile form (FormName p)
                 {| Filename := FileName p;
                    content := Data (Content p);
                    OpenErr := None |})
      end
  end.

(** [mr.ReadForm(maxMemory)]. *)
Definition ReadForm {S} (a : App S) (mr : Reader) (maxMemory : Z) : string + Form :=
  if FormTooLarge a maxMemory (Parts mr) then inl ErrMessageTooLarge
  else
    match readFormParts (Parts mr) {| Value := ∅; File := ∅ |} with
    | inl e => inl e
    | inr form =>
        match Final mr with
        | Some e => inl e
        | None => inr form
        end
    end.

(** [fileHeader.Open()]. *)
Definition Open (fh : FileHeader) : string + ByteStream :=
  match OpenErr fh with
  | Some e => inl e
  | None => inr {| Data := content fh; ReadErr := None |}
  end.

(** ** Upload handlers: what they return

    A multipart ingestor returns the response (nil on an error), the
    context with [c.Err], and the application state. *)
Definition Ingested (S : Type) : Type := option FileUploadResponse * Context * S.

(** What an upload handler leaves behind: the response writer, the context,
    the application state, and whether it read from [r.Body] (called
    [NextPart], parsed the form, drained the body, or handed the body to
    the application). *)
Record Handled (S : Type) := {
  hw : ResponseWriter;
  hc : Context;
  hs : S;
  bodyRead : bool
}.

Arguments hw {S} _.
Arguments hc {S} _.
Arguments hs {S} _.
Arguments bodyRead {S} _.

Definition maxValueBytes : Z := 10 * 1024.

(** ** Reading a body as a list of parts

    The handlers treat a part without a form name as absent, a named part
    without a file name as a form value, and any other part as a file. *)

Definition isFilePart (p : Part) : bool :=
  negb (bool_decide (FormName p = "")) && negb (bool_decide (FileName p = "")).

Definition isFormValue (name : string) (p : Part) : bool :=
  bool_decide (FormName p = name) && bool_decide (FileName p = "").

(** The file parts of a body, in the order of the stream. *)
Fixpoint filePartsOf (ps : list Part) : list Part :=
  match ps with
  | [] => []
  | p :: rest =>
      if isFilePart p then p :: filePartsOf rest else filePartsOf rest
  end.

(** The values of the client_ids fields of a body, in the order of the
    stream, as the streaming loop reads them (through [io.CopyN]). *)
Fixpoint clientIdsOf (ps : list Part) : list string :=
  match ps with
  | [] => []
  | p :: rest =>
      if isFormValue "client_ids" p
      then (CopyN (Content p) maxValueBytes).1 :: clientIdsOf rest
      else clientIdsOf rest
  end.

(** Whether a client_ids field stands before the first file part. *)
Fixpoint clientIdBeforeFile (ps : list Part) : bool :=
  match ps with
  | [] => false
  | p :: rest =>
      if isFilePart p then false
      else if isFormValue "client_ids" p then true
      else clientIdBeforeFile rest
  end.

(** The form value [p], cut at [maxValueBytes]. *)
Definition truncated (p : Part) : Part :=
  {| FormName := FormName p;
     FileName := FileName p;
     Content := {| Data := String.substring 0 (Z.to_nat maxValueBytes)
                             (Data (Content p));
                   ReadErr := None |} |}.

(** The header [ReadForm] keeps for a file part. *)
Definition headerOf (p : Part) : FileHeader :=
  {| Filename := FileName p; content := Data (Content p); OpenErr := None |}.

(** The values and the files [ReadForm] keeps under [name]. *)
Fixpoint valuesOf (name : string) (ps : list Part) : list string :=
  match ps with
  | [] => []
  | p :: rest =>
      if isFormValue name p then Data (Content p) :: valuesOf name rest
      else valuesOf name rest
  end.

Fixpoint filesOf (name : string) (ps : list Part) : list FileHeader :=
  match ps with
  | [] => []
  | p :: rest =>
      if isFilePart p && bool_decide (FormName p = name)
      then headerOf p :: filesOf name rest
      else filesOf name rest
  end.

(** A part of a plain body: it reads to its end, and it is a part without
    a name, a client_ids field with a non-empty value of at most
    [maxValueBytes] bytes, or a file under the form name files. *)
Definition plainPart (p : Part) : bool :=
  match ReadErr (Content p) with
  | Some _ => false
  | None =>
      bool_decide (FormName p = "")
      || (isFormValue "client_ids" p
          && negb (bool_decide (Data (Content p) = ""))
          && (len (Data (Content p)) <=? maxValueBytes))
      || (bool_decide (FormName p = "files")
          && negb (bool_decide (FileName p = "")))
  end.

(** [resp.ToJson()] written to the response, with status 201. *)
Definition writeCreated (resp : option FileUploadResponse) (w : ResponseWriter)
    : ResponseWriter :=
  Write (match resp with
         | Some r => JsonResponse r
         | None => Text "null"
         end)
    (WriteHeader StatusCreated w).

(** [append(resp.FileInfos, info)] and [append(resp.ClientIds, clientId)]. *)
Definition appendFileInfo (resp : FileUploadResponse) (info : FileInfo)
    : FileUploadResponse :=
  {| FileInfos := FileInfos resp ++ [info]; ClientIds := ClientIds resp |}.

Definition appendClientId (resp : FileUploadResponse) (clientId : string)
    : FileUploadResponse :=
  {| FileInfos := FileInfos resp; ClientIds := ClientIds resp ++ [clientId] |}.

Definition emptyResponse : FileUploadResponse :=
  {| FileInfos := []; ClientIds := [] |}.

Definition attachmentsDisabled (where_ : string) : AppError :=
  NewAppError where_ "api.file.attachments.disabled.app_error" [] ""
    StatusNotImplemented.

(** ** The legacy handler [uploadFile] (the same in both revisions) *)

(** [r.ParseMultipartForm(maxMemory)]: [ParseForm] first, then the whole
    multipart body through [ReadForm]. *)
Definition ParseMultipartForm {S} (a : App S) (r : Request) (maxMemory : Z)
    : string + Form :=
  match ParseFormErr r with
  | Some e => inl e
  | None =>
      match Req_Body r with
      | NotMultipart _ => inl ErrNotMultipart
      | BadMultipart e => inl e
      | Multipart mr => ReadForm a mr maxMemory
      end
  end.

Definition uploadFile {S} (a : App S) (c : Context) (w : ResponseWriter)
    (r : Request) (now : Z) (s : S) : Handled S :=
  (* defer io.Copy(ioutil.Discard, r.Body): the body is read on every way out *)
  let done w c s := {| hw := w; hc := c; hs := s; bodyRead := true |} in
  if negb (EnableFileAttachments (Config a)) then
    done w (setErr c (attachmentsDisabled "uploadFile")) s
  else if MaxFileSize (Config a) <? Req_ContentLength r then
    done w (setErr c (NewAppError "uploadFile"
                        "api.file.upload_file.too_large.app_error" [] ""
                        StatusRequestEntityTooLarge)) s
  else
    let finish (res : (AppError + FileUploadResponse) * S) c :=
      match res with
      | (inl appErr, s) => done w (setErr c appErr) s
      | (inr resStruct, s) => done (writeCreated (Some resStruct) w) c s
      end in
    match ParseMultipartForm a r (MaxFileSize (Config a)) with
    | inl err =>
        match Req_Body r, ParseFormErr r with
        | NotMultipart body, None =>
            let c := RequireFilename (RequireChannelId a c) in
            match Err c with
            | Some _ => done w c s
            | None =>
                let channelId := Params_ChannelId c in
                let filename := Params_Filename c in
                if negb (SessionHasPermissionToChannel a (Session_UserId c)
                           channelId PERMISSION_UPLOAD_FILE) then
                  done w (SetPermissionError c PERMISSION_UPLOAD_FILE) s
                else
                  finish (UploadFiles a FILE_TEAM_ID channelId (Session_UserId c)
                            [body] [filename] [] now s) c
            end
        | _, _ => done (httpError err StatusInternalServerError w) c s
        end
    | inr m =>
        match formValue m "channel_id" with
        | [] => done w (SetInvalidParam c "channel_id") s
        | channelId :: _ =>
            let c := RequireChannelId a (setChannelId c channelId) in
            match Err c with
            | Some _ => done w c s
            | None =>
                if negb (SessionHasPermissionToChannel a (Session_UserId c)
                           channelId PERMISSION_UPLOAD_FILE) then
                  done w (SetPermissionError c PERMISSION_UPLOAD_FILE) s
                else
                  finish (UploadMultipartFiles a FILE_TEAM_ID channelId
                            (Session_UserId c) (formFile m "files")
                            (formValue m "client_ids") now s) c
            end
        end
    end.

(** ** [src/api4/file.go]: the streaming handler *)

Module Api4.

(** The variables of the loop of [uploadFileMultipart]. *)
Record LoopState := {
  clientIds : list string;
  haveClientIds : bool;
  resp : FileUploadResponse
}.

(** How one iteration ends: with [continue] (or the end of the body), or
    with a [return]. *)
Inductive Flow (S : Type) :=
  | Continue (st : LoopState) (c : Context) (s : S)
  | Return (r : Ingested S).

Arguments Continue {S} _ _ _.
Arguments Return {S} _.

Definition errorReadPart : AppError :=
  NewAppError "uploadFileMultipart"
    "api.file.upload_file.error_read_part.app_error" [] "" StatusBadRequest.

Definition incorrectNumberOfFiles : AppError :=
  NewAppError "uploadFileMultipart"
    "api.file.upload_file.incorrect_number_of_files.app_error" [] ""
    StatusBadRequest.

(** The body of the loop, for the part [p] that [NextPart] returned. *)
Definition uploadFileMultipart_part {S} (a : App S) (timestamp : Z) (p : Part)
    (st : LoopState) (c : Context) (s : S) : Flow S :=
  let formname := FormName p in
  if decide (formname = "") then Continue st c s
  else
  let filename := FileName p in
  if decide (filename = "") then
    match CopyN (Content p) maxValueBytes with
    | (_, OtherErr _) => Return (None, setErr c errorReadPart, s)
    | (v, _) =>
        if decide (formname = "channel_id") then
          Continue st (if decide (v = "") then c else setChannelId c v) s
        else if decide (formname = "client_ids") then
          Continue {| clientIds := clientIds st ++ [v];
                      haveClientIds := true;
                      resp := resp st |} c s
        else Return (None, SetInvalidParam c "formname", s)
    end
  else
  (* A file part *)
  let c := RequireChannelId a c in
  match Err c with
  | Some _ => Return (None, c, s)
  | None =>
  if negb (SessionHasPermissionToChannel a (Session_UserId c)
             (Params_ChannelId c) PERMISSION_UPLOAD_FILE) then
    Return (None, SetPermissionError c PERMISSION_UPLOAD_FILE, s)
  else
  let '(clientId, clientIds') :=
    match clientIds st with
    | [] => ("", [])
    | first :: rest => (first, rest)
    end in
  if haveClientIds st && bool_decide (clientId = "") then
    Return (None, setErr c incorrectNumberOfFiles, s)
  else
  match UploadFile a {| Timestamp := timestamp;
                        TeamId := FILE_TEAM_ID;
                        ChannelId := Params_ChannelId c;
                        UserId := Session_UserId c;
                        ClientId := clientId;
                        UploadName := filename;
                        ContentLength := -1;
                        Input := Content p |} s with
  | (inl appErr, s) => Return (None, setErr c appErr, s)
  | (inr info, s) =>
      let resp := appendFileInfo (resp st) info in
      Continue {| clientIds := clientIds';
                  haveClientIds := haveClientIds st;
                  resp := if haveClientIds st then appendClientId resp clientId
                          else resp |} c s
  end
  end.

(** After the loop: the number of client ids must have matched. *)
Definition uploadFileMultipart_end {S} (st : LoopState) (c : Context) (s : S)
    : Ingested S :=
  if haveClientIds st && negb (length (clientIds st) =? 0)%nat then
    (None, setErr c incorrectNumberOfFiles, s)
  else (Some (resp st), c, s).

(** The loop over the parts [ps] still in the reader, which ends in [final].
    The next [NextPart] after a part whose content failed to read returns
    the error (see [NextPart]). *)
Fixpoint uploadFileMultipart_loop {S} (a : App S) (timestamp : Z)
    (ps : list Part) (final : option string)
    (st : LoopState) (c : Context) (s : S) : Ingested S :=
  match ps with
  | [] =>
      match final with
      | None => uploadFileMultipart_end st c s
      | Some _ => (None, setErr c errorReadPart, s)
      end
  | p :: rest =>
      match uploadFileMultipart_part a timestamp p st c s with
      | Return r => r
      | Continue st c s =>
          match ReadErr (Content p) with
          | None => uploadFileMultipart_loop a timestamp rest final st c s
          | Some _ => (None, setErr c errorReadPart, s)
          end
      end
  end.

Definition uploadFileMultipart {S} (a : App S) (c : Context) (mr : Reader)
    (timestamp : Z) (s : S) : Ingested S :=
  uploadFileMultipart_loop a timestamp (Parts mr) (Final mr)
    {| clientIds := []; haveClientIds := false; resp := emptyResponse |} c s.

Definition uploadFileStream {S} (a : App S) (c : Context) (w : ResponseWriter)
    (r : Request) (timestamp : Z) (s : S) : Handled S :=
  let finish (resp : option FileUploadResponse) c s :=
    {| hw := match Err c with
             | Some _ => w
             | None => writeCreated resp w
             end;
       hc := c; hs := s; bodyRead := true |} in
  if negb (EnableFileAttachments (Config a)) then
    {| hw := w; hc := setErr c (attachmentsDisabled "uploadFile"); hs := s;
       bodyRead := false |}
  else
  match ParseFormErr r with
  | Some err =>
      {| hw := httpError err StatusBadRequest w; hc := c; hs := s;
         bodyRead := false |}
  | None =>
  match Req_Body r with
  | Multipart mr =>
      let '(resp, c, s) := uploadFileMultipart a c mr timestamp s in
      finish resp c s
  | NotMultipart body =>
      (* Simple POST with the file in the body and all metadata in the args *)
      let c := RequireFilename (RequireChannelId a c) in
      match Err c with
      | Some _ => {| hw := w; hc := c; hs := s; bodyRead := false |}
      | None =>
          if negb (SessionHasPermissionToChannel a (Session_UserId c)
                     (Params_ChannelId c) PERMISSION_UPLOAD_FILE) then
            {| hw := w; hc := SetPermissionError c PERMISSION_UPLOAD_FILE;
               hs := s; bodyRead := false |}
          else
            match UploadFile a {| Timestamp := timestamp;
                                  TeamId := FILE_TEAM_ID;
                                  ChannelId := Params_ChannelId c;
                                  UserId := Session_UserId c;
                                  ClientId := "";
                                  UploadName := Params_Filename c;
                                  ContentLength := Req_ContentLength r;
                                  Input := body |} s with
            | (inl appErr, s) =>
                {| hw := w; hc := setErr c appErr; hs := s; bodyRead := true |}
            | (inr info, s) =>
                finish (Some {| FileInfos := [info]; ClientIds := [] |}) c s
            end
      end
  | BadMultipart err =>
      {| hw := httpError err StatusInternalServerError w; hc := c; hs := s;
         bodyRead := false |}
  end
  end.

(** The loop over a first stretch [ps] of the body: the variables after it,
    or [None] when the handler returned before its end. *)
Fixpoint uploadFileMultipart_steps {S} (a : App S) (timestamp : Z)
    (ps : list Part) (st : LoopState) (c : Context) (s : S)
    : option (LoopState * Context * S) :=
  match ps with
  | [] => Some (st, c, s)
  | p :: rest =>
      match uploadFileMultipart_part a timestamp p st c s with
      | Continue st c s =>
          match ReadErr (Content p) with
          | None => uploadFileMultipart_steps a timestamp rest st c s
          | Some _ => None
          end
      | Return _ => None
      end
  end.

End Api4.

(** ** [src/unnamed/part_001]: the handler with the buffered pre-scan *)

Module Part001.

(** [type uploadFileMultipartMode bool]. *)
Inductive uploadFileMultipartMode :=
  | streamMode
  | bufferedMode.

#[global] Instance uploadFileMultipartMode_eq_dec : EqDecision uploadFileMultipartMode.
Proof. solve_decision. Defined.

(** The variables of the loop of [uploadFileMultipart]. *)
Record LoopState := {
  expectClientIds : bool;
  clientIds : list string;
  resp : FileUploadResponse;
  nFiles : nat
}.

(** How one iteration ends: with [continue] (or the end of the body), with
    a [return] of its own, with the call that re-processes the entire post
    in the streaming mode, or with the call of
    [uploadFileMultipartBuffered] on the entire post. *)
Inductive Flow (S : Type) :=
  | Continue (st : LoopState) (c : Context) (s : S)
  | Return (r : Ingested S)
  | Restream (c : Context) (s : S)
  | Prebuffer (c : Context) (s : S).

Arguments Continue {S} _ _ _.
Arguments Return {S} _.
Arguments Restream {S} _ _.
Arguments Prebuffer {S} _ _.

Definition readRequestError (where_ details : string) (status : Z) : AppError :=
  NewAppError where_ "api.file.upload_file.read_request.app_error" [] details
    status.

Definition incorrectNumberOfFiles (where_ : string) : AppError :=
  NewAppError where_ "api.file.upload_file.incorrect_number_of_files.app_error"
    [] "" StatusBadRequest.

(** The loop of [uploadFileMultipartBuffered] over [fileHeaders], from
    index [i]. *)
Fixpoint uploadFileMultipartBuffered_loop {S} (a : App S) (timestamp : Z)
    (clientIds : list string) (fileHeaders : list FileHeader) (i : nat)
    (resp : FileUploadResponse) (c : Context) (s : S) : Ingested S :=
  match fileHeaders with
  | [] => (Some resp, c, s)
  | fileHeader :: rest =>
      match Open fileHeader with
      | inl err =>
          (None,
           setErr c (readRequestError "uploadFileMultipartiBuffered" err
                       StatusInternalServerError), s)
      | inr f =>
          (* clientIds[i]: in range whenever the two lengths agree *)
          let clientId :=
            if (0 <? length clientIds)%nat then default "" (clientIds !! i)
            else "" in
          match UploadFile a {| Timestamp := timestamp;
                                TeamId := FILE_TEAM_ID;
                                ChannelId := Params_ChannelId c;
                                UserId := Session_UserId c;
                                ClientId := clientId;
                                UploadName := Filename fileHeader;
                                ContentLength := -1;
                                Input := f |} s with
          | (inl appErr, s) => (None, setErr c appErr, s)
          | (inr info, s) =>
              let resp := appendFileInfo resp info in
              let resp := if decide (clientId = "") then resp
                          else appendClientId resp clientId in
              uploadFileMultipartBuffered_loop a timestamp clientIds rest
                (Datatypes.S i) resp c s
          end
      end
  end.

Definition uploadFileMultipartBuffered {S} (a : App S) (c : Context)
    (mr : Reader) (timestamp : Z) (s : S) : Ingested S :=
  (* Parse the entire form. *)
  match ReadForm a mr (MaxFileSize (Config a)) with
  | inl err =>
      (None,
       setErr c (readRequestError "uploadFileMultipartiBuffered" err
                   StatusInternalServerError), s)
  | inr form =>
  (* get and validate the channel Id, permission to upload there. *)
  match formValue form "channel_id" with
  | [] => (None, SetInvalidParam c "channel_id", s)
  | channelId :: _ =>
  let c := RequireChannelId a (setChannelId c channelId) in
  match Err c with
  | Some _ => (None, c, s)
  | None =>
  if negb (SessionHasPermissionToChannel a (Session_UserId c) channelId
             PERMISSION_UPLOAD_FILE) then
    (None, SetPermissionError c PERMISSION_UPLOAD_FILE, s)
  else
  (* Check that we have either no client IDs, or one per file. *)
  let clientIds := formValue form "client_ids" in
  let fileHeaders := formFile form "files" in
  if negb (length clientIds =? 0)%nat
     && negb (length clientIds =? length fileHeaders)%nat then
    (None, setErr c (incorrectNumberOfFiles "uploadFilesMultipartiBuffered"), s)
  else
    uploadFileMultipartBuffered_loop a timestamp clientIds fileHeaders 0
      emptyResponse c s
  end
  end
  end.

(** The body of the loop of [uploadFileMultipart], for the part [p] that
    [NextPart] returned. *)
Definition uploadFileMultipart_part {S} (a : App S) (timestamp : Z)
    (mode : uploadFileMultipartMode) (p : Part)
    (st : LoopState) (c : Context) (s : S) : Flow S :=
  (* Parse any form fields in the multipart. *)
  let formname := FormName p in
  if decide (formname = "") then Continue st c s
  else
  let filename := FileName p in
  if decide (filename = "") then
    match CopyN (Content p) maxValueBytes with
    | (_, OtherErr err) =>
        Return (None,
                setErr c (readRequestError "uploadFileMultipart" err
                            StatusBadRequest), s)
    | (v, _) =>
        if decide (formname = "channel_id") then
          (* Allow the channel_id value in the form to override URL params *)
          let c := if decide (v = "") then c else setChannelId c v in
          (* Got channel_id, re-process the entire post in the streaming mode. *)
          if decide (mode = bufferedMode) then Restream c s
          else Continue st c s
        else if decide (formname = "client_ids") then
          if negb (expectClientIds st) then
            Return (None, SetInvalidParam c "client_ids", s)
          else
            Continue {| expectClientIds := expectClientIds st;
                        clientIds := clientIds st ++ [v];
                        resp := resp st;
                        nFiles := nFiles st |} c s
        else Return (None, SetInvalidParam c "formname", s)
    end
  else
  (* A file part. *)
  if bool_decide (Params_ChannelId c = "") && bool_decide (mode = bufferedMode)
  then Prebuffer c s
  else
  let c := RequireChannelId a c in
  match Err c with
  | Some _ => Return (None, c, s)
  | None =>
  if negb (SessionHasPermissionToChannel a (Session_UserId c)
             (Params_ChannelId c) PERMISSION_UPLOAD_FILE) then
    Return (None, SetPermissionError c PERMISSION_UPLOAD_FILE, s)
  else
  (* If there's no clientIds when the first file comes, expect none later. *)
  let expectClientIds :=
    if (nFiles st =? 0)%nat && (length (clientIds st) =? 0)%nat then false
    else expectClientIds st in
  (* Must have a exactly one client ID for each file. *)
  if expectClientIds && (length (clientIds st) <=? nFiles st)%nat then
    Return (None, SetInvalidParam c "client_ids", s)
  else
  let clientId :=
    if expectClientIds then default "" (clientIds st !! nFiles st) else "" in
  match UploadFile a {| Timestamp := timestamp;
                        TeamId := FILE_TEAM_ID;
                        ChannelId := Params_ChannelId c;
                        UserId := Session_UserId c;
                        ClientId := clientId;
                        UploadName := filename;
                        ContentLength := -1;
                        Input := Content p |} s with
  | (inl appErr, s) => Return (None, setErr c appErr, s)
  | (inr info, s) =>
      (* add to the response *)
      let resp := appendFileInfo (resp st) info in
      Continue {| expectClientIds := expectClientIds;
                  clientIds := clientIds st;
                  resp := if expectClientIds then appendClientId resp clientId
                          else resp;
                  nFiles := Datatypes.S (nFiles st) |} c s
  end
  end.

(** After the loop: verify that the number of ClientIds matched the number
    of files. *)
Definition uploadFileMultipart_end {S} (st : LoopState) (c : Context) (s : S)
    : Ingested S :=
  if expectClientIds st && negb (length (clientIds st) =? nFiles st)%nat then
    (None, setErr c (incorrectNumberOfFiles "uploadFileMultipart"), s)
  else (Some (resp st), c, s).

(** The loop over the parts [ps] still in the reader, which ends in [final];
    [restream] and [prebuffer] are the two calls that take over the entire
    post. *)
Fixpoint uploadFileMultipart_loop {S} (a : App S) (timestamp : Z)
    (mode : uploadFileMultipartMode)
    (restream prebuffer : Context -> S -> Ingested S)
    (ps : list Part) (final : option string)
    (st : LoopState) (c : Context) (s : S) : Ingested S :=
  match ps with
  | [] =>
      match final with
      | None => uploadFileMultipart_end st c s
      | Some err =>
          (None,
           setErr c (readRequestError "uploadFileMultipart" err
                       StatusBadRequest), s)
      end
  | p :: rest =>
      match uploadFileMultipart_part a timestamp mode p st c s with
      | Return r => r
      | Restream c s => restream c s
      | Prebuffer c s => prebuffer c s
      | Continue st c s =>
          match ReadErr (Content p) with
          | None =>
              uploadFileMultipart_loop a timestamp mode restream prebuffer
                rest final st c s
          | Some err =>
              (None,
               setErr c (readRequestError "uploadFileMultipart" err
                           StatusBadRequest), s)
          end
      end
  end.

Definition initialState : LoopState :=
  {| expectClientIds := true; clientIds := []; resp := emptyResponse;
     nFiles := 0 |}.

(** The streaming mode makes neither of the two calls (lemma
    [stream_part_flow]); the loop is given this in their place. *)
Definition notInStreamMode {S} (c : Context) (s : S) : Ingested S := (None, c, s).

(** [uploadFileMultipart(c, r, timestamp, streamMode)] on the body [mr]. *)
Definition uploadFileMultipart_stream {S} (a : App S) (c : Context)
    (mr : Reader) (timestamp : Z) (s : S) : Ingested S :=
  uploadFileMultipart_loop a timestamp streamMode notInStreamMode
    notInStreamMode (Parts mr) (Final mr) initialState c s.

(** [uploadFileMultipart(c, r, timestamp, mode)].  The body read so far is
    kept in [buf], and [io.MultiReader(buf, r.Body)] gives the entire post
    again to the call that takes over. *)
Definition uploadFileMultipart {S} (a : App S) (c : Context) (r : Request)
    (timestamp : Z) (mode : uploadFileMultipartMode) (s : S) : Ingested S :=
  match Req_Body r with
  | NotMultipart _ =>
      (None,
       setErr c (readRequestError "uploadFileMultipart" ErrNotMultipart
                   StatusBadRequest), s)
  | BadMultipart err =>
      (None,
       setErr c (readRequestError "uploadFileMultipart" err StatusBadRequest),
       s)
  | Multipart mr =>
      match mode with
      | streamMode => uploadFileMultipart_stream a c mr timestamp s
      | bufferedMode =>
          uploadFileMultipart_loop a timestamp bufferedMode
            (fun c s => uploadFileMultipart_stream a c mr timestamp s)
            (fun c s => uploadFileMultipartBuffered a c mr timestamp s)
            (Parts mr) (Final mr) initialState c s
      end
  end.

Definition uploadFileStream {S} (a : App S) (c : Context) (w : ResponseWriter)
    (r : Request) (timestamp : Z) (s : S) : Handled S :=
  (* the deferred function writes the response unless c.Err is set *)
  let deferred (resp : option FileUploadResponse) c s read :=
    {| hw := match Err c with
             | Some _ => w
             | None => writeCreated resp w
             end;
       hc := c; hs := s; bodyRead := read |} in
  if negb (EnableFileAttachments (Config a)) then
    deferred None (setErr c (attachmentsDisabled "uploadFileStream")) s false
  else
  match ParseFormErr r with
  | Some err =>
      deferred None
        (setErr c (readRequestError "uploadFileStream" err StatusBadRequest))
        s false
  | None =>
  match Req_Body r with
  | Multipart _ =>
      let '(resp, c, s) := uploadFileMultipart a c r timestamp bufferedMode s in
      deferred resp c s true
  | BadMultipart err =>
      deferred None
        (setErr c (readRequestError "uploadFileStream" err StatusBadRequest))
        s false
  | NotMultipart body =>
      (* Simple POST with the file in the body and all metadata in the args. *)
      let c := RequireFilename (RequireChannelId a c) in
      match Err c with
      | Some _ => deferred None c s false
      | None =>
          if negb (SessionHasPermissionToChannel a (Session_UserId c)
                     (Params_ChannelId c) PERMISSION_UPLOAD_FILE) then
            deferred None (SetPermissionError c PERMISSION_UPLOAD_FILE) s false
          else
            match UploadFile a {| Timestamp := timestamp;
                                  TeamId := FILE_TEAM_ID;
                                  ChannelId := Params_ChannelId c;
                                  UserId := Session_UserId c;
                                  ClientId := "";
                                  UploadName := Params_Filename c;
                                  ContentLength := Req_ContentLength r;
                                  Input := body |} s with
            | (inl appErr, s) => deferred None (setErr c appErr) s true
            | (inr info, s) =>
                deferred (Some {| FileInfos := [info]; ClientIds := [] |}) c s
                  true
            end
      end
  end
  end.

(** The loop over a first stretch [ps] of the body: the variables after it,
    or [None] when the handler left the loop before its end. *)
Fixpoint uploadFileMultipart_steps {S} (a : App S) (timestamp : Z)
    (mode : uploadFileMultipartMode)
    (ps : list Part) (st : LoopState) (c : Context) (s : S)
    : option (LoopState * Context * S) :=
  match ps with
  | [] => Some (st, c, s)
  | p :: rest =>
      match uploadFileMultipart_part a timestamp mode p st c s with
      | Continue st c s =>
          match ReadErr (Content p) with
          | None => uploadFileMultipart_steps a timestamp mode rest st c s
          | Some _ => None
          end
      | _ => None
      end
  end.

(** The response under construction is parallel to the files uploaded so
    far: one FileInfo for each, and either no client id or the first
    [nFiles] of those collected. *)
Definition parallel (st : LoopState) : Prop :=
  length (FileInfos (resp st)) = nFiles st /\
  if expectClientIds st
  then ClientIds (resp st) = take (nFiles st) (clientIds st) /\
       (nFiles st <= length (clientIds st))%nat
  else ClientIds (resp st) = [].

End Part001.

(** ** A concrete application

    The application state is the list of the uploads stored so far.  The
    pipeline enforces [MaxFileSize] on each file, ids are valid when they
    have 26 characters, every session may upload, and one file is known to
    the database. *)

Definition channel26 : string := "cccccccccccccccccccccccccc".
Definition file26 : string := "ffffffffffffffffffffffffff".
Definition unknown26 : string := "uuuuuuuuuuuuuuuuuuuuuuuuuu".

Definition demoSettings : FileSettings :=
  {| EnableFileAttachments := true;
     MaxFileSize := 100;
     EnablePublicLink := true;
     PublicLinkSalt := "salt";
     DriverName := "local" |}.

Definition noDriverSettings : FileSettings :=
  {| EnableFileAttachments := true;
     MaxFileSize := 100;
     EnablePublicLink := true;
     PublicLinkSalt := "salt";
     DriverName := "" |}.

Definition disabledSettings : FileSettings :=
  {| EnableFileAttachments := false;
     MaxFileSize := 100;
     EnablePublicLink := false;
     PublicLinkSalt := "salt";
     DriverName := "local" |}.

Definition storedInfo (ctx : UploadFileContext) (n : nat) : FileInfo :=
  {| Id := "file-" +:+ Itoa (Z.of_nat n);
     CreatorId := UserId ctx;
     PostId := "";
     Path := "";
     ThumbnailPath := "";
     PreviewPath := "";
     Name := UploadName ctx;
     Size := len (Data (Input ctx));
     MimeType := "" |}.

Definition knownInfo : FileInfo :=
  {| Id := file26;
     CreatorId := "user";
     PostId := "post";
     Path := "20181231/teams/noteam/channels/c/users/user/f/test.png";
     ThumbnailPath := "";
     PreviewPath := "";
     Name := "test.png";
     Size := 4;
     MimeType := "image/png" |}.

Definition tooLarge : AppError :=
  NewAppError "UploadFile" "api.file.upload_file.too_large_detailed.app_error"
    [] "" StatusRequestEntityTooLarge.

Definition notFound : AppError :=
  NewAppError "SqlFileInfoStore.Get" "store.sql_file_info.get.app_error" []
    "" StatusNotFound.

Definition demoApp (cfg : FileSettings) : App (list UploadFileContext) :=
  {| Config := cfg;
     UploadFile ctx s :=
       if (MaxFileSize cfg <? ContentLength ctx)
          || (MaxFileSize cfg <? len (Data (Input ctx)))
       then (inl tooLarge, s)
       else (inr (storedInfo ctx (length s)), s ++ [ctx]);
     UploadFiles _ _ _ _ _ _ _ s := (inr emptyResponse, s);
     UploadMultipartFiles _ _ _ _ _ _ s := (inr emptyResponse, s);
     SessionHasPermissionToChannel _ _ _ := true;
     GetFileInfo fileId _ :=
       if decide (fileId = file26) then inr knownInfo else inl notFound;
     FileReader _ _ := inr {| Data := "data"; ReadErr := None |};
     GeneratePublicLinkHash fileId salt := salt +:+ fileId;
     IsValidId id := (String.length id =? 26)%nat;
     PathEscape name := name;
     FormTooLarge _ _ := false |}.

Definition demoContext : Context :=
  {| Params_ChannelId := "";
     Params_Filename := "";
     Params_FileId := "";
     Session_UserId := "user";
     Err := None |}.

(** A form field and a file part of a multipart body. *)
Definition field (name v : string) : Part :=
  {| FormName := name; FileName := "";
     Content := {| Data := v; ReadErr := None |} |}.

Definition filePart (name filename data : string) : Part :=
  {| FormName := name; FileName := filename;
     Content := {| Data := data; ReadErr := None |} |}.

Definition multipartRequest (contentLength : Z) (ps : list Part) : Request :=
  {| Req_ContentLength := contentLength;
     Query := ∅;
     ParseFormErr := None;
     Req_Body := Multipart {| Parts := ps; Final := None |} |}.

(** A string of [n] letters x. *)
Fixpoint xs (n : nat) : string :=
  match n with
  | O => ""
  | Datatypes.S n' => String "x"%char (xs n')
  end.

(** [outcomeErr o]: [c.Err] when the handler is left. *)
Definition outcomeErr (o : Outcome) : option AppError :=
  match o with
  | Returned _ c => Err c
  | Panicked _ c => Err c
  end.

Definition outcomeWriter (o : Outcome) : ResponseWriter :=
  match o with
  | Returned w _ => w
  | Panicked w _ => w
  end.

Definition noPublicLinkSettings : FileSettings :=
  {| EnableFileAttachments := true;
     MaxFileSize := 100;
     EnablePublicLink := false;
     PublicLinkSalt := "salt";
     DriverName := "local" |}.

(** A simple POST: the file is the body. *)
Definition rawRequest (contentLength : Z) (data : string) : Request :=
  {| Req_ContentLength := contentLength;
     Query := ∅;
     ParseFormErr := None;
     Req_Body := NotMultipart {| Data := data; ReadErr := None |} |}.

(** A GET of a public link with the query parameter [h]. *)
Definition publicRequest (h : string) : Request :=
  {| Req_ContentLength := 0;
     Query := {[ "h" := [h] ]};
     ParseFormErr := None;
     Req_Body := NotMultipart {| Data := ""; ReadErr := None |} |}.

Definition publicContext (fileId : string) : Context :=
  {| Params_ChannelId := "";
     Params_Filename := "";
     Params_FileId := fileId;
     Session_UserId := "";
     Err := None |}.

(** A value of Go's [byte]. *)
Definition isByte (b : Z) : Prop := 0 <= b < 256.

Definition roomySettings : FileSettings :=
  {| EnableFileAttachments := true;
     MaxFileSize := 1048576;
     EnablePublicLink := true;
     PublicLinkSalt := "salt";
     DriverName := "local" |}.

(** The upload responses a handler wrote. *)
Definition jsonResponses (w : ResponseWriter) : list FileUploadResponse :=
  omap (fun x => match x with JsonResponse r => Some r | _ => None end) (Body w).

(** A form field whose content breaks off with a read error. *)
Definition brokenField (name v err : string) : Part :=
  {| FormName := name; FileName := "";
     Content := {| Data := v; ReadErr := Some err |} |}.

(** The upload that the concrete application stores for a file part. *)
Definition uploadOf (clientId name data : string) : UploadFileContext :=
  {| Timestamp := 0; TeamId := FILE_TEAM_ID; ChannelId := channel26;
     UserId := "user"; ClientId := clientId; UploadName := name;
     ContentLength := -1;
     Input := {| Data := data; ReadErr := None |} |}.

(** ** The retrieval handlers of [file.go]

    [getFile], [getFileThumbnail], [getFilePreview], [getFileLink] and
    [getFileInfo] are the same in both revisions. *)

Definition PERMISSION_READ_CHANNEL : string := "read_channel".

(** [strconv.ParseBool]: the value, or [None] for a syntax error. *)
Definition ParseBool (str : string) : option bool :=
  if existsb (String.eqb str) ["1"; "t"; "T"; "true"; "TRUE"; "True"]
  then Some true
  else if existsb (String.eqb str) ["0"; "f"; "F"; "false"; "FALSE"; "False"]
  then Some false
  else None.

(** [forceDownload, convErr := strconv.ParseBool(r.URL.Query().Get("download"))],
    with [false] on a conversion error. *)
Definition forceDownloadOf (r : Request) : bool :=
  match ParseBool (QueryGet r "download") with
  | Some b => b
  | None => false
  end.

(** The application as the retrieval handlers use it: the methods of [App]
    and, beside them, the permission of a session on the channel of a post,
    the public link of a file, and the two JSON encodings the handlers
    write ([model.MapToJson] and [info.ToJson]).  None of them is part of
    the files embedded here. *)
Record ReadApp (S : Type) := {
  app : App S;
  SessionHasPermissionToChannelByPost : string -> string -> string -> bool;
  GeneratePublicLink : string -> FileInfo -> string;
  MapToJson : list (string * string) -> string;
  FileInfoToJson : FileInfo -> string
}.

Arguments app {S} _.
Arguments SessionHasPermissionToChannelByPost {S} _ _ _ _.
Arguments GeneratePublicLink {S} _ _ _.
Arguments MapToJson {S} _ _.
Arguments FileInfoToJson {S} _ _.

(** [info.CreatorId != c.Session.UserId &&
    !c.App.SessionHasPermissionToChannelByPost(c.Session, info.PostId,
    model.PERMISSION_READ_CHANNEL)]. *)
Definition mayNotRead {S} (ra : ReadApp S) (c : Context) (info : FileInfo) : bool :=
  negb (bool_decide (CreatorId info = Session_UserId c))
  && negb (SessionHasPermissionToChannelByPost ra (Session_UserId c)
             (PostId info) PERMISSION_READ_CHANNEL).

(** The end of the three handlers that send a file: [writeFileResponse] and
    its error, if any. *)
Definition sendFile {S} (a : App S) (c : Context) (w : ResponseWriter)
    (filename contentType : string) (contentSize : Z) (fileReader : ByteStream)
    (forceDownload : bool) : Outcome :=
  match writeFileResponse a filename contentType contentSize fileReader
          forceDownload w with
  | (w, Some err) => Returned w (setErr c err)
  | (w, None) => Returned w c
  end.

Definition getFile {S} (ra : ReadApp S) (c : Context) (w : ResponseWriter)
    (r : Request) (s : S) : Outcome :=
  let a := app ra in
  let c := RequireFileId a c in
  match Err c with
  | Some _ => Returned w c
  | None =>
  let forceDownload := forceDownloadOf r in
  match GetFileInfo a (Params_FileId c) s with
  | inl err => Returned w (setErr c err)
  | inr info =>
  if mayNotRead ra c info then
    Returned w (SetPermissionError c PERMISSION_READ_CHANNEL)
  else
  match FileReader a (Path info) s with
  | inl err => Returned w (setErr c (withStatusCode err StatusNotFound))
  | inr fileReader =>
      sendFile a c w (Name info) (MimeType info) (Size info) fileReader
        forceDownload
  end
  end
  end.

Definition getFileThumbnail {S} (ra : ReadApp S) (c : Context)
    (w : ResponseWriter) (r : Request) (s : S) : Outcome :=
  let a := app ra in
  let c := RequireFileId a c in
  match Err c with
  | Some _ => Returned w c
  | None =>
  let forceDownload := forceDownloadOf r in
  match GetFileInfo a (Params_FileId c) s with
  | inl err => Returned w (setErr c err)
  | inr info =>
  if mayNotRead ra c info then
    Returned w (SetPermissionError c PERMISSION_READ_CHANNEL)
  else
  if decide (ThumbnailPath info = "") then
    Returned w
      (setErr c (NewAppError "getFileThumbnail"
                   "api.file.get_file_thumbnail.no_thumbnail.app_error" []
                   ("file_id=" +:+ Id info) StatusBadRequest))
  else
  match FileReader a (ThumbnailPath info) s with
  | inl err => Returned w (setErr c (withStatusCode err StatusNotFound))
  | inr fileReader =>
      sendFile a c w (Name info) THUMBNAIL_IMAGE_TYPE 0 fileReader
        forceDownload
  end
  end
  end.

Definition getFilePreview {S} (ra : ReadApp S) (c : Context)
    (w : ResponseWriter) (r : Request) (s : S) : Outcome :=
  let a := app ra in
  let c := RequireFileId a c in
  match Err c with
  | Some _ => Returned w c
  | None =>
  let forceDownload := forceDownloadOf r in
  match GetFileInfo a (Params_FileId c) s with
  | inl err => Returned w (setErr c err)
  | inr info =>
  if mayNotRead ra c info then
    Returned w (SetPermissionError c PERMISSION_READ_CHANNEL)
  else
  if decide (PreviewPath info = "") then
    Returned w
      (setErr c (NewAppError "getFilePreview"
                   "api.file.get_file_preview.no_preview.app_error" []
                   ("file_id=" +:+ Id info) StatusBadRequest))
  else
  match FileReader a (PreviewPath info) s with
  | inl err => Returned w (setErr c (withStatusCode err StatusNotFound))
  | inr fileReader =>
      sendFile a c w (Name info) PREVIEW_IMAGE_TYPE 0 fileReader forceDownload
  end
  end
  end.

(** [getFileLink]; [siteURL] is [c.GetSiteURLHeader()]. *)
Definition getFileLink {S} (ra : ReadApp S) (c : Context) (w : ResponseWriter)
    (siteURL : string) (s : S) : Outcome :=
  let a := app ra in
  let c := RequireFileId a c in
  match Err c with
  | Some _ => Returned w c
  | None =>
  if negb (EnablePublicLink (Config a)) then
    Returned w
      (setErr c (NewAppError "getPublicLink"
                   "api.file.get_public_link.disabled.app_error" [] ""
                   StatusNotImplemented))
  else
  match GetFileInfo a (Params_FileId c) s with
  | inl err => Returned w (setErr c err)
  | inr info =>
  if mayNotRead ra c info then
    Returned w (SetPermissionError c PERMISSION_READ_CHANNEL)
  else
  if decide (len (PostId info) = 0) then
    Returned w
      (setErr c (NewAppError "getPublicLink"
                   "api.file.get_public_link.no_post.app_error" []
                   ("file_id=" +:+ Id info) StatusBadRequest))
  else
    Returned
      (Write (Text (MapToJson ra [("link", GeneratePublicLink ra siteURL info)]))
         w) c
  end
  end.

Definition getFileInfo {S} (ra : ReadApp S) (c : Context) (w : ResponseWriter)
    (s : S) : Outcome :=
  let a := app ra in
  let c := RequireFileId a c in
  match Err c with
  | Some _ => Returned w c
  | None =>
  match GetFileInfo a (Params_FileId c) s with
  | inl err => Returned w (setErr c err)
  | inr info =>
  if mayNotRead ra c info then
    Returned w (SetPermissionError c PERMISSION_READ_CHANNEL)
  else
    Returned
      (Write (Text (FileInfoToJson ra info))
         (HeaderSet "Cache-Control" "max-age=2592000, public" w)) c
  end
  end.

(** ** Concrete applications for the retrieval handlers and for the batch
    uploads *)

Definition picture26 : string := "pppppppppppppppppppppppppp".
Definition lost26 : string := "llllllllllllllllllllllllll".

(** A file with a thumbnail and a preview, stored as HTML. *)
Definition pictureInfo : FileInfo :=
  {| Id := picture26;
     CreatorId := "user";
     PostId := "post";
     Path := "20181231/teams/noteam/channels/c/users/user/p/page.html";
     ThumbnailPath := "20181231/teams/noteam/channels/c/users/user/p/page_thumb.jpg";
     PreviewPath := "20181231/teams/noteam/channels/c/users/user/p/page_preview.jpg";
     Name := "page.html";
     Size := 4;
     MimeType := "text/html" |}.

(** A file of the database whose data the file store has lost; it is
    attached to no post. *)
Definition lostInfo : FileInfo :=
  {| Id := lost26;
     CreatorId := "user";
     PostId := "";
     Path := "lost";
     ThumbnailPath := "lost";
     PreviewPath := "lost";
     Name := "lost.png";
     Size := 4;
     MimeType := "image/png" |}.

Definition readFailed : AppError :=
  NewAppError "FileReader" "api.file.file_reader.reading_local.app_error" []
    "" StatusInternalServerError.

(** [demoApp] with three files in the database, one of them lost by the
    file store. *)
Definition galleryApp (cfg : FileSettings) : App (list UploadFileContext) :=
  {| Config := cfg;
     UploadFile := UploadFile (demoApp cfg);
     UploadFiles := UploadFiles (demoApp cfg);
     UploadMultipartFiles := UploadMultipartFiles (demoApp cfg);
     SessionHasPermissionToChannel := SessionHasPermissionToChannel (demoApp cfg);
     GetFileInfo fileId _ :=
       if decide (fileId = file26) then inr knownInfo
       else if decide (fileId = picture26) then inr pictureInfo
       else if decide (fileId = lost26) then inr lostInfo
       else inl notFound;
     FileReader path _ :=
       if decide (path = "lost") then inl readFailed
       else inr {| Data := "data"; ReadErr := None |};
     GeneratePublicLinkHash := GeneratePublicLinkHash (demoApp cfg);
     IsValidId := IsValidId (demoApp cfg);
     PathEscape := PathEscape (demoApp cfg);
     FormTooLarge := FormTooLarge (demoApp cfg) |}.

(** The application of the retrieval handlers: a session may read the
    channel of the post named post. *)
Definition demoReadApp (cfg : FileSettings) : ReadApp (list UploadFileContext) :=
  {| app := galleryApp cfg;
     SessionHasPermissionToChannelByPost _ postId _ :=
       bool_decide (postId = "post");
     GeneratePublicLink siteURL info :=
       siteURL +:+ "/files/" +:+ Id info +:+ "/public?h=" +:+
       GeneratePublicLinkHash (galleryApp cfg) (Id info) (PublicLinkSalt cfg);
     MapToJson m := match m with
                    | [(k, v)] => k +:+ "=" +:+ v
                    | _ => ""
                    end;
     FileInfoToJson info := Id info |}.

(** [demoApp] with a log of what the two batch uploads are given, for
    sessions that may upload to every channel or to none ([perm]). *)
Definition loggingApp (perm : bool) (cfg : FileSettings)
    : App (list UploadFileContext) :=
  {| Config := cfg;
     UploadFile := UploadFile (demoApp cfg);
     UploadFiles _ _ _ files _ _ _ s :=
       (inr emptyResponse,
        s ++ map (fun f => uploadOf "" "" (Data f)) files);
     UploadMultipartFiles _ _ _ files _ _ s :=
       (inr emptyResponse,
        s ++ map (fun fh => uploadOf "" (Filename fh) (content fh)) files);
     SessionHasPermissionToChannel _ _ _ := perm;
     GetFileInfo := GetFileInfo (demoApp cfg);
     FileReader := FileReader (demoApp cfg);
     GeneratePublicLinkHash := GeneratePublicLinkHash (demoApp cfg);
     IsValidId := IsValidId (demoApp cfg);
     PathEscape := PathEscape (demoApp cfg);
     FormTooLarge := FormTooLarge (demoApp cfg) |}.

(** The variables of the loops of the two revisions side by side, as long
    as no client id has come: none is waiting or expected to match, and the
    responses under construction are the same. *)
Definition noClientIds (st4 : Api4.LoopState) (st1 : Part001.LoopState)
    : Prop :=
  Api4.haveClientIds st4 = false /\ Api4.clientIds st4 = [] /\
  Part001.clientIds st1 = [] /\ Api4.resp st4 = Part001.resp st1 /\
  (Part001.expectClientIds st1 = true -> Part001.nFiles st1 = 0%nat).

(** A GET with the query parameter [download]. *)
Definition downloadRequest (download : string) : Request :=
  {| Req_ContentLength := 0;
     Query := {[ "download" := [download] ]};
     ParseFormErr := None;
     Req_Body := NotMultipart {| Data := ""; ReadErr := None |} |}.

(** The context of a session of [userId] that asks for [fileId]. *)
Definition readContext (userId fileId : string) : Context :=
  {| Params_ChannelId := "";
     Params_Filename := "";
     Params_FileId := fileId;
     Session_UserId := userId;
     Err := None |}.

(** * Properties *)

(** ** The headers of a file response *)

Lemma rewriteUnsafe_hit contentType unsafe :
  (exists u, In u unsafe /\ HasPrefix contentType u = true) ->
  rewriteUnsafe contentType unsafe = "text/plain".
Proof.
  induction unsafe as [|u0 rest IH]; intros [u [Hin Hp]]; simpl in *.
  - contradiction.
  - destruct (HasPrefix contentType u0) eqn:E; [done|].
    destruct Hin as [->|Hin]; [congruence|]. apply IH; eauto.
Qed.

Lemma rewriteUnsafe_miss contentType unsafe :
  (forall u, In u unsafe -> HasPrefix contentType u = false) ->
  rewriteUnsafe contentType unsafe = contentType.
Proof.
  induction unsafe as [|u0 rest IH]; intros H; simpl in *; [done|].
  rewrite H by auto. apply IH; auto.
Qed.

Lemma isMediaType_true contentType media :
  isMediaType contentType media = true <->
  exists m, In m media /\ HasPrefix contentType m = true.
Proof.
  induction media as [|m0 rest IH]; simpl.
  - split; [done|]. intros [m [[] _]].
  - destruct (HasPrefix contentType m0) eqn:E.
    + split; [|done]. intros _. exists m0; auto.
    + rewrite IH. split; intros [m [Hin Hp]].
      * exists m; auto.
      * destruct Hin as [->|Hin]; [congruence|]. exists m; auto.
Qed.

Lemma header_content_type {S} (a : App S) filename contentType contentSize fileReader forceDownload w :
  Header (writeFileResponse a filename contentType contentSize fileReader forceDownload w).1
    !! "Content-Type" = Some (responseContentType contentType).
Proof.
  unfold writeFileResponse. cbn [fst].
  destruct (toDownload _ _); cbn;
    repeat (rewrite lookup_insert_ne by done); by rewrite lookup_insert_eq.
Qed.

Lemma prefix_comparable (s p q : string) :
  String.prefix p s = true -> String.prefix q s = true ->
  String.prefix p q = true \/ String.prefix q p = true.
Proof.
  revert p q. induction s as [|ch s IH]; intros [|a p] [|b q]; simpl; auto; try done.
  destruct (ascii_dec a ch) as [->|]; [|done].
  destruct (ascii_dec b ch) as [->|]; [|done].
  destruct (ascii_dec ch ch); [|done]. apply IH.
Qed.

Lemma unsafe_media_apart u m :
  In u UNSAFE_CONTENT_TYPES -> In m MEDIA_CONTENT_TYPES ->
  String.prefix u m = false /\ String.prefix m u = false.
Proof.
  intros Hu Hm.
  assert (H : forallb (fun u => forallb (fun m =>
      negb (String.prefix u m) && negb (String.prefix m u))
      MEDIA_CONTENT_TYPES) UNSAFE_CONTENT_TYPES = true) by (vm_compute; reflexivity).
  rewrite forallb_forall in H. specialize (H u Hu).
  rewrite forallb_forall in H. specialize (H m Hm).
  apply andb_true_iff in H as [H1 H2].
  apply negb_true_iff in H1, H2. done.
Qed.

Lemma isMediaType_response contentType :
  isMediaType (responseContentType contentType) MEDIA_CONTENT_TYPES =
  isMediaType contentType MEDIA_CONTENT_TYPES.
Proof.
  unfold responseContentType. case_decide as E; [by subst|].
  destruct (existsb (HasPrefix contentType) UNSAFE_CONTENT_TYPES) eqn:Ex.
  - apply existsb_exists in Ex as [u [Hu Hp]].
    rewrite (rewriteUnsafe_hit contentType UNSAFE_CONTENT_TYPES) by eauto.
    symmetry. apply not_true_is_false. intros Hm.
    apply isMediaType_true in Hm as [m [Hm Hpm]].
    destruct (unsafe_media_apart u m Hu Hm) as [H1 H2].
    destruct (prefix_comparable contentType u m Hp Hpm); congruence.
  - rewrite rewriteUnsafe_miss; [done|]. intros u Hu.
    apply not_true_is_false. intros Hp.
    assert (existsb (HasPrefix contentType) UNSAFE_CONTENT_TYPES = true)
      by (apply existsb_exists; eauto). congruence.
Qed.

Lemma header_content_disposition {S} (a : App S) filename contentType contentSize fileReader forceDownload w :
  Header (writeFileResponse a filename contentType contentSize fileReader forceDownload w).1
    !! "Content-Disposition" =
  Some ((if toDownload (responseContentType contentType) forceDownload
         then "attachment" else "inline") +:+
        ";filename=" +:+ dquote +:+ PathEscape a filename +:+ dquote +:+
        "; filename*=UTF-8''" +:+ PathEscape a filename).
Proof.
  unfold writeFileResponse. cbn [fst].
  destruct (toDownload _ _); cbn;
    repeat (rewrite lookup_insert_ne by done); by rewrite lookup_insert_eq.
Qed.

(** The Content-Type header that [writeFileResponse] sets, by the content
    type it is given: application/octet-stream for the empty type,
    text/plain for a type that has one of the unsafe types as a prefix, and
    the type itself otherwise. *)
Lemma writeFileResponse_content_type {S} (a : App S) filename contentType
    contentSize fileReader forceDownload w :
  let emitted :=
    Header (writeFileResponse a filename contentType contentSize fileReader
              forceDownload w).1 !! "Content-Type" in
  (contentType = "" -> emitted = Some "application/octet-stream") /\
  (contentType <> "" ->
   (exists u, In u UNSAFE_CONTENT_TYPES /\ HasPrefix contentType u = true) ->
   emitted = Some "text/plain") /\
  (contentType <> "" ->
   (forall u, In u UNSAFE_CONTENT_TYPES -> HasPrefix contentType u = false) ->
   emitted = Some contentType).
Proof.
  cbv zeta. rewrite header_content_type. unfold responseContentType.
  repeat split.
  - intros ->. done.
  - intros Hne Hex. case_decide; [done|]. by rewrite rewriteUnsafe_hit.
  - intros Hne Hall. case_decide; [done|]. by rewrite rewriteUnsafe_miss.
Qed.

Lemma HasPrefix_append (p rest : string) : HasPrefix (p +:+ rest) p = true.
Proof.
  unfold HasPrefix. induction p as [|ch p IH]; simpl.
  - by destruct rest.
  - destruct (ascii_dec ch ch); [apply IH | done].
Qed.

(** C9 (as amended). The Content-Disposition header of every file response
    begins with inline exactly when one of the allowed media types is a
    prefix of the content type and download was not requested; in every
    other case it begins with attachment. *)
Theorem writeFileResponse_content_disposition {S} (a : App S) filename
    contentType contentSize fileReader forceDownload w :
  exists v,
    Header (writeFileResponse a filename contentType contentSize fileReader
              forceDownload w).1 !! "Content-Disposition" = Some v /\
    ((forceDownload = false /\
      exists m, In m MEDIA_CONTENT_TYPES /\ HasPrefix contentType m = true) ->
     HasPrefix v "inline" = true /\ HasPrefix v "attachment" = false) /\
    (~ (forceDownload = false /\
        exists m, In m MEDIA_CONTENT_TYPES /\ HasPrefix contentType m = true) ->
     HasPrefix v "attachment" = true /\ HasPrefix v "inline" = false).
Proof.
  eexists. split; [apply header_content_disposition|].
  unfold toDownload. rewrite isMediaType_response.
  destruct forceDownload.
  - split; [intros [? _]; done|]. intros _. split; reflexivity.
  - destruct (isMediaType contentType MEDIA_CONTENT_TYPES) eqn:E.
    + split; [intros _; split; reflexivity|].
      intros H. exfalso. apply H. split; [done|]. by apply isMediaType_true.
    + split; [|intros _; split; reflexivity].
      intros [_ H]. apply isMediaType_true in H. congruence.
Qed.

Lemma writeFileResponse_content_disposition_witness :
  (exists v,
     Header (writeFileResponse (demoApp demoSettings) "test.png" "image/png" 4
               {| Data := "data"; ReadErr := None |} false emptyWriter).1
       !! "Content-Disposition" = Some v /\
     HasPrefix v "inline" = true) /\
  (exists v,
     Header (writeFileResponse (demoApp demoSettings) "test.png" "image/png" 4
               {| Data := "data"; ReadErr := None |} true emptyWriter).1
       !! "Content-Disposition" = Some v /\
     HasPrefix v "attachment" = true).
Proof.
  split.
  - destruct (writeFileResponse_content_disposition (demoApp demoSettings)
                "test.png" "image/png" 4 {| Data := "data"; ReadErr := None |}
                false emptyWriter) as [v [Hv [Hin _]]].
    exists v. split; [exact Hv|].
    apply Hin. split; [reflexivity|].
    exists "image/png". split; [simpl; tauto | reflexivity].
  - destruct (writeFileResponse_content_disposition (demoApp demoSettings)
                "test.png" "image/png" 4 {| Data := "data"; ReadErr := None |}
                true emptyWriter) as [v [Hv [_ Hout]]].
    exists v. split; [exact Hv|].
    apply Hout. intros [Hd _]. discriminate Hd.
Defined.

(** C9, the claim as stated fails: audio/wave is not in the list of media
    types, download is not requested, and the header begins with inline. *)
Lemma content_disposition_inline_outside_list :
  ~ In "audio/wave" MEDIA_CONTENT_TYPES /\
  exists v,
    Header (writeFileResponse (demoApp demoSettings) "sound.wav" "audio/wave"
              4 {| Data := "RIFF"; ReadErr := None |} false emptyWriter).1
      !! "Content-Disposition" = Some v /\
    HasPrefix v "inline" = true /\ HasPrefix v "attachment" = false.
Proof.
  split.
  - simpl. intros H. repeat (destruct H as [H|H]; [discriminate H|]). exact H.
  - eexists. split; [apply header_content_disposition|]. split; reflexivity.
Qed.

(** ** The public link *)

Lemma log2_byte b : isByte b -> Z.log2 b < 8.
Proof.
  intros [H0 H1]. destruct (decide (b = 0)) as [->|Hne]; [done|].
  apply (Z.log2_lt_pow2 b 8); lia.
Qed.

Lemma isByte_of_log2 b : 0 <= b -> Z.log2 b < 8 -> isByte b.
Proof.
  intros H0 Hl. split; [done|].
  destruct (decide (b = 0)) as [->|Hne]; [done|].
  apply (Z.log2_lt_pow2 b 8); lia.
Qed.

Lemma isByte_lor a b : isByte a -> isByte b -> isByte (Z.lor a b).
Proof.
  intros Ha Hb. apply isByte_of_log2.
  - apply Z.lor_nonneg. unfold isByte in *. lia.
  - rewrite Z.log2_lor by (unfold isByte in *; lia).
    pose proof (log2_byte a Ha). pose proof (log2_byte b Hb). lia.
Qed.

Lemma isByte_lxor a b : isByte a -> isByte b -> isByte (Z.lxor a b).
Proof.
  intros Ha Hb. apply isByte_of_log2.
  - apply Z.lxor_nonneg. unfold isByte in *. lia.
  - pose proof (Z.log2_lxor a b). pose proof (log2_byte a Ha).
    pose proof (log2_byte b Hb). unfold isByte in *. lia.
Qed.

Lemma ConstantTimeByteEq_zero v :
  isByte v -> ConstantTimeByteEq v 0 = if decide (v = 0) then 1 else 0.
Proof.
  intros [H0 H1]. unfold ConstantTimeByteEq. rewrite Z.lxor_0_r.
  case_decide as E.
  - subst. reflexivity.
  - rewrite Z.mod_small by lia. rewrite Z.shiftr_div_pow2 by lia.
    apply Z.div_small. lia.
Qed.

Lemma bytes_isByte s : Forall isByte (bytes s).
Proof.
  unfold bytes. induction s as [|ch s IH]; simpl; constructor; [|done].
  pose proof (N_ascii_bounded ch). unfold isByte. lia.
Qed.

Lemma bytes_inj s1 s2 : bytes s1 = bytes s2 -> s1 = s2.
Proof.
  unfold bytes. revert s2.
  induction s1 as [|a s1 IH]; intros [|b s2]; simpl; try done.
  intros H. injection H as Hab Hrest. f_equal; [|by apply IH].
  apply N2Z.inj in Hab.
  rewrite <- (ascii_N_embedding a), <- (ascii_N_embedding b). by rewrite Hab.
Qed.

Lemma bytes_length s : length (bytes s) = String.length s.
Proof. unfold bytes. induction s; simpl; [done|]. by f_equal. Qed.

(** The loop makes one iteration for each byte, and its accumulator ends
    at 0 exactly when it started at 0 and the two slices are equal. *)
Lemma ConstantTimeCompare_loop_spec x : forall y v steps,
  length x = length y -> Forall isByte x -> Forall isByte y -> isByte v ->
  let '(v', steps') := ConstantTimeCompare_loop x y v steps in
  steps' = (steps + length x)%nat /\ isByte v' /\
  (v' = 0 <-> v = 0 /\ x = y).
Proof.
  induction x as [|xi x IH]; intros [|yi y] v steps Hlen Hx Hy Hv;
    simpl in *; try done.
  - repeat split; [lia | apply Hv.. | tauto | tauto].
  - inversion Hx as [|? ? Hxi Hx']; inversion Hy as [|? ? Hyi Hy']; subst.
    specialize (IH y (Z.lor v (Z.lxor xi yi)) (Datatypes.S steps)).
    destruct (ConstantTimeCompare_loop x y _ _) as [v' steps'].
    destruct IH as [Hs [Hb Hz]]; [lia | done | done | |].
    { apply isByte_lor; [done|]. by apply isByte_lxor. }
    split; [lia|]. split; [done|]. rewrite Hz.
    rewrite Z.lor_eq_0_iff, Z.lxor_eq_0_iff. split.
    + intros [[-> ->] ->]. done.
    + intros [-> E]. by injection E as -> ->.
Qed.

Lemma ConstantTimeCompare_cost_spec x y :
  Forall isByte x -> Forall isByte y ->
  ConstantTimeCompare_cost x y =
  if decide (length x = length y)
  then (if decide (x = y) then 1 else 0, length x)
  else (0, O).
Proof.
  intros Hx Hy. unfold ConstantTimeCompare_cost.
  case_decide as Hlen; [|done].
  pose proof (ConstantTimeCompare_loop_spec x y 0 O Hlen Hx Hy) as H.
  destruct (ConstantTimeCompare_loop x y 0 0) as [v steps].
  destruct H as [-> [Hb Hz]]; [unfold isByte; lia|].
  rewrite ConstantTimeByteEq_zero by done. f_equal.
  repeat case_decide; try done; tauto.
Qed.


Lemma len_zero (s : string) : len s = 0 <-> s = "".
Proof. unfold len. destruct s; simpl; split; intros; (done || lia). Qed.

Lemma compare_bytes_eq (h expected : string) :
  ConstantTimeCompare (bytes h) (bytes expected) = 1 <-> h = expected.
Proof.
  unfold ConstantTimeCompare.
  rewrite ConstantTimeCompare_cost_spec by apply bytes_isByte.
  split.
  - repeat case_decide; simpl; try done. intros _. by apply bytes_inj.
  - intros ->. repeat case_decide; simpl; done.
Qed.

Lemma compare_bytes_steps (h expected : string) :
  (ConstantTimeCompare_cost (bytes h) (bytes expected)).2 =
  if decide (String.length h = String.length expected) then String.length h
  else O.
Proof.
  rewrite ConstantTimeCompare_cost_spec by apply bytes_isByte.
  rewrite !bytes_length. by repeat case_decide.
Qed.

(** [getPublicFile] once the file is found: the ways that are left, and
    the iterations that the comparison made. *)
Lemma getPublicFile_steps_found {S} (a : App S) c w r s info :
  Err c = None ->
  IsValidId a (Params_FileId c) = true ->
  EnablePublicLink (Config a) = true ->
  GetFileInfo a (Params_FileId c) s = inr info ->
  let expected :=
    GeneratePublicLinkHash a (Id info) (PublicLinkSalt (Config a)) in
  getPublicFile_steps a c w r s =
  if decide (len (QueryGet r "h") = 0) then
    (Returned (RenderWebAppError publicInvalid w) (setErr c publicInvalid), O)
  else
    (if decide (ConstantTimeCompare (bytes (QueryGet r "h")) (bytes expected)
                <> 1)
     then Returned (RenderWebAppError publicInvalid w)
            (setErr c publicInvalid)
     else match FileReader a (Path info) s with
          | inl err => Panicked w (setErr c (withStatusCode err StatusNotFound))
          | inr fileReader =>
              Returned (writeFileResponse a (Name info) (MimeType info)
                          (Size info) fileReader false w).1 c
          end,
     (ConstantTimeCompare_cost (bytes (QueryGet r "h")) (bytes expected)).2).
Proof.
  intros Herr Hid Hen Hinfo expected.
  unfold getPublicFile_steps, RequireFileId.
  rewrite Herr, Hid, Herr, Hen, Hinfo. cbn [negb]. cbv zeta.
  case_decide as Hlen; [done|].
  unfold ConstantTimeCompare. fold expected.
  destruct (ConstantTimeCompare_cost (bytes (QueryGet r "h")) (bytes expected))
    as [v steps].
  cbn [fst snd]. case_decide; [done|].
  by destruct (FileReader a (Path info) s).
Qed.

(** What [getPublicFile] does once the file is found. *)
Lemma getPublicFile_found {S} (a : App S) c w r s info :
  Err c = None ->
  IsValidId a (Params_FileId c) = true ->
  EnablePublicLink (Config a) = true ->
  GetFileInfo a (Params_FileId c) s = inr info ->
  outcomeErr (getPublicFile a c w r s) = Some publicInvalid <->
  QueryGet r "h" = "" \/
  QueryGet r "h" <>
    GeneratePublicLinkHash a (Id info) (PublicLinkSalt (Config a)).
Proof.
  intros Herr Hid Hen Hinfo. unfold getPublicFile.
  rewrite (getPublicFile_steps_found a c w r s info) by done. cbv zeta.
  case_decide as Hlen.
  - apply len_zero in Hlen. simpl. tauto.
  - cbn [fst]. case_decide as Hcmp.
    + simpl. split; [intros _|done]. right. intros E. apply Hcmp.
      by apply compare_bytes_eq.
    + assert (Heq : QueryGet r "h" = GeneratePublicLinkHash a (Id info)
                                       (PublicLinkSalt (Config a))).
      { apply compare_bytes_eq. destruct (decide (ConstantTimeCompare
          (bytes (QueryGet r "h")) (bytes (GeneratePublicLinkHash a (Id info)
          (PublicLinkSalt (Config a)))) = 1)); [done|contradiction]. }
      rewrite len_zero in Hlen.
      destruct (FileReader a (Path info) s) as [err|fileReader]; simpl.
      * split; [|tauto]. unfold publicInvalid, withStatusCode.
        intros E. injection E as _ _ _ _ E. discriminate E.
      * rewrite Herr. split; [done|tauto].
Qed.

(** C5. [getPublicFile] checks the [h] parameter against the recomputed
    hash of the file id under the current salt with
    [subtle.ConstantTimeCompare] on the bytes of the two strings.  The work
    of the handler's comparison is the number of iterations of its loop: for
    two candidates of the same length the handler makes the same number of
    iterations; for a candidate that is not empty it makes as many as the
    candidate has bytes when the lengths of candidate and hash agree, and
    none otherwise.  The comparison gives 1 exactly for the recomputed hash,
    the handler rejects a candidate exactly when it is empty or differs from
    the recomputed hash, and two requests whose candidates both equal the
    hash, or both differ from it, have the same outcome. *)
Theorem getPublicFile_constant_time_compare {S} (a : App S) c w r1 r2 s info :
  Err c = None ->
  IsValidId a (Params_FileId c) = true ->
  EnablePublicLink (Config a) = true ->
  GetFileInfo a (Params_FileId c) s = inr info ->
  String.length (QueryGet r1 "h") = String.length (QueryGet r2 "h") ->
  let expected :=
    GeneratePublicLinkHash a (Id info) (PublicLinkSalt (Config a)) in
  (getPublicFile_steps a c w r1 s).2 = (getPublicFile_steps a c w r2 s).2 /\
  (forall r, QueryGet r "h" <> "" ->
     (getPublicFile_steps a c w r s).2 =
       (ConstantTimeCompare_cost (bytes (QueryGet r "h")) (bytes expected)).2 /\
     (getPublicFile_steps a c w r s).2 =
       if decide (String.length (QueryGet r "h") = String.length expected)
       then String.length (QueryGet r "h") else O) /\
  (forall r, ConstantTimeCompare (bytes (QueryGet r "h")) (bytes expected) =
             if decide (QueryGet r "h" = expected) then 1 else 0) /\
  (forall r, outcomeErr (getPublicFile a c w r s) = Some publicInvalid <->
             QueryGet r "h" = "" \/ QueryGet r "h" <> expected) /\
  (forall r r',
     (QueryGet r "h" = expected <-> QueryGet r' "h" = expected) ->
     getPublicFile a c w r s = getPublicFile a c w r' s).
Proof.
  intros Herr Hid Hen Hinfo Hlen expected.
  assert (Hsteps : forall r,
    (getPublicFile_steps a c w r s).2 =
    if decide (QueryGet r "h" = "") then O
    else if decide (String.length (QueryGet r "h") = String.length expected)
         then String.length (QueryGet r "h") else O).
  { intros r. rewrite (getPublicFile_steps_found a c w r s info) by done.
    cbv zeta. fold expected.
    destruct (decide (len (QueryGet r "h") = 0)) as [E|E].
    - rewrite (decide_True (P := QueryGet r "h" = ""))
        by (by apply len_zero).
      done.
    - rewrite (decide_False (P := QueryGet r "h" = ""))
        by (intros Hq; apply E; by apply len_zero).
      cbn [snd].
      apply compare_bytes_steps. }
  assert (Hcmp : forall r,
    ConstantTimeCompare (bytes (QueryGet r "h")) (bytes expected) =
    if decide (QueryGet r "h" = expected) then 1 else 0).
  { intros r. unfold ConstantTimeCompare.
    rewrite ConstantTimeCompare_cost_spec by apply bytes_isByte.
    repeat case_decide; simpl; try done.
    - exfalso.
      match goal with H : bytes _ = bytes _ |- _ => apply bytes_inj in H end.
      done.
    - exfalso.
      match goal with H : bytes _ <> bytes _ |- _ => apply H end. congruence.
    - exfalso.
      match goal with H : length _ <> length _ |- _ => apply H end.
      congruence. }
  split; [|split; [|split; [|split]]].
  - rewrite !Hsteps, Hlen.
    destruct (decide (QueryGet r1 "h" = "")) as [E1|E1],
             (decide (QueryGet r2 "h" = "")) as [E2|E2]; try done.
    + rewrite E1 in Hlen. destruct (QueryGet r2 "h"); [done|discriminate Hlen].
    + rewrite E2 in Hlen. destruct (QueryGet r1 "h"); [done|discriminate Hlen].
  - intros r Hne. split.
    + rewrite Hsteps, (decide_False (P := QueryGet r "h" = "")) by done.
      symmetry. apply compare_bytes_steps.
    + by rewrite Hsteps, (decide_False (P := QueryGet r "h" = "")).
  - exact Hcmp.
  - intros r. by apply getPublicFile_found.
  - intros r r' Hiff. unfold getPublicFile.
    rewrite !(getPublicFile_steps_found a c w _ s info) by done. cbv zeta.
    fold expected. rewrite !Hcmp.
    destruct (decide (QueryGet r "h" = expected)) as [E|E],
             (decide (QueryGet r' "h" = expected)) as [E'|E'];
      try (exfalso; tauto).
    + rewrite E, E'. done.
    + destruct (decide (len (QueryGet r "h") = 0)),
               (decide (len (QueryGet r' "h") = 0)); done.
Qed.

Lemma getPublicFile_constant_time_compare_witness :
  (getPublicFile_steps (demoApp demoSettings) (publicContext file26)
     emptyWriter (publicRequest ("salt" +:+ file26)) []).2 =
  (getPublicFile_steps (demoApp demoSettings) (publicContext file26)
     emptyWriter (publicRequest ("pepa" +:+ file26)) []).2 /\
  (getPublicFile_steps (demoApp demoSettings) (publicContext file26)
     emptyWriter (publicRequest ("pepa" +:+ file26)) []).2 = 30%nat.
Proof.
  pose proof (getPublicFile_constant_time_compare (demoApp demoSettings)
                (publicContext file26) emptyWriter
                (publicRequest ("salt" +:+ file26))
                (publicRequest ("pepa" +:+ file26)) [] knownInfo
                eq_refl eq_refl eq_refl eq_refl eq_refl) as (H1 & H2 & _).
  split; [exact H1|].
  destruct (H2 (publicRequest ("pepa" +:+ file26))) as [_ H];
    [discriminate|].
  rewrite H. reflexivity.
Defined.

Lemma app_singleton_neq {A} (l : list A) (x : A) (l' : list A) :
  l' = l \/ (exists z, l' = l ++ [z] /\ z <> x) -> l' <> l ++ [x].
Proof.
  intros [->|[z [-> Hz]]] E.
  - apply (f_equal length) in E. rewrite length_app in E. simpl in E. lia.
  - apply app_inj_tail in E as [_ E]. done.
Qed.

(** C10 (as amended). With public links enabled, [getPublicFile] looks the
    file up before it looks at [h]: for a well-formed file id that the
    lookup does not find, the handler returns the lookup error whatever the
    request carries as [h], and nothing is written; the error page of an
    invalid hash is written only after a lookup that succeeded. *)
Theorem getPublicFile_lookup_before_hash {S} (a : App S) c w s :
  Err c = None ->
  IsValidId a (Params_FileId c) = true ->
  EnablePublicLink (Config a) = true ->
  (forall err r,
     GetFileInfo a (Params_FileId c) s = inl err ->
     getPublicFile a c w r s = Returned w (setErr c err)) /\
  (forall r,
     Body (outcomeWriter (getPublicFile a c w r s)) =
       Body w ++ [ErrorPage publicInvalid] ->
     exists info, GetFileInfo a (Params_FileId c) s = inr info).
Proof.
  intros Herr Hid Hen. unfold getPublicFile, getPublicFile_steps, RequireFileId.
  rewrite Herr, Hid, Herr, Hen. simpl. split.
  - intros err r ->. done.
  - intros r. destruct (GetFileInfo a (Params_FileId c) s) as [err|info].
    + simpl. intros E. exfalso. revert E. apply app_singleton_neq. by left.
    + eauto.
Qed.

Lemma getPublicFile_lookup_before_hash_witness :
  getPublicFile (demoApp demoSettings) (publicContext unknown26) emptyWriter
    (publicRequest ("salt" +:+ unknown26)) [] =
  Returned emptyWriter (setErr (publicContext unknown26) notFound) /\
  exists info, GetFileInfo (demoApp demoSettings) file26 [] = inr info.
Proof.
  split.
  - apply (getPublicFile_lookup_before_hash (demoApp demoSettings)
             (publicContext unknown26) emptyWriter []); reflexivity.
  - apply (getPublicFile_lookup_before_hash (demoApp demoSettings)
             (publicContext file26) emptyWriter [] eq_refl eq_refl eq_refl)
      with (r := publicRequest "forged").
    reflexivity.
Defined.

(** C10, the claim as stated fails: with public links disabled the handler
    answers NotImplemented for a well-formed, unknown file id, and not the
    error of the lookup. *)
Lemma getPublicFile_disabled_before_lookup :
  IsValidId (demoApp noPublicLinkSettings) unknown26 = true /\
  GetFileInfo (demoApp noPublicLinkSettings) unknown26 [] = inl notFound /\
  getPublicFile (demoApp noPublicLinkSettings) (publicContext unknown26)
    emptyWriter (publicRequest ("salt" +:+ unknown26)) [] =
  Returned emptyWriter
    (setErr (publicContext unknown26)
       (NewAppError "getPublicFile"
          "api.file.get_public_link.disabled.app_error" [] ""
          StatusNotImplemented)) /\
  StatusNotImplemented <> StatusCode notFound.
Proof. repeat split; done. Qed.

(** ** The upload facade *)

(** C6 (as amended). With [EnableFileAttachments] off, [uploadFileStream]
    of either revision rejects the request with NotImplemented before
    anything else: nothing is written, the body is not read, and the
    application state is untouched. *)
Theorem uploadFileStream_attachments_disabled {S} (a : App S) c w r timestamp s :
  EnableFileAttachments (Config a) = false ->
  Part001.uploadFileStream a c w r timestamp s =
    {| hw := w; hc := setErr c (attachmentsDisabled "uploadFileStream");
       hs := s; bodyRead := false |} /\
  Api4.uploadFileStream a c w r timestamp s =
    {| hw := w; hc := setErr c (attachmentsDisabled "uploadFile");
       hs := s; bodyRead := false |} /\
  StatusCode (attachmentsDisabled "uploadFileStream") = StatusNotImplemented /\
  StatusCode (attachmentsDisabled "uploadFile") = StatusNotImplemented.
Proof.
  intros H. unfold Part001.uploadFileStream, Api4.uploadFileStream.
  rewrite H. done.
Qed.

Lemma uploadFileStream_attachments_disabled_witness :
  Part001.uploadFileStream (demoApp disabledSettings) demoContext emptyWriter
    (multipartRequest 64
       [field "channel_id" channel26; filePart "files" "a.txt" "hello"]) 0 [] =
  {| hw := emptyWriter;
     hc := setErr demoContext (attachmentsDisabled "uploadFileStream");
     hs := []; bodyRead := false |}.
Proof.
  apply (uploadFileStream_attachments_disabled (demoApp disabledSettings)).
  reflexivity.
Defined.

(** C6, the claim as stated fails: with an empty [DriverName] and
    attachments enabled the handlers do not answer NotImplemented.  A simple
    POST without a channel id is a BadRequest, and a multipart body is read
    before its channel id is found to be invalid. *)
Lemma uploadFileStream_empty_driver_not_rejected :
  DriverName (Config (demoApp noDriverSettings)) = "" /\
  (StatusCode <$> Err (hc (Part001.uploadFileStream (demoApp noDriverSettings)
       demoContext emptyWriter (rawRequest 5 "hello") 0 []))) =
    Some StatusBadRequest /\
  (StatusCode <$> Err (hc (Api4.uploadFileStream (demoApp noDriverSettings)
       demoContext emptyWriter (rawRequest 5 "hello") 0 []))) =
    Some StatusBadRequest /\
  (let h := Part001.uploadFileStream (demoApp noDriverSettings) demoContext
       emptyWriter
       (multipartRequest 64
          [field "channel_id" "junk"; filePart "files" "a.txt" "hello"]) 0 [] in
   (StatusCode <$> Err (hc h)) = Some StatusBadRequest /\ bodyRead h = true).
Proof. repeat split; vm_compute; reflexivity. Qed.

(** [uploadFileStream] does not look at the Content-Length of a multipart
    request: two requests that differ in it alone are handled alike. *)
Lemma uploadFileStream_multipart_any_length {S} (a : App S) c w r r' mr
    timestamp s :
  Req_Body r = Multipart mr -> Req_Body r' = Multipart mr ->
  ParseFormErr r = ParseFormErr r' ->
  Part001.uploadFileStream a c w r timestamp s =
    Part001.uploadFileStream a c w r' timestamp s /\
  Api4.uploadFileStream a c w r timestamp s =
    Api4.uploadFileStream a c w r' timestamp s.
Proof.
  intros Hr Hr' Hp.
  unfold Part001.uploadFileStream, Api4.uploadFileStream,
    Part001.uploadFileMultipart.
  by rewrite Hr, Hr', Hp.
Qed.

(** C4 at the failing input: a multipart request whose Content-Length (400)
    exceeds [MaxFileSize] (100) and whose two files are small is answered
    201 by [uploadFileStream] in both revisions, and both files are stored;
    the legacy handler [uploadFile] rejects the same request with 413. *)
Theorem uploadFileStream_ignores_content_length :
  let a := demoApp demoSettings in
  let r := multipartRequest 400
             [field "channel_id" channel26;
              filePart "files" "a.txt" (xs 60);
              filePart "files" "b.txt" (xs 60)] in
  MaxFileSize (Config a) < Req_ContentLength r /\
  (let h := Part001.uploadFileStream a demoContext emptyWriter r 0 [] in
   Status (hw h) = Some StatusCreated /\ Err (hc h) = None /\
   length (hs h) = 2%nat) /\
  (let h := Api4.uploadFileStream a demoContext emptyWriter r 0 [] in
   Status (hw h) = Some StatusCreated /\ Err (hc h) = None /\
   length (hs h) = 2%nat) /\
  (let h := uploadFile a demoContext emptyWriter r 0 [] in
   (StatusCode <$> Err (hc h)) = Some StatusRequestEntityTooLarge /\
   hs h = [] /\ bodyRead h = true).
Proof. repeat split; vm_compute; reflexivity. Qed.

(** ** Form values *)

Lemma substring_length (n : nat) (s : string) :
  (n <= String.length s)%nat -> String.length (String.substring 0 n s) = n.
Proof.
  revert s. induction n as [|n IH]; intros [|ch s]; simpl; intros H;
    try done; try lia.
  f_equal. apply IH. lia.
Qed.

Lemma substring_length_le (n : nat) (s : string) :
  (String.length (String.substring 0 n s) <= n)%nat.
Proof.
  revert s. induction n as [|n IH]; intros [|ch s]; simpl; try lia.
  specialize (IH s). lia.
Qed.

Lemma substring_idem (n : nat) (s : string) :
  String.substring 0 n (String.substring 0 n s) = String.substring 0 n s.
Proof.
  revert s. induction n as [|n IH]; intros [|ch s]; simpl; try done.
  f_equal. apply IH.
Qed.

Lemma substring_all (n : nat) (s : string) :
  (String.length s <= n)%nat -> String.substring 0 n s = s.
Proof.
  revert s. induction n as [|n IH]; intros [|ch s]; simpl; intros H;
    try done; try lia.
  f_equal. apply IH. lia.
Qed.

Lemma CopyN_capped (p : ByteStream) (n : Z) :
  0 <= n -> len (CopyN p n).1 <= n.
Proof.
  intros Hn. unfold CopyN. destruct (Z.leb_spec n (len (Data p))); simpl.
  - unfold len. pose proof (substring_length_le (Z.to_nat n) (Data p)). lia.
  - lia.
Qed.

Lemma CopyN_long (p : ByteStream) (n : Z) :
  n <= len (Data p) ->
  CopyN p n = (String.substring 0 (Z.to_nat n) (Data p), NoErr).
Proof. intros H. unfold CopyN. destruct (Z.leb_spec n (len (Data p))); [done|lia]. Qed.

Lemma CopyN_short (p : ByteStream) (n : Z) :
  len (Data p) < n ->
  CopyN p n = (Data p, match ReadErr p with None => EOF | Some e => OtherErr e end).
Proof. intros H. unfold CopyN. destruct (Z.leb_spec n (len (Data p))); [lia|done]. Qed.

(** A readable value of at most [n] bytes is read whole, without an error
    that the handlers act on. *)
Lemma CopyN_whole (p : ByteStream) (n : Z) :
  0 <= n -> len (Data p) <= n -> ReadErr p = None ->
  (CopyN p n).1 = Data p /\ forall e, (CopyN p n).2 <> OtherErr e.
Proof.
  intros Hn Hlen Hr. unfold CopyN.
  destruct (Z.leb_spec n (len (Data p))); simpl.
  - split; [|done]. apply substring_all. unfold len in *. lia.
  - rewrite Hr. done.
Qed.

Lemma CopyN_truncated (p : Part) :
  maxValueBytes <= len (Data (Content p)) ->
  CopyN (Content (truncated p)) maxValueBytes = CopyN (Content p) maxValueBytes.
Proof.
  intros H. rewrite (CopyN_long (Content p)) by done.
  rewrite CopyN_long; simpl.
  - by rewrite substring_idem.
  - unfold len in *. rewrite substring_length; lia.
Qed.

(** C7, the claim as stated fails: a client_ids value of 10241 bytes does
    not fail the request; the file is stored under the first 10240 bytes of
    the value, in both revisions. *)
Lemma oversized_form_value_accepted :
  let big := xs (Z.to_nat (maxValueBytes + 1)) in
  let r := multipartRequest 11000
             [field "channel_id" channel26;
              field "client_ids" big;
              filePart "files" "a.txt" "hello"] in
  maxValueBytes < len big /\
  (let h := Part001.uploadFileStream (demoApp roomySettings) demoContext
              emptyWriter r 0 [] in
   Status (hw h) = Some StatusCreated /\ Err (hc h) = None /\
   map ClientIds (jsonResponses (hw h)) = [[xs (Z.to_nat maxValueBytes)]]) /\
  (let h := Api4.uploadFileStream (demoApp roomySettings) demoContext
              emptyWriter r 0 [] in
   Status (hw h) = Some StatusCreated /\ Err (hc h) = None /\
   map ClientIds (jsonResponses (hw h)) = [[xs (Z.to_nat maxValueBytes)]]).
Proof. repeat split; vm_compute; reflexivity. Qed.

(** ** The loops over a multipart body *)

(** Case analysis on what a part is for the handlers. *)
Lemma part_cases (p : Part) :
  FormName p = "" \/
  (exists name, name <> "" /\ isFormValue name p = true /\ isFilePart p = false) \/
  (isFilePart p = true /\ FormName p <> "" /\ FileName p <> "" /\
   forall name, isFormValue name p = false).
Proof.
  unfold isFormValue, isFilePart.
  destruct (decide (FormName p = "")) as [E|E]; [by left|right].
  destruct (decide (FileName p = "")) as [F|F].
  - left. exists (FormName p). rewrite !bool_decide_eq_true_2 by done.
    rewrite andb_false_r. done.
  - right. rewrite !bool_decide_eq_false_2 by done. repeat split; try done.
    intros name. by rewrite andb_false_r.
Qed.

Lemma isFormValue_inv name p :
  isFormValue name p = true -> FormName p = name /\ FileName p = "".
Proof.
  unfold isFormValue. intros H. apply andb_true_iff in H as [H1 H2].
  apply bool_decide_eq_true in H1, H2. done.
Qed.

Lemma isFilePart_inv p :
  isFilePart p = true -> FormName p <> "" /\ FileName p <> "".
Proof.
  unfold isFilePart. intros H. apply andb_true_iff in H as [H1 H2].
  apply negb_true_iff in H1, H2. apply bool_decide_eq_false in H1, H2. done.
Qed.

Lemma isFormValue_not_file name p :
  isFormValue name p = true -> isFilePart p = false.
Proof.
  intros H. apply isFormValue_inv in H as [_ H]. unfold isFilePart.
  rewrite (bool_decide_eq_true_2 _ H). apply andb_false_r.
Qed.

Lemma clientIdBeforeFile_app pre post :
  clientIdBeforeFile pre = true -> clientIdBeforeFile (pre ++ post) = true.
Proof.
  induction pre as [|p pre IH]; simpl; [done|].
  destruct (isFilePart p); [done|].
  destruct (isFormValue "client_ids" p); [done|]. apply IH.
Qed.

Lemma filePartsOf_app pre post :
  filePartsOf (pre ++ post) = filePartsOf pre ++ filePartsOf post.
Proof.
  induction pre as [|p pre IH]; simpl; [done|].
  destruct (isFilePart p); simpl; by rewrite IH.
Qed.

Lemma clientIdsOf_app pre post :
  clientIdsOf (pre ++ post) = clientIdsOf pre ++ clientIdsOf post.
Proof.
  induction pre as [|p pre IH]; simpl; [done|].
  destruct (isFormValue "client_ids" p); simpl; by rewrite IH.
Qed.

Lemma clientIdBeforeFile_clientIdsOf ps :
  clientIdBeforeFile ps = true -> clientIdsOf ps <> [].
Proof.
  induction ps as [|p ps IH]; simpl; [done|].
  destruct (isFilePart p) eqn:F; [done|].
  destruct (isFormValue "client_ids" p); [done|]. apply IH.
Qed.

(** The loops, written by recursion on the parts left in the reader, take
    their parts from [NextPart]: one iteration of the loop of file.go. *)
Lemma Api4_loop_NextPart {S} (a : App S) timestamp (mr : Reader) st c s :
  Api4.uploadFileMultipart_loop a timestamp (Parts mr) (Final mr) st c s =
  match NextPart mr with
  | inr EOF => Api4.uploadFileMultipart_end st c s
  | inr _ => (None, setErr c Api4.errorReadPart, s)
  | inl (p, mr') =>
      match Api4.uploadFileMultipart_part a timestamp p st c s with
      | Api4.Return r => r
      | Api4.Continue st c s =>
          Api4.uploadFileMultipart_loop a timestamp (Parts mr') (Final mr')
            st c s
      end
  end.
Proof.
  unfold NextPart. destruct mr as [[|p rest] final]; simpl.
  - by destruct final.
  - destruct (ReadErr (Content p)); simpl; done.
Qed.

(** One iteration of the loop of part_001. *)
Lemma Part001_loop_NextPart {S} (a : App S) timestamp mode restream prebuffer
    (mr : Reader) st c s :
  Part001.uploadFileMultipart_loop a timestamp mode restream prebuffer
    (Parts mr) (Final mr) st c s =
  match NextPart mr with
  | inr EOF => Part001.uploadFileMultipart_end st c s
  | inr NoErr => Part001.uploadFileMultipart_end st c s
  | inr (OtherErr err) =>
      (None,
       setErr c (Part001.readRequestError "uploadFileMultipart" err
                   StatusBadRequest), s)
  | inl (p, mr') =>
      match Part001.uploadFileMultipart_part a timestamp mode p st c s with
      | Part001.Return r => r
      | Part001.Restream c s => restream c s
      | Part001.Prebuffer c s => prebuffer c s
      | Part001.Continue st c s =>
          Part001.uploadFileMultipart_loop a timestamp mode restream prebuffer
            (Parts mr') (Final mr') st c s
      end
  end.
Proof.
  unfold NextPart. destruct mr as [[|p rest] final]; simpl.
  - by destruct final.
  - destruct (ReadErr (Content p)); simpl; done.
Qed.

(** [NextPart] never returns a nil error without a part. *)
Lemma NextPart_error (mr : Reader) : NextPart mr <> inr NoErr.
Proof.
  unfold NextPart. destruct mr as [[|p rest] [e|]]; simpl; try done;
    by destruct (ReadErr (Content p)).
Qed.

(** The index [clientIds[i]] of [uploadFileMultipartBuffered] is in range:
    the loop runs from 0 over the files, and the ids are none or as many. *)
Lemma buffered_index_in_range (clientIds : list string)
    (fileHeaders : list FileHeader) (i : nat) :
  negb (length clientIds =? 0)%nat
  && negb (length clientIds =? length fileHeaders)%nat = false ->
  (0 < length clientIds)%nat -> (i < length fileHeaders)%nat ->
  is_Some (clientIds !! i).
Proof.
  intros H Hpos Hi. apply lookup_lt_is_Some_2.
  destruct (length clientIds =? 0)%nat eqn:E0.
  - apply Nat.eqb_eq in E0. lia.
  - simpl in H. apply negb_false_iff, Nat.eqb_eq in H. lia.
Qed.

Module Part001Facts.
Import Part001.

Lemma loop_steps {S} (a : App S) timestamp mode restream prebuffer pre :
  forall rest final st c s st1 c1 s1,
  uploadFileMultipart_steps a timestamp mode pre st c s = Some (st1, c1, s1) ->
  uploadFileMultipart_loop a timestamp mode restream prebuffer (pre ++ rest)
    final st c s =
  uploadFileMultipart_loop a timestamp mode restream prebuffer rest final
    st1 c1 s1.
Proof.
  induction pre as [|p pre IH]; intros rest final st c s st1 c1 s1 H; simpl in *.
  - by injection H as -> -> ->.
  - destruct (uploadFileMultipart_part a timestamp mode p st c s); try done.
    destruct (ReadErr (Content p)); [done|]. by apply IH.
Qed.

(** The body of the loop on a part without a name. *)
Lemma part_nameless {S} (a : App S) timestamp mode p st c s :
  FormName p = "" ->
  uploadFileMultipart_part a timestamp mode p st c s = Continue st c s.
Proof. intros H. unfold uploadFileMultipart_part. by rewrite decide_True. Qed.

(** The body of the loop on a client_ids field. *)
Lemma part_client_ids {S} (a : App S) timestamp mode p st c s :
  isFormValue "client_ids" p = true ->
  uploadFileMultipart_part a timestamp mode p st c s =
  match CopyN (Content p) maxValueBytes with
  | (_, OtherErr err) =>
      Return (None, setErr c (readRequestError "uploadFileMultipart" err
                                StatusBadRequest), s)
  | (v, _) =>
      if expectClientIds st then
        Continue {| expectClientIds := expectClientIds st;
                    clientIds := clientIds st ++ [v];
                    resp := resp st;
                    nFiles := nFiles st |} c s
      else Return (None, SetInvalidParam c "client_ids", s)
  end.
Proof.
  intros H. apply isFormValue_inv in H as [Hn Hf].
  unfold uploadFileMultipart_part. rewrite Hn, Hf. simpl.
  destruct (CopyN (Content p) maxValueBytes) as [v [| |err]]; try done;
    by destruct (expectClientIds st).
Qed.

(** The body of the loop on a form value in the streaming mode: the
    variables change by a client id at most. *)
Lemma part_value_stream {S} (a : App S) timestamp p name st c s st1 c1 s1 :
  name <> "" -> isFormValue name p = true ->
  uploadFileMultipart_part a timestamp streamMode p st c s = Continue st1 c1 s1 ->
  s1 = s /\ nFiles st1 = nFiles st /\ resp st1 = resp st /\
  expectClientIds st1 = expectClientIds st /\
  clientIds st1 =
    clientIds st ++ (if isFormValue "client_ids" p
                     then [(CopyN (Content p) maxValueBytes).1] else []).
Proof.
  intros Hne H. pose proof (isFormValue_inv _ _ H) as [Hn Hf].
  assert (Hc : isFormValue "client_ids" p = bool_decide (FormName p = "client_ids")).
  { unfold isFormValue. rewrite (bool_decide_eq_true_2 _ Hf). apply andb_true_r. }
  rewrite Hc. unfold uploadFileMultipart_part. rewrite Hf.
  rewrite (decide_False (P := FormName p = "")) by congruence.
  rewrite (decide_True (P := "" = "")) by done.
  destruct (CopyN (Content p) maxValueBytes) as [v e]. cbn [fst].
  destruct (decide (FormName p = "channel_id")) as [E|E].
  - rewrite bool_decide_eq_false_2 by (rewrite E; done).
    rewrite (decide_False (P := streamMode = bufferedMode)) by done.
    destruct e; try done; intros [= <- <- <-]; rewrite app_nil_r; done.
  - destruct (decide (FormName p = "client_ids")) as [F|F].
    + rewrite bool_decide_eq_true_2 by done.
      destruct (expectClientIds st) eqn:Ex; simpl;
        destruct e; try done; intros [= <- <- <-]; done.
    + destruct e; done.
Qed.

(** The body of the loop on a file part in the streaming mode. *)
Lemma part_file_stream {S} (a : App S) timestamp p st c s st1 c1 s1 :
  isFilePart p = true ->
  uploadFileMultipart_part a timestamp streamMode p st c s = Continue st1 c1 s1 ->
  let expect :=
    if (nFiles st =? 0)%nat && (length (clientIds st) =? 0)%nat then false
    else expectClientIds st in
  c1 = c /\ Err c = None /\ IsValidId a (Params_ChannelId c) = true /\
  SessionHasPermissionToChannel a (Session_UserId c) (Params_ChannelId c)
    PERMISSION_UPLOAD_FILE = true /\
  (expect = true -> (nFiles st < length (clientIds st))%nat) /\
  exists info,
    UploadFile a {| Timestamp := timestamp;
                    TeamId := FILE_TEAM_ID;
                    ChannelId := Params_ChannelId c;
                    UserId := Session_UserId c;
                    ClientId := if expect
                                then default "" (clientIds st !! nFiles st)
                                else "";
                    UploadName := FileName p;
                    ContentLength := -1;
                    Input := Content p |} s = (inr info, s1) /\
    st1 = {| expectClientIds := expect;
             clientIds := clientIds st;
             resp := if expect
                     then appendClientId (appendFileInfo (resp st) info)
                            (default "" (clientIds st !! nFiles st))
                     else appendFileInfo (resp st) info;
             nFiles := Datatypes.S (nFiles st) |}.
Proof.
  intros H. apply isFilePart_inv in H as [Hn Hf].
  unfold uploadFileMultipart_part.
  rewrite decide_False by done. rewrite decide_False by done.
  rewrite (bool_decide_eq_false_2 (streamMode = bufferedMode)) by done.
  rewrite andb_false_r.
  unfold RequireChannelId.
  destruct (Err c) eqn:Herr; [by rewrite Herr|].
  destruct (IsValidId a (Params_ChannelId c)) eqn:Hid; [|done].
  rewrite Herr.
  destruct (SessionHasPermissionToChannel _ _ _ _) eqn:Hperm; [|done].
  simpl.
  set (expect := if (nFiles st =? 0)%nat && (length (clientIds st) =? 0)%nat
                 then false else expectClientIds st).
  destruct (expect && (length (clientIds st) <=? nFiles st)%nat) eqn:Hmiss;
    [done|].
  destruct (UploadFile a _ s) as [[appErr|info] s2] eqn:Hup; [done|].
  intros [= <- <- <-]. repeat split; try done.
  - intros He. rewrite He in Hmiss. simpl in Hmiss.
    apply Nat.leb_gt in Hmiss. done.
  - exists info. split; [reflexivity|]. clearbody expect. by destruct expect.
Qed.

(** An iteration that returns by itself returns no response. *)
Lemma part_return_none {S} (a : App S) timestamp mode p st c s r :
  uploadFileMultipart_part a timestamp mode p st c s = Return r ->
  r.1.1 = None.
Proof.
  unfold uploadFileMultipart_part.
  repeat (case_decide || case_match); simplify_eq; try done;
    intros [= <-]; done.
Qed.

(** The streaming mode makes neither of the two calls that take over the
    body. *)
Lemma stream_part_flow {S} (a : App S) timestamp p st c s :
  (forall c' s', uploadFileMultipart_part a timestamp streamMode p st c s <>
                 Restream c' s') /\
  (forall c' s', uploadFileMultipart_part a timestamp streamMode p st c s <>
                 Prebuffer c' s').
Proof.
  unfold uploadFileMultipart_part.
  rewrite (bool_decide_eq_false_2 (streamMode = bufferedMode)) by done.
  rewrite andb_false_r.
  split; intros c' s'; repeat (case_decide || case_match); done.
Qed.

(** The variables of the streaming loop after a first stretch of the body:
    the files counted, the client ids collected, and what is expected. *)
Lemma steps_stream_state {S} (a : App S) timestamp pre :
  forall st c s st1 c1 s1,
  uploadFileMultipart_steps a timestamp streamMode pre st c s =
    Some (st1, c1, s1) ->
  nFiles st1 = (nFiles st + length (filePartsOf pre))%nat /\
  clientIds st1 = clientIds st ++ clientIdsOf pre /\
  expectClientIds st1 =
    (if (nFiles st =? 0)%nat then
       match filePartsOf pre with
       | [] => expectClientIds st
       | _ => expectClientIds st
              && (negb (length (clientIds st) =? 0)%nat
                  || clientIdBeforeFile pre)
       end
     else expectClientIds st).
Proof.
  induction pre as [|p pre IH]; intros st c s st1 c1 s1 H; simpl in H.
  - injection H as <- <- <-. simpl. rewrite app_nil_r.
    repeat split; [lia|]. by destruct (nFiles st =? 0)%nat.
  - destruct (uploadFileMultipart_part a timestamp streamMode p st c s)
      as [st2 c2 s2| | |] eqn:Hp; try done.
    destruct (ReadErr (Content p)); [done|].
    apply IH in H as (Hn & Hc & He). clear IH.
    cbn [filePartsOf clientIdsOf clientIdBeforeFile].
    destruct (part_cases p) as [Hnl|[(name & Hne & Hv & Hnf)|(Hf & _ & _ & Hnv)]].
    + rewrite part_nameless in Hp by done. injection Hp as <- <- <-.
      assert (isFilePart p = false) as ->
        by (unfold isFilePart; by rewrite bool_decide_eq_true_2).
      assert (isFormValue "client_ids" p = false) as ->
        by (unfold isFormValue; rewrite bool_decide_eq_false_2;
            [done | by rewrite Hnl]).
      simpl. done.
    + destruct (part_value_stream a timestamp p name st c s st2 c2 s2 Hne Hv Hp)
        as (-> & Hn2 & _ & He2 & Hc2).
      rewrite Hnf. rewrite Hn, Hn2, Hc, Hc2, He, He2, Hn2.
      split; [done|]. split.
      { destruct (isFormValue "client_ids" p); simpl; by rewrite <- app_assoc. }
      destruct (nFiles st =? 0)%nat; [|done].
      destruct (filePartsOf pre); [done|].
      destruct (isFormValue "client_ids" p); simpl.
      * rewrite Hc2, length_app. simpl.
        replace (length (clientIds st) + 1 =? 0)%nat with false
          by (symmetry; apply Nat.eqb_neq; lia).
        simpl. by rewrite orb_true_r.
      * by rewrite Hc2, app_nil_r.
    + destruct (part_file_stream a timestamp p st c s st2 c2 s2 Hf Hp)
        as (_ & _ & _ & _ & _ & info & _ & ->).
      rewrite Hf, Hnv. rewrite Hn, Hc, He. simpl.
      split; [lia|]. split; [done|].
      destruct (nFiles st =? 0)%nat eqn:E0; simpl; [|done].
      rewrite orb_false_r.
      destruct (length (clientIds st) =? 0)%nat; simpl;
        by rewrite ?andb_false_r, ?andb_true_r.
Qed.

(** From the start of the body: as long as no file has come every client
    id is expected; after the first file they are expected exactly when
    one stood before it. *)
Lemma steps_stream_initial {S} (a : App S) timestamp pre c s st1 c1 s1 :
  uploadFileMultipart_steps a timestamp streamMode pre initialState c s =
    Some (st1, c1, s1) ->
  nFiles st1 = length (filePartsOf pre) /\
  clientIds st1 = clientIdsOf pre /\
  expectClientIds st1 =
    match filePartsOf pre with
    | [] => true
    | _ => clientIdBeforeFile pre
    end.
Proof. intros H. apply steps_stream_state in H. simpl in H. done. Qed.

End Part001Facts.

Module Api4Facts.
Import Api4.

Lemma file_go_loop_steps {S} (a : App S) timestamp pre :
  forall rest final st c s st1 c1 s1,
  uploadFileMultipart_steps a timestamp pre st c s = Some (st1, c1, s1) ->
  uploadFileMultipart_loop a timestamp (pre ++ rest) final st c s =
  uploadFileMultipart_loop a timestamp rest final st1 c1 s1.
Proof.
  induction pre as [|p pre IH]; intros rest final st c s st1 c1 s1 H; simpl in *.
  - by injection H as -> -> ->.
  - destruct (uploadFileMultipart_part a timestamp p st c s); try done.
    destruct (ReadErr (Content p)); [done|]. by apply IH.
Qed.

Lemma file_go_part_nameless {S} (a : App S) timestamp p st c s :
  FormName p = "" ->
  uploadFileMultipart_part a timestamp p st c s = Continue st c s.
Proof. intros H. unfold uploadFileMultipart_part. by rewrite decide_True. Qed.

(** The body of the loop on a form value: the variables change by a client
    id at most. *)
Lemma part_value {S} (a : App S) timestamp p name st c s st1 c1 s1 :
  name <> "" -> isFormValue name p = true ->
  uploadFileMultipart_part a timestamp p st c s = Continue st1 c1 s1 ->
  s1 = s /\ resp st1 = resp st /\
  haveClientIds st1 = haveClientIds st || isFormValue "client_ids" p /\
  clientIds st1 =
    clientIds st ++ (if isFormValue "client_ids" p
                     then [(CopyN (Content p) maxValueBytes).1] else []).
Proof.
  intros Hne H. pose proof (isFormValue_inv _ _ H) as [Hn Hf].
  assert (Hc : isFormValue "client_ids" p = bool_decide (FormName p = "client_ids")).
  { unfold isFormValue. rewrite (bool_decide_eq_true_2 _ Hf). apply andb_true_r. }
  rewrite Hc. unfold uploadFileMultipart_part. rewrite Hf.
  rewrite (decide_False (P := FormName p = "")) by congruence.
  rewrite (decide_True (P := "" = "")) by done.
  destruct (CopyN (Content p) maxValueBytes) as [v e]. cbn [fst].
  destruct (decide (FormName p = "channel_id")) as [E|E].
  - rewrite bool_decide_eq_false_2 by (rewrite E; done).
    destruct e; try done; intros [= <- <- <-];
      rewrite app_nil_r, orb_false_r; done.
  - destruct (decide (FormName p = "client_ids")) as [F|F].
    + rewrite bool_decide_eq_true_2 by done.
      destruct e; try done; intros [= <- <- <-]; simpl;
        rewrite orb_true_r; done.
    + destruct e; done.
Qed.

(** The body of the loop on a file part: it takes the first client id that
    is waiting; once client ids have been seen, one must be waiting. *)
Lemma part_file {S} (a : App S) timestamp p st c s st1 c1 s1 :
  isFilePart p = true ->
  uploadFileMultipart_part a timestamp p st c s = Continue st1 c1 s1 ->
  c1 = c /\ haveClientIds st1 = haveClientIds st /\
  clientIds st1 = tail (clientIds st) /\
  (haveClientIds st = true -> clientIds st <> []).
Proof.
  intros H. apply isFilePart_inv in H as [Hn Hf].
  unfold uploadFileMultipart_part.
  rewrite decide_False by done. rewrite decide_False by done.
  unfold RequireChannelId.
  destruct (Err c) eqn:Herr; [by rewrite Herr|].
  destruct (IsValidId a (Params_ChannelId c)) eqn:Hid; [|done].
  rewrite Herr.
  destruct (SessionHasPermissionToChannel _ _ _ _) eqn:Hperm; [|done].
  simpl.
  destruct (clientIds st) as [|first rest] eqn:Hq.
  - destruct (haveClientIds st) eqn:Hh; simpl; [done|].
    destruct (UploadFile a _ s) as [[appErr|info] s2]; [done|].
    intros [= <- <- <-]. done.
  - destruct (haveClientIds st && bool_decide (first = "")); [done|].
    destruct (UploadFile a _ s) as [[appErr|info] s2]; [done|].
    intros [= <- <- <-]. done.
Qed.

(** A file part that finds no client id waiting, after client ids have been
    seen, ends the request. *)
Lemma part_file_missing {S} (a : App S) timestamp p st c s :
  isFilePart p = true -> haveClientIds st = true -> clientIds st = [] ->
  Err c = None -> IsValidId a (Params_ChannelId c) = true ->
  SessionHasPermissionToChannel a (Session_UserId c) (Params_ChannelId c)
    PERMISSION_UPLOAD_FILE = true ->
  uploadFileMultipart_part a timestamp p st c s =
  Return (None, setErr c incorrectNumberOfFiles, s).
Proof.
  intros H Hh Hq Herr Hid Hperm. apply isFilePart_inv in H as [Hn Hf].
  unfold uploadFileMultipart_part.
  rewrite decide_False by done. rewrite decide_False by done.
  unfold RequireChannelId. rewrite Herr, Hid, Herr, Hperm, Hq, Hh. done.
Qed.

(** Once client ids have been seen, every file takes one from the front of
    those that came. *)
Lemma steps_queue {S} (a : App S) timestamp pre :
  forall st c s st1 c1 s1,
  uploadFileMultipart_steps a timestamp pre st c s = Some (st1, c1, s1) ->
  haveClientIds st = true ->
  haveClientIds st1 = true /\
  clientIds st1 =
    drop (length (filePartsOf pre)) (clientIds st ++ clientIdsOf pre).
Proof.
  induction pre as [|p pre IH]; intros st c s st1 c1 s1 H Hh; simpl in H.
  - injection H as <- <- <-. simpl. by rewrite app_nil_r.
  - destruct (uploadFileMultipart_part a timestamp p st c s)
      as [st2 c2 s2|] eqn:Hp; try done.
    destruct (ReadErr (Content p)); [done|].
    cbn [filePartsOf clientIdsOf].
    destruct (part_cases p) as [Hnl|[(name & Hne & Hv & Hnf)|(Hf & _ & _ & Hnv)]].
    + rewrite file_go_part_nameless in Hp by done. injection Hp as <- <- <-.
      assert (isFilePart p = false) as ->
        by (unfold isFilePart; by rewrite bool_decide_eq_true_2).
      assert (isFormValue "client_ids" p = false) as ->
        by (unfold isFormValue; rewrite bool_decide_eq_false_2;
            [done | by rewrite Hnl]).
      by apply (IH _ _ _ _ _ _ H).
    + destruct (part_value a timestamp p name st c s st2 c2 s2 Hne Hv Hp)
        as (-> & _ & Hh2 & Hq2).
      rewrite Hnf.
      apply IH in H as [H1 H2]; [|by rewrite Hh2, Hh].
      split; [done|]. rewrite H2, Hq2.
      destruct (isFormValue "client_ids" p); simpl;
        by rewrite <- app_assoc.
    + destruct (part_file a timestamp p st c s st2 c2 s2 Hf Hp)
        as (_ & Hh2 & Hq2 & Hne).
      rewrite Hf, Hnv.
      apply IH in H as [H1 H2]; [|by rewrite Hh2].
      split; [done|]. rewrite H2, Hq2.
      destruct (clientIds st) as [|x q]; [by destruct (Hne Hh)|]. done.
Qed.

(** From the start of the body, with a client id before the first file. *)
Lemma steps_queue_initial {S} (a : App S) timestamp pre :
  forall st c s st1 c1 s1,
  uploadFileMultipart_steps a timestamp pre st c s = Some (st1, c1, s1) ->
  haveClientIds st = false -> clientIds st = [] ->
  clientIdBeforeFile pre = true ->
  haveClientIds st1 = true /\
  clientIds st1 = drop (length (filePartsOf pre)) (clientIdsOf pre).
Proof.
  induction pre as [|p pre IH]; intros st c s st1 c1 s1 H Hh Hq Hb;
    simpl in H; [done|].
  destruct (uploadFileMultipart_part a timestamp p st c s)
    as [st2 c2 s2|] eqn:Hp; try done.
  destruct (ReadErr (Content p)); [done|].
  cbn [filePartsOf clientIdsOf clientIdBeforeFile] in *.
  destruct (part_cases p) as [Hnl|[(name & Hne & Hv & Hnf)|(Hf & _ & _ & Hnv)]].
  - rewrite file_go_part_nameless in Hp by done. injection Hp as <- <- <-.
    assert (Hnf : isFilePart p = false)
      by (unfold isFilePart; by rewrite bool_decide_eq_true_2).
    assert (Hnc : isFormValue "client_ids" p = false)
      by (unfold isFormValue; rewrite bool_decide_eq_false_2;
          [done | by rewrite Hnl]).
    rewrite Hnf, Hnc in *. by apply (IH _ _ _ _ _ _ H).
  - destruct (part_value a timestamp p name st c s st2 c2 s2 Hne Hv Hp)
      as (-> & _ & Hh2 & Hq2).
    rewrite Hnf in *.
    destruct (isFormValue "client_ids" p) eqn:Hc.
    + apply steps_queue in H as [H1 H2]; [|by rewrite Hh2, orb_true_r].
      split; [done|]. by rewrite H2, Hq2, Hq.
    + apply (IH _ _ _ _ _ _ H); [by rewrite Hh2, Hh | | done].
      by rewrite Hq2, Hq.
  - by rewrite Hf in Hb.
Qed.

End Api4Facts.

(** A file part that finds no client id left, when client ids are expected,
    ends the request of the streaming mode. *)
Lemma part_file_missing_stream {S} (a : App S) timestamp p st c s :
  isFilePart p = true -> Part001.expectClientIds st = true ->
  Part001.clientIds st <> [] ->
  (length (Part001.clientIds st) <= Part001.nFiles st)%nat ->
  Err c = None -> IsValidId a (Params_ChannelId c) = true ->
  SessionHasPermissionToChannel a (Session_UserId c) (Params_ChannelId c)
    PERMISSION_UPLOAD_FILE = true ->
  Part001.uploadFileMultipart_part a timestamp Part001.streamMode p st c s =
  Part001.Return (None, SetInvalidParam c "client_ids", s).
Proof.
  intros H He Hq Hlen Herr Hid Hperm. apply isFilePart_inv in H as [Hn Hf].
  unfold Part001.uploadFileMultipart_part.
  rewrite decide_False by done. rewrite decide_False by done.
  rewrite (bool_decide_eq_false_2 (Part001.streamMode = Part001.bufferedMode))
    by done.
  rewrite andb_false_r.
  unfold RequireChannelId. rewrite Herr, Hid, Herr, Hperm. simpl.
  replace (length (Part001.clientIds st) =? 0)%nat with false
    by (symmetry; apply Nat.eqb_neq; destruct (Part001.clientIds st); simpl; [done|lia]).
  rewrite andb_false_r, He. simpl.
  by rewrite (proj2 (Nat.leb_le _ _) Hlen).
Qed.

(** C2 (as amended). In the streaming loop of the multipart ingestor of
    part_001, when no client_ids field stood before the first file part, a
    client_ids field that comes after it fails the request with BadRequest;
    when a client_ids field stood before the first file part, a file part
    for which no client id is left fails the request with BadRequest (an
    invalid client_ids parameter).  The second half holds in the loop of
    file.go as well (the number of files is reported as incorrect). *)
Theorem client_ids_expected_from_first_file {S} (a : App S) (timestamp : Z) :
  (forall pre v post final r c s st1 c1 s1,
     Req_Body r = Multipart {| Parts := pre ++ v :: post; Final := final |} ->
     filePartsOf pre <> [] -> clientIdBeforeFile pre = false ->
     isFormValue "client_ids" v = true ->
     Part001.uploadFileMultipart_steps a timestamp Part001.streamMode pre
       Part001.initialState c s = Some (st1, c1, s1) ->
     exists c',
       Part001.uploadFileMultipart a c r timestamp Part001.streamMode s =
         (None, c', s1) /\
       (StatusCode <$> Err c') = Some StatusBadRequest) /\
  (forall pre f post final r c s st1 c1 s1,
     Req_Body r = Multipart {| Parts := pre ++ f :: post; Final := final |} ->
     clientIdBeforeFile pre = true -> isFilePart f = true ->
     (length (clientIdsOf pre) <= length (filePartsOf pre))%nat ->
     Part001.uploadFileMultipart_steps a timestamp Part001.streamMode pre
       Part001.initialState c s = Some (st1, c1, s1) ->
     Err c1 = None -> IsValidId a (Params_ChannelId c1) = true ->
     SessionHasPermissionToChannel a (Session_UserId c1) (Params_ChannelId c1)
       PERMISSION_UPLOAD_FILE = true ->
     Part001.uploadFileMultipart a c r timestamp Part001.streamMode s =
       (None, SetInvalidParam c1 "client_ids", s1)) /\
  (forall pre f post final c s st1 c1 s1,
     clientIdBeforeFile pre = true -> isFilePart f = true ->
     (length (clientIdsOf pre) <= length (filePartsOf pre))%nat ->
     Api4.uploadFileMultipart_steps a timestamp pre
       {| Api4.clientIds := []; Api4.haveClientIds := false;
          Api4.resp := emptyResponse |} c s = Some (st1, c1, s1) ->
     Err c1 = None -> IsValidId a (Params_ChannelId c1) = true ->
     SessionHasPermissionToChannel a (Session_UserId c1) (Params_ChannelId c1)
       PERMISSION_UPLOAD_FILE = true ->
     Api4.uploadFileMultipart a c
       {| Parts := pre ++ f :: post; Final := final |} timestamp s =
       (None, setErr c1 Api4.incorrectNumberOfFiles, s1)) /\
  StatusCode Api4.incorrectNumberOfFiles = StatusBadRequest /\
  (forall c, StatusCode <$> Err (SetInvalidParam c "client_ids") =
             Some StatusBadRequest).
Proof.
  repeat split.
  - intros pre v post final r c s st1 c1 s1 Hr Hfiles Hbefore Hv Hsteps.
    unfold Part001.uploadFileMultipart, Part001.uploadFileMultipart_stream.
    rewrite Hr. cbn [Parts Final].
    rewrite (Part001Facts.loop_steps _ _ _ _ _ _ _ _ _ _ _ _ _ _ Hsteps).
    apply Part001Facts.steps_stream_initial in Hsteps as (_ & _ & He).
    destruct (filePartsOf pre); [done|]. rewrite Hbefore in He.
    cbn [Part001.uploadFileMultipart_loop].
    rewrite (Part001Facts.part_client_ids _ _ _ _ _ _ _ Hv), He.
    destruct (CopyN (Content v) maxValueBytes) as [x [| |err]];
      eexists; split; reflexivity.
  - intros pre f post final r c s st1 c1 s1 Hr Hbefore Hf Hlen Hsteps
      Herr Hid Hperm.
    unfold Part001.uploadFileMultipart, Part001.uploadFileMultipart_stream.
    rewrite Hr. cbn [Parts Final].
    rewrite (Part001Facts.loop_steps _ _ _ _ _ _ _ _ _ _ _ _ _ _ Hsteps).
    apply Part001Facts.steps_stream_initial in Hsteps as (Hn & Hc & He).
    cbn [Part001.uploadFileMultipart_loop].
    rewrite part_file_missing_stream; try done.
    + rewrite He. by destruct (filePartsOf pre).
    + rewrite Hc. by apply clientIdBeforeFile_clientIdsOf.
    + by rewrite Hc, Hn.
  - intros pre f post final c s st1 c1 s1 Hbefore Hf Hlen Hsteps
      Herr Hid Hperm.
    unfold Api4.uploadFileMultipart. cbn [Parts Final].
    rewrite (Api4Facts.file_go_loop_steps _ _ _ _ _ _ _ _ _ _ _ Hsteps).
    apply Api4Facts.steps_queue_initial in Hsteps as (Hh & Hq); try done.
    cbn [Api4.uploadFileMultipart_loop].
    rewrite Api4Facts.part_file_missing; try done.
    rewrite Hq. apply drop_ge. done.
Qed.

Lemma client_ids_expected_from_first_file_witness :
  (exists c',
     Part001.uploadFileMultipart (demoApp demoSettings) demoContext
       (multipartRequest 64
          [field "channel_id" channel26;
           filePart "files" "test.png" "data";
           field "client_ids" "c1"])
       0 Part001.streamMode [] =
     (None, c', [uploadOf "" "test.png" "data"]) /\
     (StatusCode <$> Err c') = Some StatusBadRequest) /\
  Part001.uploadFileMultipart (demoApp demoSettings) demoContext
    (multipartRequest 64
       [field "channel_id" channel26;
        field "client_ids" "c1";
        filePart "files" "a.txt" "aaa";
        filePart "files" "b.txt" "bbb"])
    0 Part001.streamMode [] =
  (None, SetInvalidParam (setChannelId demoContext channel26) "client_ids",
   [uploadOf "c1" "a.txt" "aaa"]) /\
  Api4.uploadFileMultipart (demoApp demoSettings) demoContext
    {| Parts := [field "channel_id" channel26;
                 field "client_ids" "c1";
                 filePart "files" "a.txt" "aaa";
                 filePart "files" "b.txt" "bbb"];
       Final := None |} 0 [] =
  (None,
   setErr (setChannelId demoContext channel26) Api4.incorrectNumberOfFiles,
   [uploadOf "c1" "a.txt" "aaa"]).
Proof.
  pose proof (client_ids_expected_from_first_file (demoApp demoSettings) 0)
    as (H1 & H2 & H3 & _).
  split; [|split].
  - apply (H1 [field "channel_id" channel26; filePart "files" "test.png" "data"]
              (field "client_ids" "c1") [] None) with
      (st1 := {| Part001.expectClientIds := false;
                 Part001.clientIds := [];
                 Part001.resp :=
                   {| FileInfos := [storedInfo (uploadOf "" "test.png" "data") 0];
                      ClientIds := [] |};
                 Part001.nFiles := 1 |})
      (c1 := setChannelId demoContext channel26);
      [reflexivity | discriminate | reflexivity | reflexivity | reflexivity].
  - apply (H2 [field "channel_id" channel26; field "client_ids" "c1";
               filePart "files" "a.txt" "aaa"]
              (filePart "files" "b.txt" "bbb") [] None) with
      (st1 := {| Part001.expectClientIds := true;
                 Part001.clientIds := ["c1"];
                 Part001.resp :=
                   {| FileInfos := [storedInfo (uploadOf "c1" "a.txt" "aaa") 0];
                      ClientIds := ["c1"] |};
                 Part001.nFiles := 1 |});
      reflexivity.
  - apply (H3 [field "channel_id" channel26; field "client_ids" "c1";
               filePart "files" "a.txt" "aaa"]
              (filePart "files" "b.txt" "bbb") [] None) with
      (st1 := {| Api4.clientIds := [];
                 Api4.haveClientIds := true;
                 Api4.resp :=
                   {| FileInfos := [storedInfo (uploadOf "c1" "a.txt" "aaa") 0];
                      ClientIds := ["c1"] |} |});
      reflexivity.
Defined.

(** C2, the claim as stated fails: with no client_ids before the first file
    part, a client_ids field after it is not ignored.  The request of
    part_001 fails with BadRequest although the file is already stored, and
    nothing is written; the request of file.go fails with BadRequest too. *)
Lemma late_client_id_not_ignored :
  let r := multipartRequest 64
             [field "channel_id" channel26;
              filePart "files" "test.png" "data";
              field "client_ids" "c1"] in
  clientIdBeforeFile (match Req_Body r with
                      | Multipart mr => Parts mr
                      | _ => []
                      end) = false /\
  (let h := Part001.uploadFileStream (demoApp demoSettings) demoContext
              emptyWriter r 0 [] in
   (StatusCode <$> Err (hc h)) = Some StatusBadRequest /\
   Status (hw h) = None /\ jsonResponses (hw h) = [] /\
   length (hs h) = 1%nat) /\
  (let h := Api4.uploadFileStream (demoApp demoSettings) demoContext
              emptyWriter r 0 [] in
   (StatusCode <$> Err (hc h)) = Some StatusBadRequest /\
   Status (hw h) = None /\ jsonResponses (hw h) = []).
Proof. repeat split; vm_compute; reflexivity. Qed.

(** ** The buffered fallback against the streaming mode *)

Lemma plainPart_cases (p : Part) :
  plainPart p = true ->
  ReadErr (Content p) = None /\
  (FormName p = "" \/
   (isFormValue "client_ids" p = true /\ isFilePart p = false /\
    Data (Content p) <> "" /\
    len (Data (Content p)) <= maxValueBytes) \/
   (isFilePart p = true /\ FormName p = "files" /\
    isFormValue "client_ids" p = false)).
Proof.
  unfold plainPart. destruct (ReadErr (Content p)); [done|].
  intros H. split; [done|].
  apply orb_true_iff in H as [H|H]; [apply orb_true_iff in H as [H|H]|].
  - left. by apply bool_decide_eq_true in H.
  - right. left. apply andb_true_iff in H as [H H3].
    apply andb_true_iff in H as [H1 H2].
    apply negb_true_iff, bool_decide_eq_false in H2.
    apply Z.leb_le in H3.
    split; [done|]. split; [by apply (isFormValue_not_file "client_ids")|done].
  - right. right. apply andb_true_iff in H as [H1 H2].
    apply bool_decide_eq_true in H1.
    apply negb_true_iff, bool_decide_eq_false in H2.
    unfold isFilePart, isFormValue. rewrite H1.
    rewrite (bool_decide_eq_false_2 (FileName p = "")) by done.
    done.
Qed.

Lemma nameless_not_file p : FormName p = "" -> isFilePart p = false.
Proof. intros H. unfold isFilePart. by rewrite bool_decide_eq_true_2. Qed.

Lemma nameless_not_value name p :
  name <> "" -> FormName p = "" -> isFormValue name p = false.
Proof.
  intros Hne H. unfold isFormValue.
  rewrite bool_decide_eq_false_2; [done|]. by rewrite H.
Qed.

(** What [ReadForm] keeps of a body whose parts all read to their end. *)
Lemma readFormParts_spec (ps : list Part) :
  forall form,
  Forall (fun p => ReadErr (Content p) = None) ps ->
  exists form',
    readFormParts ps form = inr form' /\
    forall name, name <> "" ->
      formValue form' name = formValue form name ++ valuesOf name ps /\
      formFile form' name = formFile form name ++ filesOf name ps.
Proof.
  induction ps as [|p ps IH]; intros form Hall; simpl.
  - exists form. split; [done|]. intros name _. by rewrite !app_nil_r.
  - inversion Hall as [|? ? Hp Hps]; subst. rewrite Hp.
    destruct (decide (FormName p = "")) as [E|E].
    + destruct (IH form Hps) as (form' & Hf & Hspec). exists form'.
      split; [done|]. intros name Hne.
      rewrite (nameless_not_value name p Hne E), (nameless_not_file p E).
      simpl. by apply Hspec.
    + destruct (decide (FileName p = "")) as [F|F].
      * destruct (IH (addValue form (FormName p) (Data (Content p))) Hps)
          as (form' & Hf & Hspec).
        exists form'. split; [done|]. intros name Hne.
        destruct (Hspec name Hne) as [Hv Hfl]. rewrite Hv, Hfl.
        unfold isFormValue, isFilePart, addValue, formValue, formFile. simpl.
        rewrite (bool_decide_eq_true_2 _ F), andb_false_r, andb_true_r. simpl.
        split; [|done].
        destruct (decide (FormName p = name)) as [<-|N].
        -- rewrite lookup_insert_eq, bool_decide_eq_true_2 by done. simpl.
           by rewrite <- app_assoc.
        -- rewrite lookup_insert_ne, bool_decide_eq_false_2 by done. done.
      * destruct (IH (addFile form (FormName p)
                        {| Filename := FileName p;
                           content := Data (Content p);
                           OpenErr := None |}) Hps)
          as (form' & Hf & Hspec).
        exists form'. split; [done|]. intros name Hne.
        destruct (Hspec name Hne) as [Hv Hfl]. rewrite Hv, Hfl.
        unfold isFormValue, isFilePart, addFile, formValue, formFile, headerOf.
        simpl.
        rewrite (bool_decide_eq_false_2 _ F), (bool_decide_eq_false_2 _ E),
          andb_false_r. simpl.
        split; [done|].
        destruct (decide (FormName p = name)) as [<-|N].
        -- rewrite lookup_insert_eq, bool_decide_eq_true_2 by done. simpl.
           by rewrite <- app_assoc.
        -- rewrite lookup_insert_ne, bool_decide_eq_false_2 by done. done.
Qed.

Lemma valuesOf_app name pre post :
  valuesOf name (pre ++ post) = valuesOf name pre ++ valuesOf name post.
Proof.
  induction pre as [|p pre IH]; simpl; [done|].
  destruct (isFormValue name p); simpl; by rewrite IH.
Qed.

Lemma filesOf_app name pre post :
  filesOf name (pre ++ post) = filesOf name pre ++ filesOf name post.
Proof.
  induction pre as [|p pre IH]; simpl; [done|].
  destruct (isFilePart p && bool_decide (FormName p = name)); simpl;
    by rewrite IH.
Qed.

(** The form of a plain body: no channel id, the client ids as the
    streaming loop reads them, and every file under files. *)
Lemma plain_form (ps : list Part) :
  Forall (fun p => plainPart p = true) ps ->
  valuesOf "channel_id" ps = [] /\
  valuesOf "client_ids" ps = clientIdsOf ps /\
  filesOf "files" ps = map headerOf (filePartsOf ps).
Proof.
  induction 1 as [|p ps Hp Hps (IH1 & IH2 & IH3)]; simpl; [done|].
  destruct (plainPart_cases p Hp) as [Hr [Hn|[(Hv & Hnf & Hd & Hl)|(Hf & Hn & Hnv)]]].
  - rewrite !(nameless_not_value _ p) by done.
    rewrite (nameless_not_file p) by done. simpl. done.
  - rewrite Hv, Hnf. simpl.
    assert (isFormValue "channel_id" p = false) as ->.
    { apply isFormValue_inv in Hv as [Hv _]. unfold isFormValue.
      rewrite bool_decide_eq_false_2; [done|]. by rewrite Hv. }
    split; [done|]. split; [|done]. f_equal; [|done].
    symmetry. apply CopyN_whole; done.
  - rewrite Hf, Hnv. simpl.
    assert (isFormValue "channel_id" p = false) as ->.
    { unfold isFormValue. rewrite bool_decide_eq_false_2; [done|].
      by rewrite Hn. }
    rewrite bool_decide_eq_true_2 by done. simpl.
    split; [done|]. split; [done|]. by f_equal.
Qed.

Module RefinementFacts.
Import Part001 Part001Facts.

(** The pre-scan of a plain body without a channel id in the URL: at the
    first file part the entire body goes to [uploadFileMultipartBuffered]. *)
Lemma prescan_plain {S} (a : App S) timestamp restream prebuffer ps :
  forall rest final st c s,
  Forall (fun p => plainPart p = true) ps ->
  filePartsOf ps <> [] ->
  Params_ChannelId c = "" ->
  expectClientIds st = true ->
  uploadFileMultipart_loop a timestamp bufferedMode restream prebuffer
    (ps ++ rest) final st c s = prebuffer c s.
Proof.
  induction ps as [|p ps IH]; intros rest final st c s Hall Hfiles Hc He;
    [done|].
  inversion Hall as [|? ? Hp Hps]; subst.
  destruct (plainPart_cases p Hp) as [Hr [Hn|[(Hv & Hnf & Hd & Hl)|(Hf & Hn & Hnv)]]];
    simpl.
  - rewrite part_nameless by done. rewrite Hr.
    apply IH; try done. simpl in Hfiles.
    by rewrite (nameless_not_file p Hn) in Hfiles.
  - rewrite (part_client_ids _ _ _ _ _ _ _ Hv), He.
    destruct (CopyN_whole (Content p) maxValueBytes) as [Hx Hne]; try done.
    destruct (CopyN (Content p) maxValueBytes) as [x e]. simpl in *.
    destruct e; [| |by destruct (Hne msg)]; rewrite Hr;
      (apply IH; [done | | done | done]);
      simpl in Hfiles; by rewrite Hnf in Hfiles.
  - apply isFilePart_inv in Hf as [Hf1 Hf2].
    unfold uploadFileMultipart_part.
    rewrite decide_False by done. rewrite decide_False by done.
    rewrite !bool_decide_eq_true_2 by done. done.
Qed.

(** The streaming loop over a plain body, when it succeeds, is followed
    step by step by the loop of [uploadFileMultipartBuffered] over the
    files of the body, with all the client ids of the body at hand. *)
Lemma stream_simulated {S} (a : App S) timestamp suf :
  forall st cs cb s resp' c' s' allIds,
  Forall (fun p => plainPart p = true) suf ->
  uploadFileMultipart_loop a timestamp streamMode notInStreamMode
    notInStreamMode suf None st cs s = (Some resp', c', s') ->
  Params_ChannelId cb = Params_ChannelId cs ->
  Session_UserId cb = Session_UserId cs ->
  allIds = clientIds st ++ clientIdsOf suf ->
  (expectClientIds st = false -> clientIds st = []) ->
  Forall (fun x => x <> "") (clientIds st) ->
  uploadFileMultipartBuffered_loop a timestamp allIds
    (map headerOf (filePartsOf suf)) (nFiles st) (resp st) cb s =
    (Some resp', cb, s') /\
  c' = cs /\
  (length allIds = 0%nat \/
   length allIds = (nFiles st + length (filePartsOf suf))%nat) /\
  (expectClientIds st = false -> clientIdsOf suf = []) /\
  (filePartsOf suf <> [] ->
   Err cs = None /\ IsValidId a (Params_ChannelId cs) = true /\
   SessionHasPermissionToChannel a (Session_UserId cs) (Params_ChannelId cs)
     PERMISSION_UPLOAD_FILE = true).
Proof.
  induction suf as [|p suf IH];
    intros st cs cb s resp' c' s' allIds Hall Hrun Hch Hus Hids Hunexp Hne.
  - simpl in *. unfold uploadFileMultipart_end in Hrun.
    rewrite app_nil_r in Hids. subst allIds.
    destruct (expectClientIds st) eqn:He; simpl in Hrun.
    + destruct (length (clientIds st) =? nFiles st)%nat eqn:El;
        simpl in Hrun; [|done].
      injection Hrun as <- <- <-. apply Nat.eqb_eq in El.
      split; [done|]. split; [done|]. split; [right; lia|].
      split; [done|]. done.
    + injection Hrun as <- <- <-. rewrite (Hunexp eq_refl).
      split; [done|]. split; [done|]. split; [by left|].
      split; [done|]. done.
  - apply Forall_cons in Hall as [Hp Hps].
    cbn [uploadFileMultipart_loop] in Hrun.
    cbn [filePartsOf clientIdsOf] in Hids |- *.
    destruct (plainPart_cases p Hp)
      as [Hr [Hn|[(Hv & Hnf & Hd & Hl)|(Hf & Hn & Hnv)]]].
    + rewrite part_nameless in Hrun by done. rewrite Hr in Hrun.
      rewrite (nameless_not_file p Hn).
      rewrite (nameless_not_value "client_ids" p) by done.
      rewrite (nameless_not_value "client_ids" p) in Hids by done.
      by apply (IH st cs cb s resp' c' s' allIds).
    + rewrite (part_client_ids _ _ _ _ _ _ _ Hv) in Hrun.
      rewrite Hv in Hids |- *. rewrite Hnf.
      destruct (CopyN_whole (Content p) maxValueBytes) as [Hx Hok]; try done.
      destruct (CopyN (Content p) maxValueBytes) as [x e]. simpl in Hx, Hok.
      cbn [fst] in *. subst x.
      destruct (expectClientIds st) eqn:He.
      * assert (Hrun' :
          uploadFileMultipart_loop a timestamp streamMode notInStreamMode
            notInStreamMode suf None
            {| expectClientIds := true;
               clientIds := clientIds st ++ [Data (Content p)];
               resp := resp st; nFiles := nFiles st |} cs s =
          (Some resp', c', s')).
        { destruct e; [| |by destruct (Hok msg)]; by rewrite Hr in Hrun. }
        apply (IH _ cs cb s resp' c' s' allIds) in Hrun'; try done.
        -- simpl in Hrun'. destruct Hrun' as (H1 & H2 & H3 & _ & H5).
           split; [done|]. split; [done|]. split; [done|].
           split; [intros; congruence|]. done.
        -- simpl. by rewrite <- app_assoc.
        -- simpl. apply Forall_app. split; [done|]. by constructor.
      * destruct e; [| |by destruct (Hok msg)]; done.
    + rewrite Hf, Hnv in *. cbn [map].
      destruct (uploadFileMultipart_part a timestamp streamMode p st cs s)
        as [st1 c1 s1|r| |] eqn:Hpart; try done;
        try (unfold notInStreamMode in Hrun; done);
        [|apply part_return_none in Hpart; by subst r].
      rewrite Hr in Hrun.
      destruct (part_file_stream a timestamp p st cs s st1 c1 s1 Hf Hpart)
        as (-> & Herr & Hid & Hperm & Hlt & info & Hup & ->).
      set (expect := if (nFiles st =? 0)%nat && (length (clientIds st) =? 0)%nat
                     then false else expectClientIds st) in *.
      assert (Hunexp1 : expect = false -> clientIds st = []).
      { subst expect. destruct (nFiles st =? 0)%nat; simpl; [|done].
        destruct (clientIds st); [done|]. simpl. done. }
      apply (IH _ cs cb s1 resp' c' s' allIds) in Hrun; try done.
      destruct Hrun as (Hloop & Hc' & Hlen & Hno & _).
      cbn [expectClientIds clientIds resp nFiles] in *.
      assert (Hid_eq :
        (if (0 <? length allIds)%nat then default "" (allIds !! nFiles st)
         else "") =
        (if expect then default "" (clientIds st !! nFiles st) else "")).
      { destruct expect eqn:Ex.
        - specialize (Hlt eq_refl). rewrite Hids.
          rewrite length_app.
          replace (0 <? length (clientIds st) + length (clientIdsOf suf))%nat
            with true by (symmetry; apply Nat.ltb_lt; lia).
          by rewrite lookup_app_l.
        - rewrite Hids, (Hunexp1 eq_refl), (Hno eq_refl). done. }
      assert (Hnonempty : expect = true ->
                default "" (clientIds st !! nFiles st) <> "").
      { intros Ex. specialize (Hlt Ex).
        destruct (lookup_lt_is_Some_2 (clientIds st) (nFiles st) Hlt)
          as [x Hx].
        rewrite Hx. simpl. rewrite Forall_lookup in Hne. by apply (Hne _ _ Hx). }
      split; [|split; [done|split; [|split; [|done]]]].
      * cbn [uploadFileMultipartBuffered_loop]. unfold Open, headerOf.
        cbn [OpenErr content Filename].
        rewrite Hid_eq, Hch, Hus.
        assert (Hin : {| Data := Data (Content p); ReadErr := None |} =
                      Content p).
        { destruct (Content p) as [d r]. simpl in *. by rewrite Hr. }
        rewrite Hin, Hup.
        destruct expect eqn:Ex.
        -- rewrite decide_False by (by apply Hnonempty). exact Hloop.
        -- rewrite decide_True by done. exact Hloop.
      * destruct Hlen as [Hlen|Hlen]; [by left|right]. simpl. lia.
      * intros He. apply Hno. subst expect. rewrite He.
        by destruct ((nFiles st =? 0)%nat && (length (clientIds st) =? 0)%nat).
Qed.

End RefinementFacts.

(** The body of the loop on a channel_id field of at most [maxValueBytes]
    bytes. *)
Lemma part_channel_id {S} (a : App S) timestamp mode v st c s :
  len v <= maxValueBytes ->
  Part001.uploadFileMultipart_part a timestamp mode (field "channel_id" v)
    st c s =
  let c' := if decide (v = "") then c else setChannelId c v in
  if decide (mode = Part001.bufferedMode) then Part001.Restream c' s
  else Part001.Continue st c' s.
Proof.
  intros Hlen. unfold Part001.uploadFileMultipart_part.
  cbn [FormName FileName Content field].
  rewrite (decide_False (P := "channel_id" = "")) by done.
  rewrite (decide_True (P := "" = "")) by done.
  destruct (CopyN_whole {| Data := v; ReadErr := None |} maxValueBytes)
    as [Hx Hok]; try done.
  destruct (CopyN _ maxValueBytes) as [x e]. simpl in Hx, Hok. subst x.
  rewrite (decide_True (P := "channel_id" = "channel_id")) by done.
  destruct e; [done|done|by destruct (Hok msg)].
Qed.

(** C3 (as amended). For a plain multipart body (every part reads to its
    end, the form fields besides channel_id are non-empty client_ids values
    of at most 10 KiB, every file part has the form name files) with at
    least one file, no channel id in the URL, and within the memory budget
    of ReadForm: when the request with the channel_id field before the
    other parts (streaming mode) succeeds, the request with the channel_id
    field after them (buffered fallback) succeeds too, with the same
    response (the same FileInfos in the same order, the same ClientIds),
    the same context and the same application state. *)
Theorem buffered_fallback_refines_streaming {S} (a : App S) c timestamp s v
    ps r1 r2 resp c1 s1 :
  Params_ChannelId c = "" ->
  len v <= maxValueBytes ->
  Forall (fun p => plainPart p = true) ps ->
  filePartsOf ps <> [] ->
  Req_Body r1 =
    Multipart {| Parts := field "channel_id" v :: ps; Final := None |} ->
  Req_Body r2 =
    Multipart {| Parts := ps ++ [field "channel_id" v]; Final := None |} ->
  FormTooLarge a (MaxFileSize (Config a)) (ps ++ [field "channel_id" v]) =
    false ->
  Part001.uploadFileMultipart a c r1 timestamp Part001.bufferedMode s =
    (Some resp, c1, s1) ->
  Part001.uploadFileMultipart a c r2 timestamp Part001.bufferedMode s =
    (Some resp, c1, s1).
Proof.
  intros Hc Hv Hplain Hfiles Hr1 Hr2 Hfit Hrun.
  unfold Part001.uploadFileMultipart in *. rewrite Hr1 in Hrun. rewrite Hr2.
  cbn [Parts Final] in *.
  (* the streaming side *)
  cbn [Part001.uploadFileMultipart_loop] in Hrun.
  rewrite part_channel_id in Hrun by done. cbv zeta in Hrun.
  rewrite (decide_True (P := Part001.bufferedMode = Part001.bufferedMode))
    in Hrun by done.
  unfold Part001.uploadFileMultipart_stream in Hrun. cbn [Parts Final] in Hrun.
  cbn [Part001.uploadFileMultipart_loop] in Hrun.
  rewrite part_channel_id in Hrun by done. cbv zeta in Hrun.
  rewrite (decide_False (P := Part001.streamMode = Part001.bufferedMode))
    in Hrun by done.
  cbn [field Content ReadErr] in Hrun.
  set (cs := if decide (v = "")
             then (if decide (v = "") then c else setChannelId c v)
             else setChannelId (if decide (v = "") then c else setChannelId c v) v)
    in Hrun.
  assert (Hcs : cs = setChannelId c v).
  { subst cs. destruct (decide (v = "")) as [->|_]; [|done].
    destruct c. simpl in Hc. by subst. }
  clearbody cs. subst cs.
  destruct (RefinementFacts.stream_simulated a timestamp ps
              Part001.initialState (setChannelId c v) (setChannelId c v) s
              resp c1 s1 (clientIdsOf ps) Hplain Hrun)
    as (Hloop & -> & Hlen & _ & Hchecks); try done.
  destruct (Hchecks Hfiles) as (Herr & Hid & Hperm). clear Hchecks.
  cbn [Part001.initialState Part001.nFiles Part001.resp] in Hloop, Hlen.
  (* the buffered side *)
  rewrite RefinementFacts.prescan_plain by done.
  unfold Part001.uploadFileMultipartBuffered, ReadForm.
  cbn [Parts Final]. rewrite Hfit.
  destruct (readFormParts_spec (ps ++ [field "channel_id" v])
              {| Value := ∅; File := ∅ |}) as (form & -> & Hform).
  { apply Forall_app. split.
    - eapply Forall_impl; [exact Hplain|]. intros p Hp.
      by apply plainPart_cases in Hp as [Hp _].
    - by constructor. }
  destruct (plain_form ps Hplain) as (Hv0 & Hv1 & Hv2).
  destruct (Hform "channel_id") as [Hchan _]; [done|].
  destruct (Hform "client_ids") as [Hcids _]; [done|].
  destruct (Hform "files") as [_ Hfls]; [done|].
  rewrite valuesOf_app, Hv0 in Hchan. rewrite valuesOf_app, Hv1 in Hcids.
  rewrite filesOf_app, Hv2 in Hfls.
  assert (He1 : forall n, formValue {| Value := ∅; File := ∅ |} n = [])
    by (intros; unfold formValue; cbn [Value]; by rewrite lookup_empty).
  assert (He2 : forall n, formFile {| Value := ∅; File := ∅ |} n = [])
    by (intros; unfold formFile; cbn [File]; by rewrite lookup_empty).
  rewrite He1 in Hchan, Hcids. rewrite He2 in Hfls.
  simpl in Hchan, Hcids, Hfls. rewrite app_nil_r in Hcids, Hfls.
  rewrite Hchan, Hcids, Hfls.
  unfold RequireChannelId. rewrite Herr. cbn [Params_ChannelId setChannelId] in *.
  rewrite Hid, Herr. cbn [Session_UserId] in *. rewrite Hperm. simpl negb.
  rewrite length_map.
  replace (negb (length (clientIdsOf ps) =? 0)%nat
           && negb (length (clientIdsOf ps) =? length (filePartsOf ps))%nat)
    with false.
  - exact Hloop.
  - symmetry. destruct Hlen as [Hlen|Hlen]; rewrite Hlen.
    + done.
    + simpl. rewrite Nat.eqb_refl. apply andb_false_r.
Qed.

Lemma buffered_fallback_refines_streaming_witness :
  exists resp c1 s1,
    Part001.uploadFileMultipart (demoApp demoSettings) demoContext
      (multipartRequest 64
         (field "channel_id" channel26
          :: [field "client_ids" "c1"; filePart "files" "test.png" "data"]))
      0 Part001.bufferedMode [] = (Some resp, c1, s1) /\
    Part001.uploadFileMultipart (demoApp demoSettings) demoContext
      (multipartRequest 64
         ([field "client_ids" "c1"; filePart "files" "test.png" "data"]
          ++ [field "channel_id" channel26]))
      0 Part001.bufferedMode [] = (Some resp, c1, s1) /\
    ClientIds resp = ["c1"] /\ map Name (FileInfos resp) = ["test.png"].
Proof.
  eexists _, _, _. split; [vm_compute; reflexivity|]. split.
  - apply (buffered_fallback_refines_streaming (demoApp demoSettings)
             demoContext 0 [] channel26
             [field "client_ids" "c1"; filePart "files" "test.png" "data"]
             (multipartRequest 64
                (field "channel_id" channel26
                 :: [field "client_ids" "c1";
                     filePart "files" "test.png" "data"])));
      try reflexivity.
    + vm_compute. discriminate.
    + repeat constructor.
    + discriminate.
  - split; reflexivity.
Defined.

(** C3, the claim as stated fails on the two bodies of the specification:
    with channel_id first the client_ids field that follows the file is
    refused (BadRequest), with channel_id last the same parts are accepted
    and the client id is returned. *)
Lemma channel_id_last_differs_from_first :
  let a := demoApp demoSettings in
  let first := multipartRequest 64
                 [field "channel_id" channel26;
                  filePart "files" "test.png" "data";
                  field "client_ids" "c1"] in
  let last := multipartRequest 64
                [filePart "files" "test.png" "data";
                 field "client_ids" "c1";
                 field "channel_id" channel26] in
  (let h := Part001.uploadFileStream a demoContext emptyWriter first 0 [] in
   (StatusCode <$> Err (hc h)) = Some StatusBadRequest /\
   jsonResponses (hw h) = []) /\
  (let h := Part001.uploadFileStream a demoContext emptyWriter last 0 [] in
   Err (hc h) = None /\ Status (hw h) = Some StatusCreated /\
   map ClientIds (jsonResponses (hw h)) = [["c1"]] /\
   map (fun r => map Name (FileInfos r)) (jsonResponses (hw h)) =
     [["test.png"]]).
Proof. repeat split; vm_compute; reflexivity. Qed.

(** ** FileInfos and ClientIds of a response *)

(** C1 at the failing inputs.  In file.go a client_ids field between two
    file parts gives a response with two FileInfos and one client id; in
    the buffered fallback of part_001 an empty client_ids value beside a
    non-empty one gives two FileInfos and one client id, which then stands
    at the index of the other file. *)
Theorem client_ids_not_parallel_to_file_infos :
  let a := demoApp demoSettings in
  (let h := Api4.uploadFileStream a demoContext emptyWriter
              (multipartRequest 64
                 [field "channel_id" channel26;
                  filePart "files" "a.txt" "aaa";
                  field "client_ids" "id-b";
                  filePart "files" "b.txt" "bbb"]) 0 [] in
   Err (hc h) = None /\ Status (hw h) = Some StatusCreated /\
   map (fun r => (map Name (FileInfos r), ClientIds r))
     (jsonResponses (hw h)) = [(["a.txt"; "b.txt"], ["id-b"])]) /\
  (let h := Part001.uploadFileStream a demoContext emptyWriter
              (multipartRequest 64
                 [filePart "files" "a.txt" "aaa";
                  field "client_ids" "";
                  filePart "files" "b.txt" "bbb";
                  field "client_ids" "id-b";
                  field "channel_id" channel26]) 0 [] in
   Err (hc h) = None /\ Status (hw h) = Some StatusCreated /\
   map (fun r => (map Name (FileInfos r), ClientIds r))
     (jsonResponses (hw h)) = [(["a.txt"; "b.txt"], ["id-b"])]).
Proof. repeat split; vm_compute; reflexivity. Qed.

Module StreamResponse.
Import Part001 Part001Facts.

Lemma part_parallel {S} (a : App S) timestamp p st c s st1 c1 s1 :
  uploadFileMultipart_part a timestamp streamMode p st c s =
    Continue st1 c1 s1 ->
  parallel st -> parallel st1.
Proof.
  intros Hp [Hlen Hids].
  destruct (part_cases p) as [Hnl|[(name & Hne & Hv & Hnf)|(Hf & _ & _ & Hnv)]].
  - rewrite part_nameless in Hp by done. by injection Hp as <- <- <-.
  - destruct (part_value_stream a timestamp p name st c s st1 c1 s1 Hne Hv Hp)
      as (_ & Hn & Hr & He & Hc).
    unfold parallel. rewrite Hn, Hr, He, Hc. split; [done|].
    destruct (expectClientIds st); [|done]. destruct Hids as [Hids Hle].
    rewrite length_app. split; [|lia]. by rewrite take_app_le.
  - destruct (part_file_stream a timestamp p st c s st1 c1 s1 Hf Hp)
      as (_ & _ & _ & _ & Hlt & info & _ & ->).
    unfold parallel. cbn [expectClientIds clientIds resp nFiles].
    destruct ((nFiles st =? 0)%nat && (length (clientIds st) =? 0)%nat) eqn:E.
    + simpl. rewrite length_app. simpl. split; [lia|].
      apply andb_true_iff in E as [E _]. apply Nat.eqb_eq in E.
      destruct (expectClientIds st); [|done].
      destruct Hids as [-> _]. by rewrite E.
    + destruct (expectClientIds st) eqn:He; simpl.
      * specialize (Hlt eq_refl). destruct Hids as [Hids Hle].
        rewrite length_app. simpl. split; [lia|]. split; [|lia].
        destruct (lookup_lt_is_Some_2 (clientIds st) (nFiles st) Hlt)
          as [x Hx].
        rewrite Hx, Hids. simpl. symmetry. by apply take_S_r.
      * rewrite length_app. simpl. split; [lia|done].
Qed.

Lemma steps_parallel {S} (a : App S) timestamp pre :
  forall st c s st1 c1 s1,
  uploadFileMultipart_steps a timestamp streamMode pre st c s =
    Some (st1, c1, s1) ->
  parallel st -> parallel st1.
Proof.
  induction pre as [|p pre IH]; intros st c s st1 c1 s1 H Hpar; simpl in H.
  - by injection H as <- <- <-.
  - destruct (uploadFileMultipart_part a timestamp streamMode p st c s)
      as [st2 c2 s2| | |] eqn:Hp; try done.
    destruct (ReadErr (Content p)); [done|].
    eapply IH; [exact H|]. by eapply part_parallel.
Qed.

(** A streaming loop that succeeds went through every part and passed the
    check after the loop. *)
Lemma loop_success_steps {S} (a : App S) timestamp ps :
  forall final st c s resp' c' s',
  uploadFileMultipart_loop a timestamp streamMode notInStreamMode
    notInStreamMode ps final st c s = (Some resp', c', s') ->
  exists st1,
    uploadFileMultipart_steps a timestamp streamMode ps st c s =
      Some (st1, c', s') /\
    final = None /\
    uploadFileMultipart_end st1 c' s' = (Some resp', c', s').
Proof.
  induction ps as [|p ps IH]; intros final st c s resp' c' s' H; simpl in *.
  - destruct final; [done|]. exists st.
    unfold uploadFileMultipart_end in *.
    destruct (expectClientIds st && _); [done|].
    injection H as <- <- <-. done.
  - destruct (uploadFileMultipart_part a timestamp streamMode p st c s)
      as [st2 c2 s2|r| |] eqn:Hp; try done.
    + destruct (ReadErr (Content p)); [done|]. by apply IH.
    + apply part_return_none in Hp. by subst r.
Qed.

End StreamResponse.

(** X1. In the streaming mode of part_001 every response of a request
    that succeeds has one FileInfo for each file part, and its ClientIds are
    either empty or the values of the client_ids fields of the body, in
    their order and as many as the FileInfos. *)
Theorem stream_client_ids_parallel {S} (a : App S) c r mr timestamp s resp
    c' s' :
  Req_Body r = Multipart mr ->
  Part001.uploadFileMultipart a c r timestamp Part001.streamMode s =
    (Some resp, c', s') ->
  length (FileInfos resp) = length (filePartsOf (Parts mr)) /\
  (ClientIds resp = [] \/
   ClientIds resp = clientIdsOf (Parts mr) /\
   length (ClientIds resp) = length (FileInfos resp)).
Proof.
  intros Hr Hrun. unfold Part001.uploadFileMultipart in Hrun.
  rewrite Hr in Hrun. unfold Part001.uploadFileMultipart_stream in Hrun.
  apply StreamResponse.loop_success_steps in Hrun as (st1 & Hsteps & _ & Hend).
  pose proof (StreamResponse.steps_parallel _ _ _ _ _ _ _ _ _ Hsteps) as Hpar.
  destruct Hpar as [Hlen Hids]; [by split|].
  apply Part001Facts.steps_stream_state in Hsteps as (Hn & Hc & _).
  simpl in Hn, Hc.
  unfold Part001.uploadFileMultipart_end in Hend.
  destruct (Part001.expectClientIds st1) eqn:He; simpl in Hend.
  - destruct (length (Part001.clientIds st1) =? Part001.nFiles st1)%nat eqn:El;
      simpl in Hend; [|done].
    injection Hend as <-. apply Nat.eqb_eq in El. destruct Hids as [Hids _].
    split; [lia|]. right. rewrite Hids, <- El, firstn_all, Hc.
    split; [done|]. rewrite <- Hc. lia.
  - injection Hend as <-. split; [lia|]. by left.
Qed.

Lemma stream_client_ids_parallel_witness :
  length (FileInfos
            {| FileInfos :=
                 [storedInfo
                    {| Timestamp := 0; TeamId := FILE_TEAM_ID;
                       ChannelId := channel26; UserId := "user";
                       ClientId := "c1"; UploadName := "test.png";
                       ContentLength := -1;
                       Input := {| Data := "data"; ReadErr := None |} |} 0];
               ClientIds := ["c1"] |}) =
  length (filePartsOf
            [field "channel_id" channel26; field "client_ids" "c1";
             filePart "files" "test.png" "data"]).
Proof.
  apply (stream_client_ids_parallel (demoApp demoSettings) demoContext
           (multipartRequest 64
              [field "channel_id" channel26; field "client_ids" "c1";
               filePart "files" "test.png" "data"])
           {| Parts := [field "channel_id" channel26; field "client_ids" "c1";
                        filePart "files" "test.png" "data"];
              Final := None |} 0 []
           _ (setChannelId demoContext channel26)
           [{| Timestamp := 0; TeamId := FILE_TEAM_ID;
               ChannelId := channel26; UserId := "user";
               ClientId := "c1"; UploadName := "test.png";
               ContentLength := -1;
               Input := {| Data := "data"; ReadErr := None |} |}]);
    reflexivity.
Defined.

(** ** The retrieval handlers *)

Lemma writeFileResponse_body {S} (a : App S) filename contentType contentSize
    fileReader forceDownload w :
  Body (writeFileResponse a filename contentType contentSize fileReader
          forceDownload w).1 = Body w ++ [FileBytes fileReader].
Proof.
  unfold writeFileResponse. cbn [fst].
  destruct (toDownload _ _), (0 <? contentSize); reflexivity.
Qed.

Lemma writeFileResponse_changes {S} (a : App S) filename contentType
    contentSize fileReader forceDownload w :
  (writeFileResponse a filename contentType contentSize fileReader
     forceDownload w).1 <> w.
Proof.
  intros E. apply (f_equal Body) in E. rewrite writeFileResponse_body in E.
  apply (f_equal length) in E. rewrite length_app in E. simpl in E. lia.
Qed.

(** The headers that [writeFileResponse] sets whatever the file is. *)
Lemma writeFileResponse_fixed_headers {S} (a : App S) filename contentType
    contentSize fileReader forceDownload w :
  let h := Header (writeFileResponse a filename contentType contentSize
                     fileReader forceDownload w).1 in
  h !! "Cache-Control" = Some "max-age=2592000, private" /\
  h !! "X-Content-Type-Options" = Some "nosniff" /\
  h !! "X-Frame-Options" = Some "DENY" /\
  h !! "Content-Security-Policy" = Some "Frame-ancestors 'none'".
Proof.
  unfold writeFileResponse. cbn [fst].
  destruct (toDownload _ _), (0 <? contentSize); cbn;
    repeat split;
    repeat (rewrite lookup_insert_ne by done); by rewrite lookup_insert_eq.
Qed.

Lemma writeFileResponse_content_length {S} (a : App S) filename contentType
    contentSize fileReader forceDownload w :
  Header (writeFileResponse a filename contentType contentSize fileReader
            forceDownload w).1 !! "Content-Length" =
  if 0 <? contentSize then Some (Itoa contentSize)
  else Header w !! "Content-Length".
Proof.
  unfold writeFileResponse. cbn [fst].
  destruct (toDownload _ _), (0 <? contentSize); cbn;
    repeat (rewrite lookup_insert_ne by done);
    try (by rewrite lookup_insert_eq); done.
Qed.

(** The content type of a response has none of the unsafe types as a
    prefix. *)
Lemma responseContentType_safe contentType u :
  In u UNSAFE_CONTENT_TYPES ->
  HasPrefix (responseContentType contentType) u = false.
Proof.
  intros Hu. unfold responseContentType. case_decide as E.
  - simpl in Hu. repeat (destruct Hu as [<-|Hu]; [reflexivity|]). destruct Hu.
  - destruct (existsb (HasPrefix contentType) UNSAFE_CONTENT_TYPES) eqn:Ex.
    + apply existsb_exists in Ex.
      rewrite (rewriteUnsafe_hit contentType UNSAFE_CONTENT_TYPES Ex).
      simpl in Hu. repeat (destruct Hu as [<-|Hu]; [reflexivity|]). destruct Hu.
    + assert (Hall : forall v, In v UNSAFE_CONTENT_TYPES ->
                               HasPrefix contentType v = false).
      { intros v Hv. apply not_true_is_false. intros Hp.
        assert (existsb (HasPrefix contentType) UNSAFE_CONTENT_TYPES = true)
          by (apply existsb_exists; eauto). congruence. }
      rewrite rewriteUnsafe_miss by done. by apply Hall.
Qed.

Lemma sendFile_outcome {S} (a : App S) c w filename contentType contentSize
    fileReader forceDownload :
  sendFile a c w filename contentType contentSize fileReader forceDownload =
  Returned (writeFileResponse a filename contentType contentSize fileReader
              forceDownload w).1 c.
Proof. reflexivity. Qed.

(** [mayNotRead] is off exactly for the creator and for a session that may
    read the channel of the post. *)
Lemma mayNotRead_false {S} (ra : ReadApp S) c info :
  mayNotRead ra c info = false <->
  CreatorId info = Session_UserId c \/
  SessionHasPermissionToChannelByPost ra (Session_UserId c) (PostId info)
    PERMISSION_READ_CHANNEL = true.
Proof.
  unfold mayNotRead. rewrite andb_false_iff, !negb_false_iff.
  by rewrite bool_decide_eq_true.
Qed.

(** A way out of a handler with an error and the writer untouched. *)
Ltac refused Herr :=
  right; cbv zeta; rewrite ?Herr; eexists; (split; [reflexivity|]);
  simpl; congruence.

(** The ways through [getFile]: the file is sent, or the handler returns
    with an error and the writer untouched. *)
Lemma getFile_cases {S} (ra : ReadApp S) c w r s :
  (exists info fileReader,
     Err c = None /\ IsValidId (app ra) (Params_FileId c) = true /\
     GetFileInfo (app ra) (Params_FileId c) s = inr info /\
     mayNotRead ra c info = false /\
     FileReader (app ra) (Path info) s = inr fileReader /\
     getFile ra c w r s =
       Returned (writeFileResponse (app ra) (Name info) (MimeType info)
                   (Size info) fileReader (forceDownloadOf r) w).1 c) \/
  (exists c', getFile ra c w r s = Returned w c' /\ Err c' <> None).
Proof.
  unfold getFile, RequireFileId.
  destruct (Err c) as [e|] eqn:Herr.
  { refused Herr. }
  destruct (IsValidId (app ra) (Params_FileId c)) eqn:Hid;
    [|refused Herr].
  rewrite Herr.
  destruct (GetFileInfo (app ra) (Params_FileId c) s) as [err|info] eqn:Hinfo;
    [refused Herr|].
  destruct (mayNotRead ra c info) eqn:Hperm; [refused Herr|].
  destruct (FileReader (app ra) (Path info) s) as [err|fileReader] eqn:Hrd;
    [refused Herr|].
  left. exists info, fileReader. rewrite sendFile_outcome. done.
Qed.

Lemma getFileThumbnail_cases {S} (ra : ReadApp S) c w r s :
  (exists info fileReader,
     Err c = None /\ IsValidId (app ra) (Params_FileId c) = true /\
     GetFileInfo (app ra) (Params_FileId c) s = inr info /\
     mayNotRead ra c info = false /\
     ThumbnailPath info <> "" /\
     FileReader (app ra) (ThumbnailPath info) s = inr fileReader /\
     getFileThumbnail ra c w r s =
       Returned (writeFileResponse (app ra) (Name info) THUMBNAIL_IMAGE_TYPE 0
                   fileReader (forceDownloadOf r) w).1 c) \/
  (exists c', getFileThumbnail ra c w r s = Returned w c' /\ Err c' <> None).
Proof.
  unfold getFileThumbnail, RequireFileId.
  destruct (Err c) as [e|] eqn:Herr.
  { refused Herr. }
  destruct (IsValidId (app ra) (Params_FileId c)) eqn:Hid;
    [|refused Herr].
  rewrite Herr.
  destruct (GetFileInfo (app ra) (Params_FileId c) s) as [err|info] eqn:Hinfo;
    [refused Herr|].
  destruct (mayNotRead ra c info) eqn:Hperm; [refused Herr|].
  case_decide as Hpath; [refused Herr|].
  destruct (FileReader (app ra) (ThumbnailPath info) s)
    as [err|fileReader] eqn:Hrd; [refused Herr|].
  left. exists info, fileReader. rewrite sendFile_outcome. done.
Qed.

Lemma getFilePreview_cases {S} (ra : ReadApp S) c w r s :
  (exists info fileReader,
     Err c = None /\ IsValidId (app ra) (Params_FileId c) = true /\
     GetFileInfo (app ra) (Params_FileId c) s = inr info /\
     mayNotRead ra c info = false /\
     PreviewPath info <> "" /\
     FileReader (app ra) (PreviewPath info) s = inr fileReader /\
     getFilePreview ra c w r s =
       Returned (writeFileResponse (app ra) (Name info) PREVIEW_IMAGE_TYPE 0
                   fileReader (forceDownloadOf r) w).1 c) \/
  (exists c', getFilePreview ra c w r s = Returned w c' /\ Err c' <> None).
Proof.
  unfold getFilePreview, RequireFileId.
  destruct (Err c) as [e|] eqn:Herr.
  { refused Herr. }
  destruct (IsValidId (app ra) (Params_FileId c)) eqn:Hid;
    [|refused Herr].
  rewrite Herr.
  destruct (GetFileInfo (app ra) (Params_FileId c) s) as [err|info] eqn:Hinfo;
    [refused Herr|].
  destruct (mayNotRead ra c info) eqn:Hperm; [refused Herr|].
  case_decide as Hpath; [refused Herr|].
  destruct (FileReader (app ra) (PreviewPath info) s)
    as [err|fileReader] eqn:Hrd; [refused Herr|].
  left. exists info, fileReader. rewrite sendFile_outcome. done.
Qed.

Lemma getFileLink_cases {S} (ra : ReadApp S) c w siteURL s :
  (exists info,
     Err c = None /\ IsValidId (app ra) (Params_FileId c) = true /\
     EnablePublicLink (Config (app ra)) = true /\
     GetFileInfo (app ra) (Params_FileId c) s = inr info /\
     mayNotRead ra c info = false /\
     PostId info <> "" /\
     getFileLink ra c w siteURL s =
       Returned
         (Write (Text (MapToJson ra
                         [("link", GeneratePublicLink ra siteURL info)])) w)
         c) \/
  (exists c', getFileLink ra c w siteURL s = Returned w c' /\ Err c' <> None).
Proof.
  unfold getFileLink, RequireFileId.
  destruct (Err c) as [e|] eqn:Herr.
  { refused Herr. }
  destruct (IsValidId (app ra) (Params_FileId c)) eqn:Hid;
    [|refused Herr].
  rewrite Herr.
  destruct (EnablePublicLink (Config (app ra))) eqn:Hen;
    [|refused Herr].
  cbn [negb].
  destruct (GetFileInfo (app ra) (Params_FileId c) s) as [err|info] eqn:Hinfo;
    [refused Herr|].
  destruct (mayNotRead ra c info) eqn:Hperm; [refused Herr|].
  case_decide as Hpost; [refused Herr|].
  left. exists info. rewrite len_zero in Hpost. done.
Qed.

Lemma getFileInfo_cases {S} (ra : ReadApp S) c w s :
  (exists info,
     Err c = None /\ IsValidId (app ra) (Params_FileId c) = true /\
     GetFileInfo (app ra) (Params_FileId c) s = inr info /\
     mayNotRead ra c info = false /\
     getFileInfo ra c w s =
       Returned
         (Write (Text (FileInfoToJson ra info))
            (HeaderSet "Cache-Control" "max-age=2592000, public" w)) c) \/
  (exists c', getFileInfo ra c w s = Returned w c' /\ Err c' <> None).
Proof.
  unfold getFileInfo, RequireFileId.
  destruct (Err c) as [e|] eqn:Herr.
  { refused Herr. }
  destruct (IsValidId (app ra) (Params_FileId c)) eqn:Hid;
    [|refused Herr].
  rewrite Herr.
  destruct (GetFileInfo (app ra) (Params_FileId c) s) as [err|info] eqn:Hinfo;
    [refused Herr|].
  destruct (mayNotRead ra c info) eqn:Hperm; [refused Herr|].
  left. exists info. done.
Qed.

(** X2. The five retrieval handlers ([getFile], [getFileThumbnail],
    [getFilePreview], [getFileLink], [getFileInfo]) write to the response
    only for a file that the lookup found and that the session may read:
    the user of the session created the file, or the session has the
    read_channel permission on the channel of the post of the file. *)
Theorem retrieval_needs_read_permission {S} (ra : ReadApp S) c w r siteURL s o :
  In o [getFile ra c w r s; getFileThumbnail ra c w r s;
        getFilePreview ra c w r s; getFileLink ra c w siteURL s;
        getFileInfo ra c w s] ->
  outcomeWriter o <> w ->
  exists info,
    GetFileInfo (app ra) (Params_FileId c) s = inr info /\
    (CreatorId info = Session_UserId c \/
     SessionHasPermissionToChannelByPost ra (Session_UserId c) (PostId info)
       PERMISSION_READ_CHANNEL = true).
Proof.
  intros Ho Hw. simpl in Ho.
  destruct Ho as [<-|[<-|[<-|[<-|[<-|[]]]]]].
  - destruct (getFile_cases ra c w r s)
      as [(info & fr & _ & _ & Hi & Hp & _)|(c' & E & _)].
    + exists info. split; [done|]. by apply mayNotRead_false.
    + rewrite E in Hw. done.
  - destruct (getFileThumbnail_cases ra c w r s)
      as [(info & fr & _ & _ & Hi & Hp & _)|(c' & E & _)].
    + exists info. split; [done|]. by apply mayNotRead_false.
    + rewrite E in Hw. done.
  - destruct (getFilePreview_cases ra c w r s)
      as [(info & fr & _ & _ & Hi & Hp & _)|(c' & E & _)].
    + exists info. split; [done|]. by apply mayNotRead_false.
    + rewrite E in Hw. done.
  - destruct (getFileLink_cases ra c w siteURL s)
      as [(info & _ & _ & _ & Hi & Hp & _)|(c' & E & _)].
    + exists info. split; [done|]. by apply mayNotRead_false.
    + rewrite E in Hw. done.
  - destruct (getFileInfo_cases ra c w s)
      as [(info & _ & _ & Hi & Hp & _)|(c' & E & _)].
    + exists info. split; [done|]. by apply mayNotRead_false.
    + rewrite E in Hw. done.
Qed.

Lemma retrieval_needs_read_permission_witness :
  exists info,
    GetFileInfo (app (demoReadApp demoSettings))
      (Params_FileId (readContext "guest" file26)) [] = inr info /\
    (CreatorId info = Session_UserId (readContext "guest" file26) \/
     SessionHasPermissionToChannelByPost (demoReadApp demoSettings)
       (Session_UserId (readContext "guest" file26)) (PostId info)
       PERMISSION_READ_CHANNEL = true).
Proof.
  apply (retrieval_needs_read_permission (demoReadApp demoSettings)
           (readContext "guest" file26) emptyWriter (downloadRequest "")
           "http://localhost:8065" []
           (getFile (demoReadApp demoSettings) (readContext "guest" file26)
              emptyWriter (downloadRequest "") [])).
  - simpl. tauto.
  - intros E. apply (f_equal Body) in E. vm_compute in E. discriminate E.
Defined.

(** The ways through [getPublicFile]. *)
Lemma getPublicFile_cases {S} (a : App S) c w r s :
  (exists info fileReader,
     Err c = None /\ IsValidId a (Params_FileId c) = true /\
     GetFileInfo a (Params_FileId c) s = inr info /\
     FileReader a (Path info) s = inr fileReader /\
     getPublicFile a c w r s =
       Returned (writeFileResponse a (Name info) (MimeType info) (Size info)
                   fileReader false w).1 c) \/
  (exists w' c', getPublicFile a c w r s = Returned w' c' /\ Err c' <> None) \/
  (exists info err,
     Err c = None /\ IsValidId a (Params_FileId c) = true /\
     EnablePublicLink (Config a) = true /\
     GetFileInfo a (Params_FileId c) s = inr info /\
     QueryGet r "h" <> "" /\
     QueryGet r "h" =
       GeneratePublicLinkHash a (Id info) (PublicLinkSalt (Config a)) /\
     FileReader a (Path info) s = inl err /\
     getPublicFile a c w r s =
       Panicked w (setErr c (withStatusCode err StatusNotFound))).
Proof.
  assert (Hout : forall w' c', Err c' <> None ->
            exists w'' c'', Returned w' c' = Returned w'' c'' /\ Err c'' <> None)
    by eauto.
  destruct (Err c) as [e|] eqn:Herr.
  { right; left. unfold getPublicFile, getPublicFile_steps, RequireFileId.
    cbv zeta. rewrite Herr. cbn [fst]. rewrite Herr. apply Hout. congruence. }
  destruct (IsValidId a (Params_FileId c)) eqn:Hid.
  2: { right; left. unfold getPublicFile, getPublicFile_steps, RequireFileId.
       rewrite Herr, Hid. apply Hout; simpl; congruence. }
  destruct (EnablePublicLink (Config a)) eqn:Hen.
  2: { right; left. unfold getPublicFile, getPublicFile_steps, RequireFileId.
       rewrite Herr, Hid, Herr, Hen. apply Hout; simpl; congruence. }
  destruct (GetFileInfo a (Params_FileId c) s) as [err|info] eqn:Hinfo.
  { right; left. unfold getPublicFile, getPublicFile_steps, RequireFileId.
    rewrite Herr, Hid, Herr, Hen, Hinfo. apply Hout; simpl; congruence. }
  unfold getPublicFile.
  rewrite (getPublicFile_steps_found a c w r s info) by done. cbv zeta.
  case_decide as Hlen; [right; left; apply Hout; simpl; congruence|].
  cbn [fst].
  case_decide as Hcmp; [right; left; apply Hout; simpl; congruence|].
  assert (Heq : QueryGet r "h" = GeneratePublicLinkHash a (Id info)
                                   (PublicLinkSalt (Config a))).
  { apply compare_bytes_eq.
    destruct (decide (ConstantTimeCompare (bytes (QueryGet r "h"))
      (bytes (GeneratePublicLinkHash a (Id info) (PublicLinkSalt (Config a))))
      = 1)); [done|contradiction]. }
  rewrite len_zero in Hlen.
  destruct (FileReader a (Path info) s) as [err|fileReader] eqn:Hrd.
  - right; right. exists info, err. done.
  - left. exists info, fileReader. done.
Qed.

(** X3. Whatever [getFileThumbnail] or [getFilePreview] sends is the data
    stored under the thumbnail (preview) path of the file, which is not
    empty; it is sent as image/jpeg whatever the type of the file, without a
    Content-Length of the handler's, and inline unless the download
    parameter parses as true. *)
Theorem thumbnail_and_preview_are_jpeg {S} (ra : ReadApp S) c w r s o pathOf :
  In (o, pathOf) [(getFileThumbnail ra c w r s, ThumbnailPath);
                  (getFilePreview ra c w r s, PreviewPath)] ->
  outcomeWriter o <> w ->
  exists info fileReader v,
    GetFileInfo (app ra) (Params_FileId c) s = inr info /\
    pathOf info <> "" /\
    FileReader (app ra) (pathOf info) s = inr fileReader /\
    Body (outcomeWriter o) = Body w ++ [FileBytes fileReader] /\
    Header (outcomeWriter o) !! "Content-Type" = Some "image/jpeg" /\
    Header (outcomeWriter o) !! "Content-Length" =
      Header w !! "Content-Length" /\
    Header (outcomeWriter o) !! "Content-Disposition" = Some v /\
    HasPrefix v (if forceDownloadOf r then "attachment" else "inline") = true.
Proof.
  intros Ho Hw. simpl in Ho. destruct Ho as [Ho|[Ho|[]]]; injection Ho as <- <-.
  - destruct (getFileThumbnail_cases ra c w r s)
      as [(info & fr & _ & _ & Hi & _ & Hp & Hrd & E)|(c' & E & _)];
      rewrite E in Hw |- *; [|done]. cbn [outcomeWriter].
    eexists info, fr, _. split; [done|]. split; [done|]. split; [done|].
    split; [apply writeFileResponse_body|].
    split; [by rewrite header_content_type|].
    split; [by rewrite writeFileResponse_content_length|].
    split; [apply header_content_disposition|].
    by destruct (forceDownloadOf r).
  - destruct (getFilePreview_cases ra c w r s)
      as [(info & fr & _ & _ & Hi & _ & Hp & Hrd & E)|(c' & E & _)];
      rewrite E in Hw |- *; [|done]. cbn [outcomeWriter].
    eexists info, fr, _. split; [done|]. split; [done|]. split; [done|].
    split; [apply writeFileResponse_body|].
    split; [by rewrite header_content_type|].
    split; [by rewrite writeFileResponse_content_length|].
    split; [apply header_content_disposition|].
    by destruct (forceDownloadOf r).
Qed.

Lemma thumbnail_and_preview_are_jpeg_witness :
  exists info fileReader v,
    GetFileInfo (app (demoReadApp demoSettings))
      (Params_FileId (readContext "user" picture26)) [] = inr info /\
    ThumbnailPath info <> "" /\
    FileReader (app (demoReadApp demoSettings)) (ThumbnailPath info) [] =
      inr fileReader /\
    Body (outcomeWriter
            (getFileThumbnail (demoReadApp demoSettings)
               (readContext "user" picture26) emptyWriter
               (downloadRequest "") [])) =
      Body emptyWriter ++ [FileBytes fileReader] /\
    Header (outcomeWriter
              (getFileThumbnail (demoReadApp demoSettings)
                 (readContext "user" picture26) emptyWriter
                 (downloadRequest "") [])) !! "Content-Type" =
      Some "image/jpeg" /\
    Header (outcomeWriter
              (getFileThumbnail (demoReadApp demoSettings)
                 (readContext "user" picture26) emptyWriter
                 (downloadRequest "") [])) !! "Content-Length" =
      Header emptyWriter !! "Content-Length" /\
    Header (outcomeWriter
              (getFileThumbnail (demoReadApp demoSettings)
                 (readContext "user" picture26) emptyWriter
                 (downloadRequest "") [])) !! "Content-Disposition" = Some v /\
    HasPrefix v (if forceDownloadOf (downloadRequest "")
                 then "attachment" else "inline") = true.
Proof.
  apply (thumbnail_and_preview_are_jpeg (demoReadApp demoSettings)
           (readContext "user" picture26) emptyWriter (downloadRequest "") []
           _ ThumbnailPath).
  - simpl. left. reflexivity.
  - intros E. apply (f_equal Body) in E. vm_compute in E. discriminate E.
Defined.

(** X4. Every file that [getFile], [getFileThumbnail], [getFilePreview] or
    [getPublicFile] serves without an error goes out with
    X-Content-Type-Options nosniff, X-Frame-Options DENY, the frame-ancestors
    policy and a private Cache-Control, and with a Content-Type that begins
    with none of the unsafe content types. *)
Theorem file_responses_are_hardened {S} (ra : ReadApp S) c w r s o :
  In o [getFile ra c w r s; getFileThumbnail ra c w r s;
        getFilePreview ra c w r s; getPublicFile (app ra) c w r s] ->
  outcomeErr o = None ->
  let h := Header (outcomeWriter o) in
  (exists fileReader,
     Body (outcomeWriter o) = Body w ++ [FileBytes fileReader]) /\
  h !! "X-Content-Type-Options" = Some "nosniff" /\
  h !! "X-Frame-Options" = Some "DENY" /\
  h !! "Content-Security-Policy" = Some "Frame-ancestors 'none'" /\
  h !! "Cache-Control" = Some "max-age=2592000, private" /\
  exists contentType,
    h !! "Content-Type" = Some contentType /\
    forall u, In u UNSAFE_CONTENT_TYPES -> HasPrefix contentType u = false.
Proof.
  intros Ho Herr.
  assert (Hsent : exists filename contentType contentSize fileReader
                    forceDownload,
            outcomeWriter o =
              (writeFileResponse (app ra) filename contentType contentSize
                 fileReader forceDownload w).1).
  { simpl in Ho. destruct Ho as [<-|[<-|[<-|[<-|[]]]]].
    - destruct (getFile_cases ra c w r s)
        as [(info & fr & _ & _ & _ & _ & _ & E)|(c' & E & Hne)];
        rewrite E in Herr |- *; [|done]. by eexists _, _, _, _, _.
    - destruct (getFileThumbnail_cases ra c w r s)
        as [(info & fr & _ & _ & _ & _ & _ & _ & E)|(c' & E & Hne)];
        rewrite E in Herr |- *; [|done]. by eexists _, _, _, _, _.
    - destruct (getFilePreview_cases ra c w r s)
        as [(info & fr & _ & _ & _ & _ & _ & _ & E)|(c' & E & Hne)];
        rewrite E in Herr |- *; [|done]. by eexists _, _, _, _, _.
    - destruct (getPublicFile_cases (app ra) c w r s)
        as [(info & fr & _ & _ & _ & _ & E)|
            [(w' & c' & E & Hne)|(info & err & _ & _ & _ & _ & _ & _ & _ & E)]];
        rewrite E in Herr |- *; try done. by eexists _, _, _, _, _. }
  destruct Hsent as (filename & contentType & contentSize & fr & fd & ->).
  cbv zeta.
  destruct (writeFileResponse_fixed_headers (app ra) filename contentType
              contentSize fr fd w) as (H1 & H2 & H3 & H4).
  split; [eexists; apply writeFileResponse_body|].
  split; [done|]. split; [done|]. split; [done|]. split; [done|].
  exists (responseContentType contentType).
  split; [apply header_content_type|]. apply responseContentType_safe.
Qed.

Lemma file_responses_are_hardened_witness :
  Header (outcomeWriter
            (getFile (demoReadApp demoSettings) (readContext "user" picture26)
               emptyWriter (downloadRequest "") [])) !! "X-Content-Type-Options"
  = Some "nosniff".
Proof.
  apply (file_responses_are_hardened (demoReadApp demoSettings)
           (readContext "user" picture26) emptyWriter (downloadRequest "") []
           (getFile (demoReadApp demoSettings) (readContext "user" picture26)
              emptyWriter (downloadRequest "") [])).
  - simpl. tauto.
  - reflexivity.
Defined.

(** [forceDownload] is on exactly for the spellings of true that
    [strconv.ParseBool] accepts. *)
Lemma forceDownloadOf_true (r : Request) :
  forceDownloadOf r = true <->
  In (QueryGet r "download") ["1"; "t"; "T"; "true"; "TRUE"; "True"].
Proof.
  unfold forceDownloadOf, ParseBool.
  destruct (existsb (String.eqb (QueryGet r "download"))
              ["1"; "t"; "T"; "true"; "TRUE"; "True"]) eqn:E1.
  - split; [intros _|done].
    apply existsb_exists in E1 as [x [Hin Heq]].
    apply String.eqb_eq in Heq. by subst.
  - assert (Hno : ~ In (QueryGet r "download")
                      ["1"; "t"; "T"; "true"; "TRUE"; "True"]).
    { intros Hin.
      assert (existsb (String.eqb (QueryGet r "download"))
                ["1"; "t"; "T"; "true"; "TRUE"; "True"] = true)
        by (apply existsb_exists; eexists; split;
            [exact Hin | apply String.eqb_refl]).
      congruence. }
    clear E1. destruct (existsb _ _); (split; [done | intros H; by destruct (Hno H)]).
Qed.

(** X5. [getFile] sends a file as an attachment exactly when the download
    parameter is one of 1, t, T, true, TRUE, True (what [strconv.ParseBool]
    reads as true) or the stored type of the file begins with none of the
    media types; otherwise it sends the file inline.  Any other value of the
    parameter, yes for one, counts as false. *)
Theorem getFile_download_parameter {S} (ra : ReadApp S) c w r s info :
  outcomeErr (getFile ra c w r s) = None ->
  GetFileInfo (app ra) (Params_FileId c) s = inr info ->
  let forced :=
    In (QueryGet r "download") ["1"; "t"; "T"; "true"; "TRUE"; "True"] in
  let media :=
    exists m, In m MEDIA_CONTENT_TYPES /\ HasPrefix (MimeType info) m = true in
  exists v,
    Header (outcomeWriter (getFile ra c w r s)) !! "Content-Disposition" =
      Some v /\
    (HasPrefix v "attachment" = true <-> forced \/ ~ media) /\
    (HasPrefix v "inline" = true <-> ~ forced /\ media).
Proof.
  intros Herr Hinfo forced media.
  destruct (getFile_cases ra c w r s)
    as [(info' & fr & _ & _ & Hi & _ & _ & E)|(c' & E & Hne)];
    rewrite E in Herr |- *; [|done].
  rewrite Hinfo in Hi. injection Hi as <-. cbn [outcomeWriter].
  eexists. split; [apply header_content_disposition|].
  unfold toDownload. rewrite isMediaType_response.
  subst forced media. rewrite <- forceDownloadOf_true, <- isMediaType_true.
  assert (Ha : forall rest, HasPrefix ("attachment" +:+ rest) "attachment" = true
                         /\ HasPrefix ("attachment" +:+ rest) "inline" = false)
    by (intros; split; [apply HasPrefix_append | reflexivity]).
  assert (Hi : forall rest, HasPrefix ("inline" +:+ rest) "inline" = true
                         /\ HasPrefix ("inline" +:+ rest) "attachment" = false)
    by (intros; split; [apply HasPrefix_append | reflexivity]).
  destruct (forceDownloadOf r),
    (isMediaType (MimeType info) MEDIA_CONTENT_TYPES); cbn [negb];
    [destruct (Ha (";filename=" +:+ dquote +:+ PathEscape (app ra) (Name info)
                   +:+ dquote +:+ "; filename*=UTF-8''" +:+
                   PathEscape (app ra) (Name info))) as [-> ->]
    |destruct (Ha (";filename=" +:+ dquote +:+ PathEscape (app ra) (Name info)
                   +:+ dquote +:+ "; filename*=UTF-8''" +:+
                   PathEscape (app ra) (Name info))) as [-> ->]
    |destruct (Hi (";filename=" +:+ dquote +:+ PathEscape (app ra) (Name info)
                   +:+ dquote +:+ "; filename*=UTF-8''" +:+
                   PathEscape (app ra) (Name info))) as [-> ->]
    |destruct (Ha (";filename=" +:+ dquote +:+ PathEscape (app ra) (Name info)
                   +:+ dquote +:+ "; filename*=UTF-8''" +:+
                   PathEscape (app ra) (Name info))) as [-> ->]];
    intuition congruence.
Qed.

Lemma getFile_download_parameter_witness :
  exists v,
    Header (outcomeWriter
              (getFile (demoReadApp demoSettings) (readContext "user" file26)
                 emptyWriter (downloadRequest "yes") []))
      !! "Content-Disposition" = Some v /\
    (HasPrefix v "attachment" = true <->
     In (QueryGet (downloadRequest "yes") "download")
       ["1"; "t"; "T"; "true"; "TRUE"; "True"] \/
     ~ exists m, In m MEDIA_CONTENT_TYPES /\
                 HasPrefix (MimeType knownInfo) m = true) /\
    (HasPrefix v "inline" = true <->
     ~ In (QueryGet (downloadRequest "yes") "download")
         ["1"; "t"; "T"; "true"; "TRUE"; "True"] /\
     exists m, In m MEDIA_CONTENT_TYPES /\
               HasPrefix (MimeType knownInfo) m = true).
Proof.
  apply (getFile_download_parameter (demoReadApp demoSettings)
           (readContext "user" file26) emptyWriter (downloadRequest "yes") []
           knownInfo); reflexivity.
Defined.

(** X6. [getFileLink] writes to the response only when public links are
    enabled and the file is attached to a post; what it writes is the JSON
    of the link of that file, and it touches neither the headers nor the
    status. *)
Theorem getFileLink_only_for_posted_file {S} (ra : ReadApp S) c w siteURL s :
  outcomeWriter (getFileLink ra c w siteURL s) <> w ->
  EnablePublicLink (Config (app ra)) = true /\
  exists info,
    GetFileInfo (app ra) (Params_FileId c) s = inr info /\
    PostId info <> "" /\
    getFileLink ra c w siteURL s =
      Returned
        {| Header := Header w; Status := Status w;
           Body := Body w ++
                   [Text (MapToJson ra
                            [("link", GeneratePublicLink ra siteURL info)])] |}
        c.
Proof.
  intros Hw.
  destruct (getFileLink_cases ra c w siteURL s)
    as [(info & _ & _ & Hen & Hi & _ & Hp & E)|(c' & E & _)];
    rewrite E in Hw |- *; [|done].
  split; [done|]. by exists info.
Qed.

Lemma getFileLink_only_for_posted_file_witness :
  EnablePublicLink (Config (app (demoReadApp demoSettings))) = true /\
  exists info,
    GetFileInfo (app (demoReadApp demoSettings))
      (Params_FileId (readContext "guest" file26)) [] = inr info /\
    PostId info <> "" /\
    getFileLink (demoReadApp demoSettings) (readContext "guest" file26)
      emptyWriter "http://localhost:8065" [] =
      Returned
        {| Header := Header emptyWriter; Status := Status emptyWriter;
           Body := Body emptyWriter ++
                   [Text (MapToJson (demoReadApp demoSettings)
                            [("link",
                              GeneratePublicLink (demoReadApp demoSettings)
                                "http://localhost:8065" info)])] |}
        (readContext "guest" file26).
Proof.
  apply (getFileLink_only_for_posted_file (demoReadApp demoSettings)
           (readContext "guest" file26) emptyWriter "http://localhost:8065" []).
  intros E. apply (f_equal Body) in E. vm_compute in E. discriminate E.
Defined.

(** X7. [getPublicFile] panics exactly when everything up to the hash check
    passed and the file store cannot open the data of the file (there is no
    return after that error, and the deferred Close is taken on a nil
    reader).  [getFile] answers the same failure of the store with its error
    under status 404 and writes nothing, and [getFile], [getFileThumbnail]
    and [getFilePreview] never panic. *)
Theorem getPublicFile_panics_on_lost_data {S} (ra : ReadApp S) c w r s :
  ((exists w' c', getPublicFile (app ra) c w r s = Panicked w' c') <->
   Err c = None /\ IsValidId (app ra) (Params_FileId c) = true /\
   EnablePublicLink (Config (app ra)) = true /\
   exists info err,
     GetFileInfo (app ra) (Params_FileId c) s = inr info /\
     QueryGet r "h" <> "" /\
     QueryGet r "h" =
       GeneratePublicLinkHash (app ra) (Id info)
         (PublicLinkSalt (Config (app ra))) /\
     FileReader (app ra) (Path info) s = inl err) /\
  (forall info err,
     Err c = None -> IsValidId (app ra) (Params_FileId c) = true ->
     GetFileInfo (app ra) (Params_FileId c) s = inr info ->
     mayNotRead ra c info = false ->
     FileReader (app ra) (Path info) s = inl err ->
     getFile ra c w r s =
       Returned w (setErr c (withStatusCode err StatusNotFound))) /\
  (forall o w' c',
     In o [getFile ra c w r s; getFileThumbnail ra c w r s;
           getFilePreview ra c w r s] -> o <> Panicked w' c').
Proof.
  split; [|split].
  - split.
    + intros (w' & c' & Hp).
      destruct (getPublicFile_cases (app ra) c w r s)
        as [(info & fr & _ & _ & _ & _ & E)|
            [(w'' & c'' & E & Hne)|
             (info & err & H1 & H2 & H3 & H4 & H5 & H6 & H7 & E)]];
        rewrite E in Hp; try done.
      split; [done|]. split; [done|]. split; [done|]. by exists info, err.
    + intros (H1 & H2 & H3 & info & err & H4 & H5 & H6 & H7).
      destruct (getPublicFile_cases (app ra) c w r s)
        as [(info' & fr & _ & _ & Hi & Hrd & E)|
            [(w'' & c'' & E & Hne)|
             (info' & err' & _ & _ & _ & _ & _ & _ & _ & E)]].
      * rewrite H4 in Hi. injection Hi as <-. congruence.
      * exfalso. revert E Hne. unfold getPublicFile.
        rewrite (getPublicFile_steps_found (app ra) c w r s info) by done.
        cbv zeta.
        rewrite decide_False by (by rewrite len_zero).
        cbn [fst].
        rewrite decide_False by (rewrite H6; intros Hc; apply Hc;
                                 by apply compare_bytes_eq).
        rewrite H7. done.
      * eauto.
  - intros info err H1 H2 H3 H4 H5. unfold getFile, RequireFileId.
    rewrite H1, H2, H1, H3, H4, H5. done.
  - intros o w' c' Ho. simpl in Ho. destruct Ho as [<-|[<-|[<-|[]]]].
    + destruct (getFile_cases ra c w r s)
        as [(info & fr & _ & _ & _ & _ & _ & E)|(c'' & E & _)];
        by rewrite E.
    + destruct (getFileThumbnail_cases ra c w r s)
        as [(info & fr & _ & _ & _ & _ & _ & _ & E)|(c'' & E & _)];
        by rewrite E.
    + destruct (getFilePreview_cases ra c w r s)
        as [(info & fr & _ & _ & _ & _ & _ & _ & E)|(c'' & E & _)];
        by rewrite E.
Qed.

(** ** Uploads need the permission *)

Lemma RequireChannelId_user {S} (a : App S) c :
  Session_UserId (RequireChannelId a c) = Session_UserId c.
Proof.
  unfold RequireChannelId. destruct (Err c); [done|].
  by destruct (IsValidId a (Params_ChannelId c)).
Qed.

Lemma RequireFilename_user c :
  Session_UserId (RequireFilename c) = Session_UserId c.
Proof.
  unfold RequireFilename. destruct (Err c); [done|]. by case_decide.
Qed.

Section locked.
Context {S : Type} (a : App S) (u : string).
Hypothesis locked : forall channelId,
  SessionHasPermissionToChannel a u channelId PERMISSION_UPLOAD_FILE = false.

Lemma file_go_part_locked timestamp p st c s :
  Session_UserId c = u ->
  match Api4.uploadFileMultipart_part a timestamp p st c s with
  | Api4.Continue _ c' s' => s' = s /\ Session_UserId c' = u
  | Api4.Return r => r.2 = s
  end.
Proof.
  intros Hu. unfold Api4.uploadFileMultipart_part.
  case_decide; [done|]. case_decide.
  - destruct (CopyN (Content p) maxValueBytes) as [v [| |err]]; try done;
      repeat case_decide; done.
  - pose proof (RequireChannelId_user a c) as Hr.
    destruct (Err (RequireChannelId a c)); [done|].
    rewrite Hr, Hu, locked. done.
Qed.

Lemma file_go_loop_locked timestamp ps final :
  forall st c s, Session_UserId c = u ->
  (Api4.uploadFileMultipart_loop a timestamp ps final st c s).2 = s.
Proof.
  induction ps as [|p ps IH]; intros st c s Hu; simpl.
  - destruct final; [done|]. unfold Api4.uploadFileMultipart_end.
    by destruct (_ && _).
  - pose proof (file_go_part_locked timestamp p st c s Hu) as Hp.
    destruct (Api4.uploadFileMultipart_part a timestamp p st c s)
      as [st1 c1 s1|r]; [|done].
    destruct Hp as [-> Hu1]. destruct (ReadErr (Content p)); [done|].
    by apply IH.
Qed.

Lemma part_locked timestamp mode p st c s :
  Session_UserId c = u ->
  match Part001.uploadFileMultipart_part a timestamp mode p st c s with
  | Part001.Continue _ c' s' => s' = s /\ Session_UserId c' = u
  | Part001.Return r => r.2 = s
  | Part001.Restream c' s' => s' = s /\ Session_UserId c' = u
  | Part001.Prebuffer c' s' => s' = s /\ Session_UserId c' = u
  end.
Proof.
  intros Hu. unfold Part001.uploadFileMultipart_part.
  case_decide; [done|]. case_decide.
  - destruct (CopyN (Content p) maxValueBytes) as [v [| |err]]; try done;
      repeat case_decide; try done;
      by destruct (Part001.expectClientIds st).
  - destruct (_ && _); [done|].
    pose proof (RequireChannelId_user a c) as Hr.
    destruct (Err (RequireChannelId a c)); [done|].
    rewrite Hr, Hu, locked. done.
Qed.

Lemma loop_locked timestamp mode restream prebuffer ps final :
  (forall c s, Session_UserId c = u -> (restream c s).2 = s) ->
  (forall c s, Session_UserId c = u -> (prebuffer c s).2 = s) ->
  forall st c s, Session_UserId c = u ->
  (Part001.uploadFileMultipart_loop a timestamp mode restream prebuffer ps
     final st c s).2 = s.
Proof.
  intros Hre Hpre.
  induction ps as [|p ps IH]; intros st c s Hu; simpl.
  - destruct final; [done|]. unfold Part001.uploadFileMultipart_end.
    by destruct (_ && _).
  - pose proof (part_locked timestamp mode p st c s Hu) as Hp.
    destruct (Part001.uploadFileMultipart_part a timestamp mode p st c s)
      as [st1 c1 s1|r|c1 s1|c1 s1]; [|done| |].
    + destruct Hp as [-> Hu1]. destruct (ReadErr (Content p)); [done|].
      by apply IH.
    + destruct Hp as [<- Hu1]. by apply Hre.
    + destruct Hp as [<- Hu1]. by apply Hpre.
Qed.

Lemma buffered_locked c mr timestamp s :
  Session_UserId c = u ->
  (Part001.uploadFileMultipartBuffered a c mr timestamp s).2 = s.
Proof.
  intros Hu. unfold Part001.uploadFileMultipartBuffered.
  destruct (ReadForm a mr (MaxFileSize (Config a))) as [err|form]; [done|].
  destruct (formValue form "channel_id") as [|channelId rest]; [done|].
  pose proof (RequireChannelId_user a (setChannelId c channelId)) as Hr.
  destruct (Err (RequireChannelId a (setChannelId c channelId))); [done|].
  rewrite Hr. cbn [setChannelId Session_UserId]. rewrite Hu, locked. done.
Qed.

Lemma multipart_locked c r timestamp mode s :
  Session_UserId c = u ->
  (Part001.uploadFileMultipart a c r timestamp mode s).2 = s.
Proof.
  intros Hu. unfold Part001.uploadFileMultipart.
  destruct (Req_Body r) as [mr|body|err]; [|done|done].
  assert (Hstream : forall c s, Session_UserId c = u ->
            (Part001.uploadFileMultipart_stream a c mr timestamp s).2 = s).
  { intros c0 s0 Hu0. unfold Part001.uploadFileMultipart_stream.
    by apply loop_locked. }
  destruct mode; [by apply Hstream|].
  apply loop_locked; [done| |done].
  intros c0 s0 Hu0. by apply buffered_locked.
Qed.

End locked.

(** X8. A session that has the upload_file permission on no channel stores
    nothing: whatever the request, [uploadFileStream] of both revisions and
    the legacy [uploadFile] leave the application state as it was. *)
Theorem upload_needs_permission {S} (a : App S) c w r timestamp s :
  (forall channelId,
     SessionHasPermissionToChannel a (Session_UserId c) channelId
       PERMISSION_UPLOAD_FILE = false) ->
  hs (Api4.uploadFileStream a c w r timestamp s) = s /\
  hs (Part001.uploadFileStream a c w r timestamp s) = s /\
  hs (uploadFile a c w r timestamp s) = s.
Proof.
  intros Hno. split; [|split].
  - unfold Api4.uploadFileStream.
    destruct (EnableFileAttachments (Config a)); [|done]. cbn [negb].
    destruct (ParseFormErr r); [done|].
    destruct (Req_Body r) as [mr|body|err]; [| |done].
    + pose proof (file_go_loop_locked a (Session_UserId c) Hno timestamp
                    (Parts mr) (Final mr)
                    {| Api4.clientIds := []; Api4.haveClientIds := false;
                       Api4.resp := emptyResponse |} c s eq_refl) as H.
      unfold Api4.uploadFileMultipart.
      destruct (Api4.uploadFileMultipart_loop _ _ _ _ _ _ _) as [[resp c1] s1].
      done.
    + pose proof (RequireChannelId_user a c) as H1.
      pose proof (RequireFilename_user (RequireChannelId a c)) as H2.
      destruct (Err (RequireFilename (RequireChannelId a c))); [done|].
      rewrite H2, H1, Hno. done.
  - unfold Part001.uploadFileStream.
    destruct (EnableFileAttachments (Config a)); [|done]. cbn [negb].
    destruct (ParseFormErr r); [done|].
    destruct (Req_Body r) as [mr|body|err] eqn:Hb; [| |done].
    + pose proof (multipart_locked a (Session_UserId c) Hno c r timestamp
                    Part001.bufferedMode s eq_refl) as H.
      destruct (Part001.uploadFileMultipart _ _ _ _ _ _) as [[resp c1] s1].
      done.
    + pose proof (RequireChannelId_user a c) as H1.
      pose proof (RequireFilename_user (RequireChannelId a c)) as H2.
      destruct (Err (RequireFilename (RequireChannelId a c))); [done|].
      rewrite H2, H1, Hno. done.
  - unfold uploadFile.
    destruct (EnableFileAttachments (Config a)); [|done]. cbn [negb].
    destruct (MaxFileSize (Config a) <? Req_ContentLength r); [done|].
    destruct (ParseMultipartForm a r (MaxFileSize (Config a))) as [err|m].
    + destruct (Req_Body r) as [mr|body|err']; try done.
      destruct (ParseFormErr r); [done|].
      pose proof (RequireChannelId_user a c) as H1.
      pose proof (RequireFilename_user (RequireChannelId a c)) as H2.
      destruct (Err (RequireFilename (RequireChannelId a c))); [done|].
      rewrite H2, H1, Hno. done.
    + destruct (formValue m "channel_id") as [|channelId rest]; [done|].
      pose proof (RequireChannelId_user a (setChannelId c channelId)) as H1.
      destruct (Err (RequireChannelId a (setChannelId c channelId)));
        [done|].
      rewrite H1. cbn [setChannelId Session_UserId]. rewrite Hno. done.
Qed.

Lemma upload_needs_permission_witness :
  hs (Part001.uploadFileStream (loggingApp false demoSettings) demoContext
        emptyWriter
        (multipartRequest 64
           [filePart "files" "a.txt" "aaa"; field "channel_id" channel26])
        0 []) = [] /\
  hs (uploadFile (loggingApp false demoSettings) demoContext emptyWriter
        (multipartRequest 64
           [filePart "files" "a.txt" "aaa"; field "channel_id" channel26])
        0 []) = [].
Proof.
  split.
  - apply (upload_needs_permission (loggingApp false demoSettings) demoContext
             emptyWriter
             (multipartRequest 64
                [filePart "files" "a.txt" "aaa"; field "channel_id" channel26])
             0 []).
    reflexivity.
  - apply (upload_needs_permission (loggingApp false demoSettings) demoContext
             emptyWriter
             (multipartRequest 64
                [filePart "files" "a.txt" "aaa"; field "channel_id" channel26])
             0 []).
    reflexivity.
Defined.

(** ** A multipart upload without a channel id *)

(** The loop of file.go over a plain body, with no channel id in the URL:
    the first file part ends the request. *)
Lemma file_go_prescan_plain {S} (a : App S) timestamp ps :
  forall rest final st c s,
  Forall (fun p => plainPart p = true) ps ->
  filePartsOf ps <> [] ->
  Err c = None -> Params_ChannelId c = "" -> IsValidId a "" = false ->
  Api4.uploadFileMultipart_loop a timestamp (ps ++ rest) final st c s =
  (None, SetInvalidUrlParam c "channel_id", s).
Proof.
  induction ps as [|p ps IH]; intros rest final st c s Hall Hfiles Herr Hc Hid;
    [done|].
  inversion Hall as [|? ? Hp Hps]; subst.
  destruct (plainPart_cases p Hp)
    as [Hr [Hn|[(Hv & Hnf & Hd & Hl)|(Hf & Hn & Hnv)]]]; simpl.
  - rewrite Api4Facts.file_go_part_nameless by done. rewrite Hr.
    apply IH; try done. simpl in Hfiles.
    by rewrite (nameless_not_file p Hn) in Hfiles.
  - apply isFormValue_inv in Hv as [Hv1 Hv2].
    unfold Api4.uploadFileMultipart_part. rewrite Hv1, Hv2.
    rewrite (decide_False (P := "client_ids" = "")) by done.
    rewrite (decide_True (P := "" = "")) by done.
    destruct (CopyN_whole (Content p) maxValueBytes) as [Hx Hne]; try done.
    destruct (CopyN (Content p) maxValueBytes) as [x e]. simpl in *.
    destruct e; [| |by destruct (Hne msg)]; rewrite Hr;
      (apply IH; [done | | done | done | done]);
      simpl in Hfiles; by rewrite Hnf in Hfiles.
  - apply isFilePart_inv in Hf as [Hf1 Hf2].
    unfold Api4.uploadFileMultipart_part.
    rewrite decide_False by done. rewrite decide_False by done.
    unfold RequireChannelId. rewrite Herr, Hc, Hid. done.
Qed.

(** X9. A plain multipart body has no channel_id field.  When it has a file
    part and the URL carries no channel id, the request fails and nothing is
    stored: [uploadFileStream] of file.go reports the URL parameter
    channel_id at the first file part; that of part_001 reads the entire
    form (if it fits the memory budget) and reports the body parameter
    channel_id. *)
Theorem multipart_upload_without_channel_id {S} (a : App S) c w r ps
    timestamp s :
  EnableFileAttachments (Config a) = true ->
  ParseFormErr r = None ->
  Req_Body r = Multipart {| Parts := ps; Final := None |} ->
  Err c = None -> Params_ChannelId c = "" -> IsValidId a "" = false ->
  Forall (fun p => plainPart p = true) ps ->
  valuesOf "channel_id" ps = [] /\
  (filePartsOf ps <> [] ->
   Api4.uploadFileStream a c w r timestamp s =
     {| hw := w; hc := SetInvalidUrlParam c "channel_id"; hs := s;
        bodyRead := true |} /\
   (FormTooLarge a (MaxFileSize (Config a)) ps = false ->
    Part001.uploadFileStream a c w r timestamp s =
      {| hw := w; hc := SetInvalidParam c "channel_id"; hs := s;
         bodyRead := true |})).
Proof.
  intros Hen Hparse Hbody Herr Hc Hid Hplain.
  destruct (plain_form ps Hplain) as (Hv0 & _ & _).
  split; [done|]. intros Hfiles. split.
  - unfold Api4.uploadFileStream, Api4.uploadFileMultipart.
    rewrite Hen, Hparse, Hbody. cbn [negb Parts Final].
    pose proof (file_go_prescan_plain a timestamp ps [] None
                  {| Api4.clientIds := []; Api4.haveClientIds := false;
                     Api4.resp := emptyResponse |} c s Hplain Hfiles Herr Hc
                  Hid) as H.
    rewrite app_nil_r in H. rewrite H. done.
  - intros Hfit.
    unfold Part001.uploadFileStream, Part001.uploadFileMultipart.
    rewrite Hen, Hparse, Hbody. cbn [negb Parts Final].
    pose proof (RefinementFacts.prescan_plain a timestamp
                  (fun c s => Part001.uploadFileMultipart_stream a c
                     {| Parts := ps; Final := None |} timestamp s)
                  (fun c s => Part001.uploadFileMultipartBuffered a c
                     {| Parts := ps; Final := None |} timestamp s)
                  ps [] None Part001.initialState c s Hplain Hfiles Hc
                  eq_refl) as H.
    rewrite app_nil_r in H. rewrite H. clear H.
    unfold Part001.uploadFileMultipartBuffered, ReadForm.
    cbn [Parts Final]. rewrite Hfit.
    destruct (readFormParts_spec ps {| Value := ∅; File := ∅ |})
      as (form & -> & Hform).
    { eapply Forall_impl; [exact Hplain|]. intros p Hp.
      by apply plainPart_cases in Hp as [Hp _]. }
    destruct (Hform "channel_id") as [Hchan _]; [done|].
    rewrite Hv0 in Hchan. unfold formValue at 2 in Hchan.
    cbn [Value] in Hchan. rewrite lookup_empty in Hchan. simpl in Hchan.
    rewrite Hchan. done.
Qed.

Lemma multipart_upload_without_channel_id_witness :
  Part001.uploadFileStream (demoApp demoSettings) demoContext emptyWriter
    (multipartRequest 64
       [field "client_ids" "c1"; filePart "files" "a.txt" "aaa"]) 0 [] =
  {| hw := emptyWriter; hc := SetInvalidParam demoContext "channel_id";
     hs := []; bodyRead := true |}.
Proof.
  apply (multipart_upload_without_channel_id (demoApp demoSettings)
           demoContext emptyWriter
           (multipartRequest 64
              [field "client_ids" "c1"; filePart "files" "a.txt" "aaa"])
           [field "client_ids" "c1"; filePart "files" "a.txt" "aaa"] 0 []);
    try reflexivity.
  - repeat constructor.
  - discriminate.
Defined.

(** ** The channel_id field in the buffered mode *)

Module RewindFacts.
Import Part001 Part001Facts.

(** An iteration that continues in the buffered mode does the same in the
    streaming mode. *)
Lemma part_buffered_continue {S} (a : App S) timestamp p st c s st1 c1 s1 :
  uploadFileMultipart_part a timestamp bufferedMode p st c s =
    Continue st1 c1 s1 ->
  uploadFileMultipart_part a timestamp streamMode p st c s =
    Continue st1 c1 s1.
Proof.
  unfold uploadFileMultipart_part.
  rewrite (bool_decide_eq_true_2 (bufferedMode = bufferedMode)) by done.
  rewrite (bool_decide_eq_false_2 (streamMode = bufferedMode)) by done.
  rewrite andb_true_r, andb_false_r.
  case_decide; [done|]. case_decide.
  - destruct (CopyN (Content p) maxValueBytes) as [v [| |err]]; try done;
      (case_decide; [by rewrite decide_True|done]).
  - by destruct (bool_decide (Params_ChannelId c = "")).
Qed.

Lemma steps_buffered_stream {S} (a : App S) timestamp pre :
  forall st c s x,
  uploadFileMultipart_steps a timestamp bufferedMode pre st c s = Some x ->
  uploadFileMultipart_steps a timestamp streamMode pre st c s = Some x.
Proof.
  induction pre as [|p pre IH]; intros st c s x H; simpl in *; [done|].
  destruct (uploadFileMultipart_part a timestamp bufferedMode p st c s)
    as [st1 c1 s1| | |] eqn:Hp; try done.
  rewrite (part_buffered_continue _ _ _ _ _ _ _ _ _ Hp).
  destruct (ReadErr (Content p)); [done|]. by apply IH.
Qed.

(** The iteration on a part that is neither a file nor a channel_id field
    does not depend on the mode, and neither on the context nor on the
    application state but for handing them on. *)
Lemma part_plain_value {S} (a : App S) timestamp mode p st c s :
  isFilePart p = false -> isFormValue "channel_id" p = false ->
  uploadFileMultipart_part a timestamp mode p st c s =
    uploadFileMultipart_part a timestamp streamMode p st c s /\
  forall st1 c1 s1,
    uploadFileMultipart_part a timestamp mode p st c s = Continue st1 c1 s1 ->
    c1 = c /\ s1 = s /\
    forall mode' c' s',
      uploadFileMultipart_part a timestamp mode' p st c' s' =
        Continue st1 c' s'.
Proof.
  intros Hnf Hnc. unfold uploadFileMultipart_part.
  case_decide as Hn; [split; [done|]; by intros ? ? ? [= <- <- <-]|].
  case_decide as Hf.
  - assert (Hch : FormName p <> "channel_id").
    { intros E. unfold isFormValue in Hnc.
      rewrite !bool_decide_eq_true_2 in Hnc by done. done. }
    destruct (CopyN (Content p) maxValueBytes) as [v [| |err]];
      rewrite ?(decide_False (P := FormName p = "channel_id")) by done;
      (split; [done|]); try done;
      case_decide; try done;
      destruct (expectClientIds st); try done;
      simpl; intros ? ? ? [= <- <- <-]; (split; [done|]); (split; [done|]);
      intros; by rewrite decide_False.
  - exfalso. unfold isFilePart in Hnf.
    rewrite !bool_decide_eq_false_2 in Hnf by done. done.
Qed.

(** The same over a stretch of the body without file parts and channel_id
    fields. *)
Lemma steps_plain_values {S} (a : App S) timestamp mode pre :
  forall st c s st1 c1 s1,
  Forall (fun p => isFilePart p = false /\ isFormValue "channel_id" p = false)
    pre ->
  uploadFileMultipart_steps a timestamp mode pre st c s = Some (st1, c1, s1) ->
  c1 = c /\ s1 = s /\
  forall mode' c' s',
    uploadFileMultipart_steps a timestamp mode' pre st c' s' =
      Some (st1, c', s').
Proof.
  induction pre as [|p pre IH]; intros st c s st1 c1 s1 Hall H; simpl in *.
  - by injection H as <- <- <-.
  - apply Forall_cons in Hall as [[Hnf Hnc] Hall].
    destruct (uploadFileMultipart_part a timestamp mode p st c s)
      as [st2 c2 s2| | |] eqn:Hp; try done.
    destruct (part_plain_value a timestamp mode p st c s Hnf Hnc)
      as [_ Hcont].
    destruct (Hcont st2 c2 s2 Hp) as (-> & -> & Hany).
    destruct (ReadErr (Content p)) eqn:Hr; [done|].
    destruct (IH _ _ _ _ _ _ Hall H) as (-> & -> & Hrest).
    split; [done|]. split; [done|]. intros mode' c' s'.
    rewrite Hany. apply Hrest.
Qed.

(** Over such a stretch the buffered loop follows the streaming loop; when
    the streaming loop returns within it, the two return the same. *)
Lemma loop_plain_values {S} (a : App S) timestamp restream prebuffer pre :
  forall rest final st c s,
  Forall (fun p => isFilePart p = false /\ isFormValue "channel_id" p = false)
    pre ->
  uploadFileMultipart_steps a timestamp streamMode pre st c s = None ->
  uploadFileMultipart_loop a timestamp bufferedMode restream prebuffer
    (pre ++ rest) final st c s =
  uploadFileMultipart_loop a timestamp streamMode notInStreamMode
    notInStreamMode (pre ++ rest) final st c s.
Proof.
  induction pre as [|p pre IH]; intros rest final st c s Hall H; simpl in *;
    [done|].
  apply Forall_cons in Hall as [[Hnf Hnc] Hall].
  destruct (part_plain_value a timestamp bufferedMode p st c s Hnf Hnc)
    as [-> _].
  destruct (stream_part_flow a timestamp p st c s) as [Hre Hpre].
  destruct (uploadFileMultipart_part a timestamp streamMode p st c s)
    as [st2 c2 s2|r|c2 s2|c2 s2] eqn:Hp; try done.
  - destruct (ReadErr (Content p)); [done|]. by apply IH.
  - by destruct (Hre c2 s2).
  - by destruct (Hpre c2 s2).
Qed.

End RewindFacts.

(** X10. In the buffered mode of part_001, a channel_id field that follows
    a stretch of the body which the loop has passed restarts the request:
    the entire body is processed again in the streaming mode, from the
    application state that the stretch left and with the channel id of the
    field (when it is not empty); the response collected so far, one
    FileInfo for each file part of the stretch, is dropped. *)
Theorem channel_id_field_restarts_streaming {S} (a : App S) c r timestamp s
    pre v post final st1 c1 s1 :
  Req_Body r =
    Multipart {| Parts := pre ++ field "channel_id" v :: post;
                 Final := final |} ->
  len v <= maxValueBytes ->
  Part001.uploadFileMultipart_steps a timestamp Part001.bufferedMode pre
    Part001.initialState c s = Some (st1, c1, s1) ->
  length (FileInfos (Part001.resp st1)) = length (filePartsOf pre) /\
  Part001.uploadFileMultipart a c r timestamp Part001.bufferedMode s =
  Part001.uploadFileMultipart a
    (if decide (v = "") then c1 else setChannelId c1 v) r timestamp
    Part001.streamMode s1.
Proof.
  intros Hr Hv Hsteps. split.
  - apply RewindFacts.steps_buffered_stream in Hsteps.
    pose proof (StreamResponse.steps_parallel _ _ _ _ _ _ _ _ _ Hsteps) as Hpar.
    destruct Hpar as [Hlen _]; [by split|].
    apply Part001Facts.steps_stream_initial in Hsteps as (Hn & _ & _).
    by rewrite Hlen.
  - unfold Part001.uploadFileMultipart. rewrite Hr. cbn [Parts Final].
    rewrite (Part001Facts.loop_steps _ _ _ _ _ _ _ _ _ _ _ _ _ _ Hsteps).
    cbn [Part001.uploadFileMultipart_loop].
    rewrite part_channel_id by done. cbv zeta.
    by rewrite (decide_True (P := Part001.bufferedMode = Part001.bufferedMode)).
Qed.

Lemma channel_id_field_restarts_streaming_witness :
  length (FileInfos
            {| FileInfos := [storedInfo (uploadOf "" "a.txt" "aaa") 0];
               ClientIds := [] |}) =
    length (filePartsOf [filePart "files" "a.txt" "aaa"]) /\
  Part001.uploadFileMultipart (demoApp demoSettings)
    (setChannelId demoContext channel26)
    (multipartRequest 64
       ([filePart "files" "a.txt" "aaa"]
        ++ field "channel_id" channel26 :: [filePart "files" "b.txt" "bbb"]))
    0 Part001.bufferedMode [] =
  Part001.uploadFileMultipart (demoApp demoSettings)
    (if decide (channel26 = "")
     then setChannelId demoContext channel26
     else setChannelId (setChannelId demoContext channel26) channel26)
    (multipartRequest 64
       ([filePart "files" "a.txt" "aaa"]
        ++ field "channel_id" channel26 :: [filePart "files" "b.txt" "bbb"]))
    0 Part001.streamMode [uploadOf "" "a.txt" "aaa"].
Proof.
  apply (channel_id_field_restarts_streaming (demoApp demoSettings)
           (setChannelId demoContext channel26)
           (multipartRequest 64
              ([filePart "files" "a.txt" "aaa"]
               ++ field "channel_id" channel26
                  :: [filePart "files" "b.txt" "bbb"]))
           0 [] [filePart "files" "a.txt" "aaa"] channel26
           [filePart "files" "b.txt" "bbb"] None
           {| Part001.expectClientIds := false;
              Part001.clientIds := [];
              Part001.resp :=
                {| FileInfos := [storedInfo (uploadOf "" "a.txt" "aaa") 0];
                   ClientIds := [] |};
              Part001.nFiles := 1 |}
           (setChannelId demoContext channel26)
           [uploadOf "" "a.txt" "aaa"]).
  - reflexivity.
  - vm_compute. discriminate.
  - reflexivity.
Defined.

(** X11. When neither a file part nor another channel_id field precedes a
    channel_id field of the body, the buffered mode of [uploadFileMultipart]
    (part_001) returns exactly what the streaming mode returns on the same
    request. *)
Theorem buffered_mode_streams_after_leading_channel_id {S} (a : App S) c r
    timestamp s pre v post final :
  Req_Body r =
    Multipart {| Parts := pre ++ field "channel_id" v :: post;
                 Final := final |} ->
  len v <= maxValueBytes ->
  Forall (fun p => isFilePart p = false /\ isFormValue "channel_id" p = false)
    pre ->
  Part001.uploadFileMultipart a c r timestamp Part001.bufferedMode s =
  Part001.uploadFileMultipart a c r timestamp Part001.streamMode s.
Proof.
  intros Hr Hv Hpre.
  unfold Part001.uploadFileMultipart, Part001.uploadFileMultipart_stream.
  rewrite Hr. cbn [Parts Final].
  destruct (Part001.uploadFileMultipart_steps a timestamp Part001.streamMode
              pre Part001.initialState c s) as [[[st1 c1] s1]|] eqn:Hsteps.
  - destruct (RewindFacts.steps_plain_values a timestamp Part001.streamMode
                pre _ _ _ _ _ _ Hpre Hsteps) as (-> & -> & Hany).
    rewrite (Part001Facts.loop_steps _ _ _ _ _ _ _ _ _ _ _ _ _ _
               (Hany Part001.bufferedMode c s)).
    rewrite (Part001Facts.loop_steps _ _ _ _ _ _ _ _ _ _ _ _ _ _
               (Hany Part001.streamMode c s)).
    cbn [Part001.uploadFileMultipart_loop].
    rewrite !part_channel_id by done. cbv zeta.
    rewrite (decide_True (P := Part001.bufferedMode = Part001.bufferedMode))
      by done.
    rewrite (decide_False (P := Part001.streamMode = Part001.bufferedMode))
      by done.
    cbn [field Content ReadErr].
    rewrite (Part001Facts.loop_steps _ _ _ _ _ _ _ _ _ _ _ _ _ _
               (Hany Part001.streamMode
                  (if decide (v = "") then c else setChannelId c v) s)).
    cbn [Part001.uploadFileMultipart_loop].
    rewrite part_channel_id by done. cbv zeta.
    rewrite (decide_False (P := Part001.streamMode = Part001.bufferedMode))
      by done.
    cbn [field Content ReadErr].
    by destruct (decide (v = "")).
  - by apply RewindFacts.loop_plain_values.
Qed.

Lemma buffered_mode_streams_after_leading_channel_id_witness :
  Part001.uploadFileMultipart (demoApp demoSettings) demoContext
    (multipartRequest 64
       ([field "client_ids" "c1"]
        ++ field "channel_id" channel26 :: [filePart "files" "a.txt" "aaa"]))
    0 Part001.bufferedMode [] =
  Part001.uploadFileMultipart (demoApp demoSettings) demoContext
    (multipartRequest 64
       ([field "client_ids" "c1"]
        ++ field "channel_id" channel26 :: [filePart "files" "a.txt" "aaa"]))
    0 Part001.streamMode [].
Proof.
  apply (buffered_mode_streams_after_leading_channel_id (demoApp demoSettings)
           demoContext
           (multipartRequest 64
              ([field "client_ids" "c1"]
               ++ field "channel_id" channel26
                  :: [filePart "files" "a.txt" "aaa"]))
           0 [] [field "client_ids" "c1"] channel26
           [filePart "files" "a.txt" "aaa"] None).
  - reflexivity.
  - vm_compute. discriminate.
  - repeat constructor.
Defined.

(** ** The response of file.go when the client ids come first *)

Module QueueFacts.
Import Api4 Api4Facts.

(** The body of the loop on a file part, once client ids have been seen:
    the first id waiting is not empty and goes into the response with the
    file. *)
Lemma part_file_response {S} (a : App S) timestamp p st c s st1 c1 s1 :
  isFilePart p = true -> haveClientIds st = true ->
  uploadFileMultipart_part a timestamp p st c s = Continue st1 c1 s1 ->
  exists first rest info,
    clientIds st = first :: rest /\ first <> "" /\
    st1 = {| clientIds := rest; haveClientIds := true;
             resp := appendClientId (appendFileInfo (resp st) info) first |}.
Proof.
  intros H Hh. apply isFilePart_inv in H as [Hn Hf].
  unfold uploadFileMultipart_part.
  rewrite decide_False by done. rewrite decide_False by done.
  destruct (Err (RequireChannelId a c)); [done|].
  destruct (negb _); [done|]. rewrite Hh.
  destruct (clientIds st) as [|first rest] eqn:Hq; [done|]. cbn [andb].
  destruct (bool_decide (first = "")) eqn:Hb; [done|].
  apply bool_decide_eq_false in Hb.
  destruct (UploadFile a _ s) as [[appErr|info] s2]; [done|].
  intros [= <- <- <-]. by exists first, rest, info.
Qed.

Lemma steps_response {S} (a : App S) timestamp pre :
  forall st c s st1 c1 s1,
  uploadFileMultipart_steps a timestamp pre st c s = Some (st1, c1, s1) ->
  haveClientIds st = true ->
  haveClientIds st1 = true /\
  ClientIds (resp st1) ++ clientIds st1 =
    ClientIds (resp st) ++ clientIds st ++ clientIdsOf pre /\
  length (FileInfos (resp st1)) =
    (length (FileInfos (resp st)) + length (filePartsOf pre))%nat /\
  length (ClientIds (resp st1)) =
    (length (ClientIds (resp st)) + length (filePartsOf pre))%nat /\
  (Forall (fun x => x <> "") (ClientIds (resp st)) ->
   Forall (fun x => x <> "") (ClientIds (resp st1))).
Proof.
  induction pre as [|p pre IH]; intros st c s st1 c1 s1 H Hh; simpl in H.
  - injection H as <- <- <-. simpl. rewrite app_nil_r.
    repeat split; try done; lia.
  - destruct (uploadFileMultipart_part a timestamp p st c s)
      as [st2 c2 s2|] eqn:Hp; try done.
    destruct (ReadErr (Content p)); [done|].
    cbn [filePartsOf clientIdsOf].
    destruct (part_cases p) as [Hnl|[(name & Hne & Hv & Hnf)|(Hf & _ & _ & Hnv)]].
    + rewrite file_go_part_nameless in Hp by done. injection Hp as <- <- <-.
      rewrite (nameless_not_file p Hnl).
      rewrite (nameless_not_value "client_ids" p) by done.
      by apply (IH _ _ _ _ _ _ H).
    + destruct (part_value a timestamp p name st c s st2 c2 s2 Hne Hv Hp)
        as (-> & Hr2 & Hh2 & Hq2).
      rewrite Hnf.
      apply IH in H as (H1 & H2 & H3 & H4 & H5); [|by rewrite Hh2, Hh].
      rewrite Hr2 in *. rewrite Hq2 in H2.
      split; [done|]. split; [|done].
      rewrite H2. destruct (isFormValue "client_ids" p); simpl;
        by rewrite <- ?app_assoc.
    + destruct (part_file_response a timestamp p st c s st2 c2 s2 Hf Hh Hp)
        as (first & rest & info & Hq & Hfirst & ->).
      rewrite Hf, Hnv.
      apply IH in H as (H1 & H2 & H3 & H4 & H5); [|done].
      cbn [resp clientIds appendClientId appendFileInfo FileInfos ClientIds]
        in *.
      rewrite length_app in H3, H4. simpl in H3, H4.
      split; [done|]. split; [|split; [|split]].
      * rewrite H2, Hq. by rewrite <- !app_assoc.
      * simpl. lia.
      * simpl. lia.
      * intros Hall. apply H5. apply Forall_app. split; [done|].
        by constructor.
Qed.

Lemma steps_response_initial {S} (a : App S) timestamp pre :
  forall st c s st1 c1 s1,
  uploadFileMultipart_steps a timestamp pre st c s = Some (st1, c1, s1) ->
  haveClientIds st = false -> clientIds st = [] ->
  clientIdBeforeFile pre = true ->
  haveClientIds st1 = true /\
  ClientIds (resp st1) ++ clientIds st1 =
    ClientIds (resp st) ++ clientIdsOf pre /\
  length (FileInfos (resp st1)) =
    (length (FileInfos (resp st)) + length (filePartsOf pre))%nat /\
  length (ClientIds (resp st1)) =
    (length (ClientIds (resp st)) + length (filePartsOf pre))%nat /\
  (Forall (fun x => x <> "") (ClientIds (resp st)) ->
   Forall (fun x => x <> "") (ClientIds (resp st1))).
Proof.
  induction pre as [|p pre IH]; intros st c s st1 c1 s1 H Hh Hq Hb;
    simpl in H; [done|].
  destruct (uploadFileMultipart_part a timestamp p st c s)
    as [st2 c2 s2|] eqn:Hp; try done.
  destruct (ReadErr (Content p)); [done|].
  cbn [filePartsOf clientIdsOf clientIdBeforeFile] in *.
  destruct (part_cases p) as [Hnl|[(name & Hne & Hv & Hnf)|(Hf & _ & _ & Hnv)]].
  - rewrite file_go_part_nameless in Hp by done. injection Hp as <- <- <-.
    rewrite (nameless_not_file p Hnl) in *.
    rewrite (nameless_not_value "client_ids" p) in * by done.
    by apply (IH _ _ _ _ _ _ H).
  - destruct (part_value a timestamp p name st c s st2 c2 s2 Hne Hv Hp)
      as (-> & Hr2 & Hh2 & Hq2).
    rewrite Hnf in *.
    destruct (isFormValue "client_ids" p) eqn:Hc.
    + apply steps_response in H as (H1 & H2 & H3 & H4 & H5);
        [|by rewrite Hh2, orb_true_r].
      rewrite Hr2 in *. rewrite Hq2, Hq in H2. done.
    + rewrite <- Hr2. apply (IH _ _ _ _ _ _ H); [by rewrite Hh2, Hh | | done].
      by rewrite Hq2, Hq.
  - by rewrite Hf in Hb.
Qed.

(** An iteration that returns by itself returns no response. *)
Lemma file_go_part_return_none {S} (a : App S) timestamp p st c s r :
  uploadFileMultipart_part a timestamp p st c s = Return r -> r.1.1 = None.
Proof.
  unfold uploadFileMultipart_part.
  repeat (case_decide || case_match); simplify_eq; try done;
    intros [= <-]; done.
Qed.

(** A loop that succeeds went through every part and passed the check
    after the loop. *)
Lemma file_go_loop_success_steps {S} (a : App S) timestamp ps :
  forall final st c s resp' c' s',
  uploadFileMultipart_loop a timestamp ps final st c s = (Some resp', c', s') ->
  exists st1,
    uploadFileMultipart_steps a timestamp ps st c s = Some (st1, c', s') /\
    uploadFileMultipart_end st1 c' s' = (Some resp', c', s').
Proof.
  induction ps as [|p ps IH]; intros final st c s resp' c' s' H; simpl in *.
  - destruct final; [done|]. exists st.
    unfold uploadFileMultipart_end in *.
    destruct (haveClientIds st && _); [done|].
    injection H as <- <- <-. done.
  - destruct (uploadFileMultipart_part a timestamp p st c s)
      as [st2 c2 s2|r] eqn:Hp.
    + destruct (ReadErr (Content p)); [done|]. by eapply IH.
    + apply file_go_part_return_none in Hp. by subst r.
Qed.

End QueueFacts.

(** X12. In file.go, when a client_ids field stands before the first file
    part, every request that [uploadFileMultipart] accepts returns one
    FileInfo for each file part, and its ClientIds are the values of the
    client_ids fields of the body in their order, none of them empty and as
    many as the FileInfos. *)
Theorem file_go_client_ids_parallel {S} (a : App S) c mr timestamp s resp
    c' s' :
  clientIdBeforeFile (Parts mr) = true ->
  Api4.uploadFileMultipart a c mr timestamp s = (Some resp, c', s') ->
  length (FileInfos resp) = length (filePartsOf (Parts mr)) /\
  ClientIds resp = clientIdsOf (Parts mr) /\
  length (ClientIds resp) = length (FileInfos resp) /\
  Forall (fun x => x <> "") (ClientIds resp).
Proof.
  intros Hb Hrun. unfold Api4.uploadFileMultipart in Hrun.
  apply QueueFacts.file_go_loop_success_steps in Hrun as (st1 & Hsteps & Hend).
  apply QueueFacts.steps_response_initial in Hsteps
    as (Hh & Hids & Hfi & Hci & Hne); try done.
  simpl in Hids, Hfi, Hci.
  unfold Api4.uploadFileMultipart_end in Hend. rewrite Hh in Hend.
  destruct (length (Api4.clientIds st1) =? 0)%nat eqn:El; simpl in Hend;
    [|done].
  injection Hend as <-. apply Nat.eqb_eq in El.
  destruct (Api4.clientIds st1); [|done]. rewrite app_nil_r in Hids.
  split; [done|]. split; [done|]. split; [lia|]. apply Hne. constructor.
Qed.

Lemma file_go_client_ids_parallel_witness :
  ClientIds
    {| FileInfos := [storedInfo (uploadOf "c1" "a.txt" "aaa") 0;
                     storedInfo (uploadOf "c2" "b.txt" "bbb") 1];
       ClientIds := ["c1"; "c2"] |} =
  clientIdsOf [field "channel_id" channel26; field "client_ids" "c1";
               filePart "files" "a.txt" "aaa"; field "client_ids" "c2";
               filePart "files" "b.txt" "bbb"].
Proof.
  apply (file_go_client_ids_parallel (demoApp demoSettings) demoContext
           {| Parts := [field "channel_id" channel26; field "client_ids" "c1";
                        filePart "files" "a.txt" "aaa";
                        field "client_ids" "c2";
                        filePart "files" "b.txt" "bbb"];
              Final := None |} 0 [] _ (setChannelId demoContext channel26)
           [uploadOf "c1" "a.txt" "aaa"; uploadOf "c2" "b.txt" "bbb"]);
    reflexivity.
Defined.

(** ** The response of the buffered ingestor *)

(** [ReadForm] succeeds only on a body whose parts all read to their end. *)
Lemma readFormParts_readable (ps : list Part) :
  forall form form',
  readFormParts ps form = inr form' ->
  Forall (fun p => ReadErr (Content p) = None) ps.
Proof.
  induction ps as [|p ps IH]; intros form form' H; simpl in H; [done|].
  destruct (ReadErr (Content p)) eqn:Hr; [done|].
  constructor; [done|]. repeat case_decide; by eapply IH.
Qed.

(** The loop of [uploadFileMultipartBuffered]: one FileInfo for each file,
    and the client ids of the files that are not empty. *)
Lemma buffered_loop_response {S} (a : App S) timestamp ids fileHeaders :
  forall i resp c s resp' c' s',
  Part001.uploadFileMultipartBuffered_loop a timestamp ids fileHeaders i resp
    c s = (Some resp', c', s') ->
  ids = [] \/ length ids = (i + length fileHeaders)%nat ->
  length (FileInfos resp') =
    (length (FileInfos resp) + length fileHeaders)%nat /\
  ClientIds resp' =
    ClientIds resp ++ filter (fun x => x <> "") (drop i ids).
Proof.
  induction fileHeaders as [|fh rest IH];
    intros i resp c s resp' c' s' H Hlen; simpl in H.
  - injection H as <- <- <-. split; [simpl; lia|].
    destruct Hlen as [->|Hlen].
    + by rewrite drop_nil, app_nil_r.
    + simpl in Hlen. rewrite drop_ge by lia. by rewrite app_nil_r.
  - destruct (Open fh) as [err|f]; [done|].
    destruct (UploadFile a _ s) as [[appErr|info] s2]; [done|].
    destruct Hlen as [->|Hlen].
    + simpl in H. apply IH in H as [H1 H2]; [|by left].
      cbn [appendFileInfo FileInfos ClientIds] in *.
      rewrite length_app in H1. simpl in *. split; [lia|].
      by rewrite H2, !drop_nil.
    + simpl in Hlen.
      destruct (lookup_lt_is_Some_2 ids i) as [x Hx]; [lia|].
      replace (0 <? length ids)%nat with true in H
        by (symmetry; apply Nat.ltb_lt; lia).
      rewrite Hx in H. simpl in H.
      rewrite (drop_S _ _ _ Hx), filter_cons.
      destruct (decide (x = "")) as [->|Hne];
        (apply IH in H as [H1 H2]; [|right; lia]);
        cbn [appendFileInfo appendClientId FileInfos ClientIds] in *;
        rewrite length_app in H1; simpl in H1; (split; [simpl; lia|]).
      * rewrite decide_False by (intros Hc; by apply Hc). done.
      * rewrite decide_True by done. by rewrite H2, <- app_assoc.
Qed.

(** X13. A request that [uploadFileMultipartBuffered] accepts returns one
    FileInfo for each file part under the form name files (file parts under
    other names are dropped) and, as ClientIds, the non-empty values of the
    client_ids fields in their order; the client_ids fields are none or as
    many as those file parts. *)
Theorem buffered_response {S} (a : App S) c mr timestamp s resp c' s' :
  Part001.uploadFileMultipartBuffered a c mr timestamp s =
    (Some resp, c', s') ->
  length (FileInfos resp) = length (filesOf "files" (Parts mr)) /\
  ClientIds resp =
    filter (fun x => x <> "") (valuesOf "client_ids" (Parts mr)) /\
  (valuesOf "client_ids" (Parts mr) = [] \/
   length (valuesOf "client_ids" (Parts mr)) =
     length (filesOf "files" (Parts mr))).
Proof.
  unfold Part001.uploadFileMultipartBuffered, ReadForm.
  destruct (FormTooLarge a _ _); [done|].
  destruct (readFormParts (Parts mr) {| Value := ∅; File := ∅ |})
    as [err|form] eqn:Hread; [done|].
  destruct (Final mr); [done|].
  pose proof (readFormParts_readable _ _ _ Hread) as Hall.
  destruct (readFormParts_spec (Parts mr) {| Value := ∅; File := ∅ |} Hall)
    as (form' & Hread' & Hform).
  rewrite Hread in Hread'. injection Hread' as <-.
  destruct (Hform "client_ids") as [Hcids _]; [done|].
  destruct (Hform "files") as [_ Hfls]; [done|].
  unfold formValue at 2 in Hcids. unfold formFile at 2 in Hfls.
  cbn [Value File] in Hcids, Hfls.
  rewrite lookup_empty in Hcids. rewrite lookup_empty in Hfls.
  simpl in Hcids, Hfls. rewrite Hcids, Hfls.
  destruct (formValue form "channel_id") as [|channelId rest]; [done|].
  destruct (Err (RequireChannelId a (setChannelId c channelId))); [done|].
  destruct (negb (SessionHasPermissionToChannel _ _ _ _)); [done|].
  destruct (negb (length (valuesOf "client_ids" (Parts mr)) =? 0)%nat
            && negb (length (valuesOf "client_ids" (Parts mr)) =?
                     length (filesOf "files" (Parts mr)))%nat) eqn:Hn; [done|].
  assert (Hlen : valuesOf "client_ids" (Parts mr) = [] \/
                 length (valuesOf "client_ids" (Parts mr)) =
                   length (filesOf "files" (Parts mr))).
  { apply andb_false_iff in Hn as [Hn|Hn]; apply negb_false_iff, Nat.eqb_eq in Hn.
    - left. by destruct (valuesOf "client_ids" (Parts mr)).
    - by right. }
  intros Hrun. apply buffered_loop_response in Hrun as [H1 H2]; [|done].
  simpl in H1, H2. done.
Qed.

Lemma buffered_response_witness :
  ClientIds
    {| FileInfos := [storedInfo (uploadOf "" "a.txt" "aaa") 0;
                     storedInfo (uploadOf "c2" "b.txt" "bbb") 1];
       ClientIds := ["c2"] |} =
  filter (fun x => x <> "")
    (valuesOf "client_ids"
       [field "channel_id" channel26; field "client_ids" "";
        field "client_ids" "c2"; filePart "files" "a.txt" "aaa";
        filePart "other" "skipped.txt" "zzz";
        filePart "files" "b.txt" "bbb"]).
Proof.
  apply (buffered_response (demoApp demoSettings) demoContext
           {| Parts := [field "channel_id" channel26; field "client_ids" "";
                        field "client_ids" "c2";
                        filePart "files" "a.txt" "aaa";
                        filePart "other" "skipped.txt" "zzz";
                        filePart "files" "b.txt" "bbb"];
              Final := None |} 0 [] _ (setChannelId demoContext channel26)
           [uploadOf "" "a.txt" "aaa"; uploadOf "c2" "b.txt" "bbb"]).
  reflexivity.
Defined.

(** ** The legacy handler *)

(** X14. The legacy [uploadFile] on a multipart body that reads to its end
    and fits the limits: when the first channel_id value is a valid id of a
    channel the session may upload to, the handler hands to
    [UploadMultipartFiles] that channel, the files under the form name files
    and all the client_ids values, in the order of the body and uncut; it
    answers 201 with the response of that call, or sets its error. *)
Theorem legacy_upload_hands_over_the_form {S} (a : App S) c w r ps now s
    channelId rest :
  EnableFileAttachments (Config a) = true ->
  Req_ContentLength r <= MaxFileSize (Config a) ->
  ParseFormErr r = None ->
  Req_Body r = Multipart {| Parts := ps; Final := None |} ->
  FormTooLarge a (MaxFileSize (Config a)) ps = false ->
  Forall (fun p => ReadErr (Content p) = None) ps ->
  valuesOf "channel_id" ps = channelId :: rest ->
  Err c = None -> IsValidId a channelId = true ->
  SessionHasPermissionToChannel a (Session_UserId c) channelId
    PERMISSION_UPLOAD_FILE = true ->
  uploadFile a c w r now s =
  match UploadMultipartFiles a FILE_TEAM_ID channelId (Session_UserId c)
          (filesOf "files" ps) (valuesOf "client_ids" ps) now s with
  | (inl appErr, s') =>
      {| hw := w; hc := setErr (setChannelId c channelId) appErr; hs := s';
         bodyRead := true |}
  | (inr resp, s') =>
      {| hw := writeCreated (Some resp) w; hc := setChannelId c channelId;
         hs := s'; bodyRead := true |}
  end.
Proof.
  intros Hen Hlen Hparse Hbody Hfit Hall Hchan Herr Hid Hperm.
  unfold uploadFile, ParseMultipartForm, ReadForm.
  rewrite Hen, Hparse, Hbody. cbn [negb Parts Final].
  replace (MaxFileSize (Config a) <? Req_ContentLength r) with false
    by (symmetry; apply Z.ltb_ge; lia).
  rewrite Hfit.
  destruct (readFormParts_spec ps {| Value := ∅; File := ∅ |} Hall)
    as (form & -> & Hform).
  destruct (Hform "channel_id") as [Hv _]; [done|].
  destruct (Hform "client_ids") as [Hcids _]; [done|].
  destruct (Hform "files") as [_ Hfls]; [done|].
  unfold formValue at 2 in Hv. unfold formValue at 2 in Hcids.
  unfold formFile at 2 in Hfls.
  cbn [Value File] in Hv, Hcids, Hfls.
  rewrite lookup_empty in Hv. rewrite lookup_empty in Hcids.
  rewrite lookup_empty in Hfls.
  simpl in Hv, Hcids, Hfls. rewrite Hv, Hcids, Hfls, Hchan.
  unfold RequireChannelId. cbn [setChannelId Err Params_ChannelId].
  rewrite Herr, Hid. cbn [Err Session_UserId setChannelId]. rewrite ?Herr, Hperm.
  cbn [negb].
  by destruct (UploadMultipartFiles a _ _ _ _ _ _ _) as [[appErr|resp] s2].
Qed.

Lemma legacy_upload_hands_over_the_form_witness :
  uploadFile (loggingApp true demoSettings) demoContext emptyWriter
    (multipartRequest 64
       [field "channel_id" channel26; field "channel_id" "junk";
        filePart "other" "skipped.txt" "zzz";
        filePart "files" "a.txt" "aaa"]) 0 [] =
  match UploadMultipartFiles (loggingApp true demoSettings) FILE_TEAM_ID
          channel26 (Session_UserId demoContext)
          (filesOf "files"
             [field "channel_id" channel26; field "channel_id" "junk";
              filePart "other" "skipped.txt" "zzz";
              filePart "files" "a.txt" "aaa"])
          (valuesOf "client_ids"
             [field "channel_id" channel26; field "channel_id" "junk";
              filePart "other" "skipped.txt" "zzz";
              filePart "files" "a.txt" "aaa"]) 0 [] with
  | (inl appErr, s') =>
      {| hw := emptyWriter;
         hc := setErr (setChannelId demoContext channel26) appErr; hs := s';
         bodyRead := true |}
  | (inr resp, s') =>
      {| hw := writeCreated (Some resp) emptyWriter;
         hc := setChannelId demoContext channel26;
         hs := s'; bodyRead := true |}
  end.
Proof.
  apply (legacy_upload_hands_over_the_form (loggingApp true demoSettings)
           demoContext emptyWriter
           (multipartRequest 64
              [field "channel_id" channel26; field "channel_id" "junk";
               filePart "other" "skipped.txt" "zzz";
               filePart "files" "a.txt" "aaa"])
           [field "channel_id" channel26; field "channel_id" "junk";
            filePart "other" "skipped.txt" "zzz";
            filePart "files" "a.txt" "aaa"] 0 [] channel26 ["junk"]);
    try reflexivity.
  - vm_compute. discriminate.
  - repeat constructor.
Defined.

(** ** The simple POST *)

(** X15. A simple POST (attachments enabled, a body that is not multipart)
    is handled alike by [uploadFileStream] of file.go and of part_001: the
    same response, the same context, the same application state and the
    same reading of the body. *)
Theorem simple_post_same_in_both_revisions {S} (a : App S) c w r body
    timestamp s :
  EnableFileAttachments (Config a) = true ->
  ParseFormErr r = None ->
  Req_Body r = NotMultipart body ->
  Api4.uploadFileStream a c w r timestamp s =
    Part001.uploadFileStream a c w r timestamp s.
Proof.
  intros Hen Hparse Hbody.
  unfold Api4.uploadFileStream, Part001.uploadFileStream.
  rewrite Hen, Hparse, Hbody. cbn [negb]. cbv zeta.
  destruct (Err (RequireFilename (RequireChannelId a c))) eqn:Herr;
    cbn [hc Err]; rewrite ?Herr; [done|].
  destruct (negb _); [done|].
  destruct (UploadFile a _ s) as [[appErr|info] s2]; [done|].
  by rewrite ?Herr.
Qed.

Lemma simple_post_same_in_both_revisions_witness :
  Api4.uploadFileStream (demoApp demoSettings)
    {| Params_ChannelId := channel26; Params_Filename := "a.txt";
       Params_FileId := ""; Session_UserId := "user"; Err := None |}
    emptyWriter (rawRequest 5 "hello") 0 [] =
  Part001.uploadFileStream (demoApp demoSettings)
    {| Params_ChannelId := channel26; Params_Filename := "a.txt";
       Params_FileId := ""; Session_UserId := "user"; Err := None |}
    emptyWriter (rawRequest 5 "hello") 0 [].
Proof.
  apply (simple_post_same_in_both_revisions (demoApp demoSettings)
           {| Params_ChannelId := channel26; Params_Filename := "a.txt";
              Params_FileId := ""; Session_UserId := "user"; Err := None |}
           emptyWriter (rawRequest 5 "hello")
           {| Data := "hello"; ReadErr := None |} 0 []);
    reflexivity.
Defined.

(** ** What the upload handlers write *)

Module ResponseFacts.

(** An iteration of either loop that returns by itself has set [c.Err]. *)
Lemma file_go_part_return_error {S} (a : App S) timestamp p st c s r :
  Api4.uploadFileMultipart_part a timestamp p st c s = Api4.Return r ->
  r.1.1 = None /\ Err r.1.2 <> None.
Proof.
  unfold Api4.uploadFileMultipart_part.
  repeat (case_decide || case_match); simplify_eq; try done;
    intros [= <-]; simpl; split; congruence.
Qed.

Lemma part_return_error {S} (a : App S) timestamp mode p st c s r :
  Part001.uploadFileMultipart_part a timestamp mode p st c s =
    Part001.Return r ->
  r.1.1 = None /\ Err r.1.2 <> None.
Proof.
  unfold Part001.uploadFileMultipart_part.
  repeat (case_decide || case_match); simplify_eq; try done;
    intros [= <-]; simpl; split; congruence.
Qed.

Lemma file_go_loop_none {S} (a : App S) timestamp ps final :
  forall st c s c' s',
  Api4.uploadFileMultipart_loop a timestamp ps final st c s = (None, c', s') ->
  Err c' <> None.
Proof.
  induction ps as [|p ps IH]; intros st c s c' s' H; simpl in H.
  - destruct final; [by injection H as <- <-|].
    unfold Api4.uploadFileMultipart_end in H.
    destruct (_ && _); [by injection H as <- <-|done].
  - destruct (Api4.uploadFileMultipart_part a timestamp p st c s)
      as [st1 c1 s1|r] eqn:Hp.
    + destruct (ReadErr (Content p)); [by injection H as <- <-|].
      by eapply IH.
    + apply file_go_part_return_error in Hp as [_ Hp]. by subst r.
Qed.

Lemma buffered_loop_none {S} (a : App S) timestamp ids fileHeaders :
  forall i resp c s c' s',
  Part001.uploadFileMultipartBuffered_loop a timestamp ids fileHeaders i resp
    c s = (None, c', s') ->
  Err c' <> None.
Proof.
  induction fileHeaders as [|fh rest IH]; intros i resp c s c' s' H;
    simpl in H; [done|].
  destruct (Open fh); [by injection H as <- <-|].
  destruct (UploadFile a _ s) as [[appErr|info] s2];
    [by injection H as <- <-|].
  by eapply IH.
Qed.

Lemma buffered_none {S} (a : App S) c mr timestamp s c' s' :
  Part001.uploadFileMultipartBuffered a c mr timestamp s = (None, c', s') ->
  Err c' <> None.
Proof.
  unfold Part001.uploadFileMultipartBuffered.
  destruct (ReadForm a mr _); [by intros [= <- <-]|].
  destruct (formValue _ "channel_id"); [by intros [= <- <-]|].
  destruct (Err (RequireChannelId a _)) eqn:E;
    [intros [= <- <-]; congruence|].
  destruct (negb _); [by intros [= <- <-]|].
  destruct (_ && _); [by intros [= <- <-]|].
  apply buffered_loop_none.
Qed.

Lemma loop_none {S} (a : App S) timestamp mode restream prebuffer ps final :
  (mode = Part001.bufferedMode ->
   forall c s c' s', restream c s = (None, c', s') -> Err c' <> None) ->
  (mode = Part001.bufferedMode ->
   forall c s c' s', prebuffer c s = (None, c', s') -> Err c' <> None) ->
  forall st c s c' s',
  Part001.uploadFileMultipart_loop a timestamp mode restream prebuffer ps
    final st c s = (None, c', s') ->
  Err c' <> None.
Proof.
  intros Hre Hpre.
  induction ps as [|p ps IH]; intros st c s c' s' H; simpl in H.
  - destruct final; [by injection H as <- <-|].
    unfold Part001.uploadFileMultipart_end in H.
    destruct (_ && _); [by injection H as <- <-|done].
  - destruct (Part001.uploadFileMultipart_part a timestamp mode p st c s)
      as [st1 c1 s1|r|c1 s1|c1 s1] eqn:Hp.
    + destruct (ReadErr (Content p)); [by injection H as <- <-|].
      by eapply IH.
    + apply part_return_error in Hp as [_ Hp]. by subst r.
    + destruct mode.
      * by destruct (proj1 (Part001Facts.stream_part_flow a timestamp p st c s)
                       c1 s1).
      * by eapply Hre.
    + destruct mode.
      * by destruct (proj2 (Part001Facts.stream_part_flow a timestamp p st c s)
                       c1 s1).
      * by eapply Hpre.
Qed.

Lemma multipart_none {S} (a : App S) c r timestamp mode s c' s' :
  Part001.uploadFileMultipart a c r timestamp mode s = (None, c', s') ->
  Err c' <> None.
Proof.
  unfold Part001.uploadFileMultipart.
  destruct (Req_Body r) as [mr|body|err];
    [|by intros [= <- <-]|by intros [= <- <-]].
  assert (Hstream : forall c s c' s',
            Part001.uploadFileMultipart_stream a c mr timestamp s =
              (None, c', s') -> Err c' <> None).
  { intros c0 s0 c0' s0'. unfold Part001.uploadFileMultipart_stream.
    apply loop_none; done. }
  destruct mode; [apply Hstream|].
  apply loop_none; intros _ c0 s0 c0' s0'; [apply Hstream|apply buffered_none].
Qed.

End ResponseFacts.

(** X16. [uploadFileStream] of part_001 ends in one of two ways: [c.Err]
    is set and nothing was written, or [c.Err] is nil and the handler wrote
    status 201 with a response that is not null.  In file.go there is a
    third way: the text of an [http.Error], with the context and the
    application state untouched. *)
Theorem upload_answers_created_or_nothing {S} (a : App S) c w r timestamp s :
  (let h := Part001.uploadFileStream a c w r timestamp s in
   hw h = w /\ Err (hc h) <> None \/
   exists resp, hw h = writeCreated (Some resp) w /\ Err (hc h) = None) /\
  (let h := Api4.uploadFileStream a c w r timestamp s in
   hw h = w /\ Err (hc h) <> None \/
   (exists resp, hw h = writeCreated (Some resp) w /\ Err (hc h) = None) \/
   exists err code, hw h = httpError err code w /\ hc h = c /\ hs h = s).
Proof.
  split.
  - unfold Part001.uploadFileStream.
    destruct (negb _); [left; done|].
    destruct (ParseFormErr r); [left; done|].
    destruct (Req_Body r) as [mr|body|err] eqn:Hb; [| |left; done].
    + destruct (Part001.uploadFileMultipart a c r timestamp
                  Part001.bufferedMode s) as [[resp c1] s1] eqn:Hrun.
      cbn [hw hc]. destruct (Err c1) eqn:Herr; [left; done|].
      destruct resp as [resp|]; [right; eauto|].
      apply ResponseFacts.multipart_none in Hrun. done.
    + cbv zeta.
      destruct (Err (RequireFilename (RequireChannelId a c))) eqn:Herr;
        cbn [hw hc]; rewrite ?Herr; [left; done|].
      destruct (negb _); [left; done|].
      destruct (UploadFile a _ s) as [[appErr|info] s2]; [left; done|].
      cbn [hw hc]. rewrite Herr. right. eauto.
  - unfold Api4.uploadFileStream.
    destruct (negb _); [left; done|].
    destruct (ParseFormErr r); [right; right; eauto|].
    destruct (Req_Body r) as [mr|body|err] eqn:Hb; [| |right; right; eauto].
    + destruct (Api4.uploadFileMultipart a c mr timestamp s)
        as [[resp c1] s1] eqn:Hrun.
      cbn [hw hc]. destruct (Err c1) eqn:Herr; [left; done|].
      destruct resp as [resp|]; [right; left; eauto|].
      apply ResponseFacts.file_go_loop_none in Hrun. done.
    + cbv zeta.
      destruct (Err (RequireFilename (RequireChannelId a c))) eqn:Herr;
        cbn [hw hc]; rewrite ?Herr; [left; done|].
      destruct (negb _); [left; done|].
      destruct (UploadFile a _ s) as [[appErr|info] s2]; [left; done|].
      cbn [hw hc]. rewrite Herr. right. left. eauto.
Qed.

(** ** The two revisions on a body without client ids *)

(** The loops of the two revisions over a body without client_ids fields
    return the same response and leave the same application state; the
    contexts may differ in the error that is reported. *)
Lemma loops_agree_without_client_ids {S} (a : App S) timestamp ps final :
  forall st4 st1 c s,
  noClientIds st4 st1 -> clientIdsOf ps = [] ->
  let x := Api4.uploadFileMultipart_loop a timestamp ps final st4 c s in
  let y := Part001.uploadFileMultipart_loop a timestamp Part001.streamMode
             Part001.notInStreamMode Part001.notInStreamMode ps final st1 c s in
  x.1.1 = y.1.1 /\ x.2 = y.2 /\ (x.1.1 <> None -> x.1.2 = y.1.2).
Proof.
  induction ps as [|p ps IH]; intros st4 st1 c s Hinv Hids; cbv zeta.
  - destruct Hinv as (Hh & Hq & Hq1 & Hresp & Hexp). simpl.
    destruct final; [done|].
    unfold Api4.uploadFileMultipart_end, Part001.uploadFileMultipart_end.
    rewrite Hh, Hq1. simpl.
    destruct (Part001.expectClientIds st1) eqn:He; simpl.
    + rewrite (Hexp eq_refl). simpl. by rewrite Hresp.
    + by rewrite Hresp.
  - cbn [clientIdsOf] in Hids.
    destruct (isFormValue "client_ids" p) eqn:Hnc; [done|].
    cbn [Api4.uploadFileMultipart_loop Part001.uploadFileMultipart_loop].
    destruct (part_cases p)
      as [Hnl|[(name & Hne & Hv & Hnf)|(Hf & _ & _ & Hnv)]].
    + rewrite Api4Facts.file_go_part_nameless, Part001Facts.part_nameless
        by done.
      destruct (ReadErr (Content p)); [done|]. by apply IH.
    + apply isFormValue_inv in Hv as [Hn Hfn].
      assert (Hcid : FormName p <> "client_ids").
      { intros E. unfold isFormValue in Hnc.
        rewrite !bool_decide_eq_true_2 in Hnc by done. done. }
      unfold Api4.uploadFileMultipart_part, Part001.uploadFileMultipart_part.
      rewrite Hfn.
      rewrite !(decide_False (P := FormName p = "")) by congruence.
      rewrite !(decide_True (P := "" = "")) by done.
      destruct (CopyN (Content p) maxValueBytes) as [v e].
      destruct (decide (FormName p = "channel_id")) as [Hch|Hch].
      * rewrite (decide_False (P := Part001.streamMode = Part001.bufferedMode))
          by done.
        destruct e; try done;
          (destruct (ReadErr (Content p)); [done|]; by apply IH).
      * rewrite !(decide_False (P := FormName p = "client_ids")) by done.
        by destruct e.
    + destruct Hinv as (Hh & Hq & Hq1 & Hresp & Hexp).
      apply isFilePart_inv in Hf as [Hn Hfn].
      unfold Api4.uploadFileMultipart_part, Part001.uploadFileMultipart_part.
      rewrite !(decide_False (P := FormName p = "")) by done.
      rewrite !(decide_False (P := FileName p = "")) by done.
      rewrite (bool_decide_eq_false_2
                 (Part001.streamMode = Part001.bufferedMode)) by done.
      rewrite andb_false_r.
      destruct (Err (RequireChannelId a c)); [done|].
      destruct (negb _); [done|].
      rewrite Hh, Hq, Hq1. cbn [andb length Nat.eqb].
      assert (Hexp' : (if (Part001.nFiles st1 =? 0)%nat && true then false
                       else Part001.expectClientIds st1) = false).
      { destruct (Part001.nFiles st1 =? 0)%nat eqn:E0; [done|]. simpl.
        destruct (Part001.expectClientIds st1); [|done].
        rewrite (Hexp eq_refl) in E0. done. }
      rewrite Hexp'. cbn [andb].
      destruct (UploadFile a _ s) as [[appErr|info] s2]; [done|].
      destruct (ReadErr (Content p)); [done|].
      apply IH; [|done]. unfold noClientIds. simpl. rewrite Hresp. done.
Qed.

(** X17. On a body without client_ids fields the multipart ingestor of
    file.go and the streaming mode of the one of part_001 return the same
    response and leave the same application state; when they succeed they
    leave the same context too. *)
Theorem revisions_agree_without_client_ids {S} (a : App S) c r mr timestamp s :
  Req_Body r = Multipart mr ->
  clientIdsOf (Parts mr) = [] ->
  let x := Api4.uploadFileMultipart a c mr timestamp s in
  let y := Part001.uploadFileMultipart a c r timestamp Part001.streamMode s in
  x.1.1 = y.1.1 /\ x.2 = y.2 /\ (x.1.1 <> None -> x.1.2 = y.1.2).
Proof.
  intros Hr Hids.
  unfold Api4.uploadFileMultipart, Part001.uploadFileMultipart,
    Part001.uploadFileMultipart_stream.
  rewrite Hr. apply loops_agree_without_client_ids; [|done].
  unfold noClientIds. simpl. done.
Qed.

Lemma revisions_agree_without_client_ids_witness :
  (Api4.uploadFileMultipart (demoApp demoSettings) demoContext
     {| Parts := [field "channel_id" channel26;
                  filePart "files" "a.txt" "aaa";
                  filePart "files" "b.txt" (xs 200)];
        Final := None |} 0 []).2 =
  (Part001.uploadFileMultipart (demoApp demoSettings) demoContext
     (multipartRequest 64
        [field "channel_id" channel26; filePart "files" "a.txt" "aaa";
         filePart "files" "b.txt" (xs 200)])
     0 Part001.streamMode []).2.
Proof.
  apply (revisions_agree_without_client_ids (demoApp demoSettings)
           demoContext
           (multipartRequest 64
              [field "channel_id" channel26; filePart "files" "a.txt" "aaa";
               filePart "files" "b.txt" (xs 200)])
           {| Parts := [field "channel_id" channel26;
                        filePart "files" "a.txt" "aaa";
                        filePart "files" "b.txt" (xs 200)];
              Final := None |} 0 []);
    reflexivity.
Defined.

(** ** The content type of a file response, by handler *)

(** C8 (as amended). The Content-Type header of every file that [getFile]
    or [getPublicFile] sends follows the MIME type stored in the FileInfo of
    the file: application/octet-stream for an empty stored type, text/plain
    for a stored type that matches (has as a prefix) one of the unsafe
    types, and the stored type otherwise.  [getFileThumbnail] and
    [getFilePreview] send image/jpeg whatever the stored type is. *)
Theorem file_response_content_type {S} (ra : ReadApp S) c w r s o info :
  In o [getFile ra c w r s; getPublicFile (app ra) c w r s] ->
  outcomeErr o = None ->
  GetFileInfo (app ra) (Params_FileId c) s = inr info ->
  let emitted := Header (outcomeWriter o) !! "Content-Type" in
  (exists fileReader,
     FileReader (app ra) (Path info) s = inr fileReader /\
     Body (outcomeWriter o) = Body w ++ [FileBytes fileReader]) /\
  (MimeType info = "" -> emitted = Some "application/octet-stream") /\
  (MimeType info <> "" ->
   (exists u, In u UNSAFE_CONTENT_TYPES /\ HasPrefix (MimeType info) u = true) ->
   emitted = Some "text/plain") /\
  (MimeType info <> "" ->
   (forall u, In u UNSAFE_CONTENT_TYPES -> HasPrefix (MimeType info) u = false) ->
   emitted = Some (MimeType info)) /\
  (forall o',
     In o' [getFileThumbnail ra c w r s; getFilePreview ra c w r s] ->
     outcomeErr o' = None ->
     Header (outcomeWriter o') !! "Content-Type" = Some "image/jpeg").
Proof.
  intros Ho Herr Hinfo emitted.
  assert (Hsent : exists fileReader forceDownload,
            FileReader (app ra) (Path info) s = inr fileReader /\
            outcomeWriter o =
              (writeFileResponse (app ra) (Name info) (MimeType info)
                 (Size info) fileReader forceDownload w).1).
  { simpl in Ho. destruct Ho as [<-|[<-|[]]].
    - destruct (getFile_cases ra c w r s)
        as [(info' & fr & _ & _ & Hi & _ & Hrd & E)|(c' & E & Hne)];
        rewrite E in Herr |- *; [|done].
      rewrite Hinfo in Hi. injection Hi as <-. by eexists _, _.
    - destruct (getPublicFile_cases (app ra) c w r s)
        as [(info' & fr & _ & _ & Hi & Hrd & E)|
            [(w' & c' & E & Hne)|(info' & err & _ & _ & _ & _ & _ & _ & _ & E)]];
        rewrite E in Herr |- *; try done.
      rewrite Hinfo in Hi. injection Hi as <-. by eexists _, _. }
  destruct Hsent as (fr & fd & Hrd & Hw).
  subst emitted. rewrite Hw.
  split; [exists fr; split; [done|apply writeFileResponse_body]|].
  destruct (writeFileResponse_content_type (app ra) (Name info)
              (MimeType info) (Size info) fr fd w) as (H1 & H2 & H3).
  split; [done|]. split; [done|]. split; [done|].
  intros o' Ho' Herr'. simpl in Ho'. destruct Ho' as [<-|[<-|[]]].
  - destruct (getFileThumbnail_cases ra c w r s)
      as [(info' & fr' & _ & _ & _ & _ & _ & _ & E)|(c' & E & Hne)];
      rewrite E in Herr' |- *; [|done].
    cbn [outcomeWriter]. by rewrite header_content_type.
  - destruct (getFilePreview_cases ra c w r s)
      as [(info' & fr' & _ & _ & _ & _ & _ & _ & E)|(c' & E & Hne)];
      rewrite E in Herr' |- *; [|done].
    cbn [outcomeWriter]. by rewrite header_content_type.
Qed.

Lemma file_response_content_type_witness :
  Header (outcomeWriter
            (getFile (demoReadApp demoSettings) (readContext "user" picture26)
               emptyWriter (downloadRequest "") [])) !! "Content-Type" =
    Some "text/plain" /\
  Header (outcomeWriter
            (getPublicFile (app (demoReadApp demoSettings))
               (publicContext file26) emptyWriter
               (publicRequest ("salt" +:+ file26)) [])) !! "Content-Type" =
    Some "image/png".
Proof.
  split.
  - apply (file_response_content_type (demoReadApp demoSettings)
             (readContext "user" picture26) emptyWriter (downloadRequest "") []
             _ pictureInfo); try reflexivity.
    + simpl. tauto.
    + discriminate.
    + exists "text/html". split; [simpl; tauto | reflexivity].
  - apply (file_response_content_type (demoReadApp demoSettings)
             (publicContext file26) emptyWriter
             (publicRequest ("salt" +:+ file26)) []
             _ knownInfo); try reflexivity.
    + simpl. tauto.
    + discriminate.
    + intros u Hu. simpl in Hu.
      repeat (destruct Hu as [<-|Hu]; [reflexivity|]). destruct Hu.
Defined.

(** C8, the claim as stated fails: a thumbnail is a file response, the type
    stored for the file is text/html, for which the claim gives text/plain,
    and the response is sent as image/jpeg. *)
Lemma thumbnail_content_type_not_from_stored_type :
  let o := getFileThumbnail (demoReadApp demoSettings)
             (readContext "user" picture26) emptyWriter (downloadRequest "")
             [] in
  GetFileInfo (app (demoReadApp demoSettings)) picture26 [] = inr pictureInfo /\
  MimeType pictureInfo = "text/html" /\
  outcomeErr o = None /\
  Body (outcomeWriter o) = [FileBytes {| Data := "data"; ReadErr := None |}] /\
  Header (outcomeWriter o) !! "Content-Type" = Some "image/jpeg" /\
  Header (outcomeWriter o) !! "Content-Type" <> Some "text/plain" /\
  Header (outcomeWriter o) !! "Content-Type" <> Some (MimeType pictureInfo).
Proof. repeat split; vm_compute; (reflexivity || discriminate). Qed.

(** ** Form values: the cap of the streaming loops *)

(** An iteration on a form value of 10240 bytes or more does what it does
    on the value cut at 10240 bytes. *)
Lemma part_truncated {S} (a : App S) timestamp p :
  FileName p = "" -> maxValueBytes <= len (Data (Content p)) ->
  (forall st c s,
     Api4.uploadFileMultipart_part a timestamp p st c s =
     Api4.uploadFileMultipart_part a timestamp (truncated p) st c s) /\
  (forall mode st c s,
     Part001.uploadFileMultipart_part a timestamp mode p st c s =
     Part001.uploadFileMultipart_part a timestamp mode (truncated p) st c s).
Proof.
  intros Hfile Hlong.
  split; intros; unfold Api4.uploadFileMultipart_part,
    Part001.uploadFileMultipart_part; cbn [FormName FileName truncated];
    rewrite (CopyN_truncated p Hlong); rewrite Hfile;
    repeat case_decide; done.
Qed.

(** The loops over two bodies that differ in one part, on which the
    iteration and the next [NextPart] do the same. *)
Lemma file_go_loop_congr {S} (a : App S) timestamp p p' pre :
  (forall st c s,
     Api4.uploadFileMultipart_part a timestamp p st c s =
     Api4.uploadFileMultipart_part a timestamp p' st c s) ->
  ReadErr (Content p) = ReadErr (Content p') ->
  forall post final st c s,
  Api4.uploadFileMultipart_loop a timestamp (pre ++ p :: post) final st c s =
  Api4.uploadFileMultipart_loop a timestamp (pre ++ p' :: post) final st c s.
Proof.
  intros Hpart Hread.
  induction pre as [|q pre IH]; intros post final st c s; simpl.
  - by rewrite Hpart, Hread.
  - destruct (Api4.uploadFileMultipart_part a timestamp q st c s); [|done].
    destruct (ReadErr (Content q)); [done|]. apply IH.
Qed.

Lemma stream_loop_congr {S} (a : App S) timestamp mode restream prebuffer
    p p' pre :
  (forall st c s,
     Part001.uploadFileMultipart_part a timestamp mode p st c s =
     Part001.uploadFileMultipart_part a timestamp mode p' st c s) ->
  ReadErr (Content p) = ReadErr (Content p') ->
  forall post final st c s,
  Part001.uploadFileMultipart_loop a timestamp mode restream prebuffer
    (pre ++ p :: post) final st c s =
  Part001.uploadFileMultipart_loop a timestamp mode restream prebuffer
    (pre ++ p' :: post) final st c s.
Proof.
  intros Hpart Hread.
  induction pre as [|q pre IH]; intros post final st c s; simpl.
  - by rewrite Hpart, Hread.
  - destruct (Part001.uploadFileMultipart_part a timestamp mode q st c s);
      try done.
    destruct (ReadErr (Content q)); [done|]. apply IH.
Qed.

(** A form value whose content breaks off ends the request with
    BadRequest: in the iteration when [io.CopyN] meets the error, at the
    next [NextPart] otherwise. *)
Lemma file_go_value_breaks {S} (a : App S) timestamp p e rest final st c s :
  FormName p <> "" -> FileName p = "" -> ReadErr (Content p) = Some e ->
  exists c',
    Api4.uploadFileMultipart_loop a timestamp (p :: rest) final st c s =
      (None, c', s) /\
    (StatusCode <$> Err c') = Some StatusBadRequest.
Proof.
  intros Hn Hf He. cbn [Api4.uploadFileMultipart_loop].
  unfold Api4.uploadFileMultipart_part.
  rewrite (decide_False (P := FormName p = "")) by done.
  rewrite (decide_True (P := FileName p = "")) by done.
  destruct (CopyN (Content p) maxValueBytes) as [v [| |err]];
    repeat case_decide; rewrite ?He; eexists; split; reflexivity.
Qed.

Lemma stream_value_breaks {S} (a : App S) timestamp restream prebuffer p e
    rest final st c s :
  FormName p <> "" -> FileName p = "" -> ReadErr (Content p) = Some e ->
  exists c',
    Part001.uploadFileMultipart_loop a timestamp Part001.streamMode restream
      prebuffer (p :: rest) final st c s = (None, c', s) /\
    (StatusCode <$> Err c') = Some StatusBadRequest.
Proof.
  intros Hn Hf He. cbn [Part001.uploadFileMultipart_loop].
  unfold Part001.uploadFileMultipart_part.
  rewrite (decide_False (P := FormName p = "")) by done.
  rewrite (decide_True (P := FileName p = "")) by done.
  destruct (CopyN (Content p) maxValueBytes) as [v [| |err]];
    repeat case_decide; try done;
    try destruct (Part001.expectClientIds st);
    rewrite ?He; eexists; split; reflexivity.
Qed.

(** What [ReadForm] keeps of a value is the whole value. *)
Lemma valuesOf_In name p ps :
  In p ps -> isFormValue name p = true ->
  In (Data (Content p)) (valuesOf name ps).
Proof.
  intros Hin Hv. induction ps as [|q ps IH]; simpl in *; [done|].
  destruct Hin as [->|Hin].
  - rewrite Hv. by left.
  - destruct (isFormValue name q); [right|]; by apply IH.
Qed.

(** The client ids of a response of [uploadFileMultipartBuffered] are the
    client_ids values of the body that are not empty, whole. *)
Lemma buffered_client_ids_whole {S} (a : App S) c mr timestamp s resp c' s' p :
  Part001.uploadFileMultipartBuffered a c mr timestamp s =
    (Some resp, c', s') ->
  In p (Parts mr) -> isFormValue "client_ids" p = true ->
  Data (Content p) <> "" ->
  In (Data (Content p)) (ClientIds resp).
Proof.
  unfold Part001.uploadFileMultipartBuffered, ReadForm.
  destruct (FormTooLarge a _ _); [done|].
  destruct (readFormParts (Parts mr) {| Value := ∅; File := ∅ |})
    as [err|form] eqn:Hread; [done|].
  destruct (Final mr); [done|].
  pose proof (readFormParts_readable _ _ _ Hread) as Hall.
  destruct (readFormParts_spec (Parts mr) {| Value := ∅; File := ∅ |} Hall)
    as (form' & Hread' & Hform).
  rewrite Hread in Hread'. injection Hread' as <-.
  destruct (Hform "client_ids") as [Hcids _]; [done|].
  unfold formValue at 2 in Hcids. cbn [Value] in Hcids.
  rewrite lookup_empty in Hcids. simpl in Hcids. rewrite Hcids.
  destruct (formValue form "channel_id") as [|channelId rest]; [done|].
  destruct (Err (RequireChannelId a (setChannelId c channelId))); [done|].
  destruct (negb (SessionHasPermissionToChannel _ _ _ _)); [done|].
  destruct (negb (length (valuesOf "client_ids" (Parts mr)) =? 0)%nat
            && negb (length (valuesOf "client_ids" (Parts mr)) =?
                     length (formFile form "files"))%nat) eqn:Hn; [done|].
  intros Hrun Hin Hv Hne.
  apply buffered_loop_response in Hrun as [_ H2].
  - simpl in H2. rewrite H2.
    apply list_elem_of_In, list_elem_of_filter.
    split; [done|]. apply list_elem_of_In. by apply valuesOf_In.
  - apply andb_false_iff in Hn as [Hn|Hn];
      apply negb_false_iff, Nat.eqb_eq in Hn.
    + left. by destruct (valuesOf "client_ids" (Parts mr)).
    + by right.
Qed.

(** C7 (as amended). In the streaming loops of the multipart ingestor
    ([uploadFileMultipart] of file.go, and of part_001 in its streaming
    mode) a form value is read through [io.CopyN] with a cap of 10 KiB: the
    value used never has more than 10240 bytes, and a longer value that
    reads to its end does not fail the request, which is handled as the
    request with the value cut at 10240 bytes.  A form value whose content
    breaks off with a read error fails the request with BadRequest wherever
    it breaks off: while it is copied when that is before 10240 bytes, at
    the next part otherwise.  The buffered fallback of part_001
    ([uploadFileMultipartBuffered], through [ReadForm]) does not cut form
    values: a client id that is not empty is returned whole. *)
Theorem form_value_capped_by_truncation {S} (a : App S) (timestamp : Z)
    (p : Part) :
  FormName p <> "" -> FileName p = "" ->
  len (CopyN (Content p) maxValueBytes).1 <= maxValueBytes /\
  (maxValueBytes <= len (Data (Content p)) -> ReadErr (Content p) = None ->
   forall pre post final c s,
     Api4.uploadFileMultipart a c
       {| Parts := pre ++ p :: post; Final := final |} timestamp s =
     Api4.uploadFileMultipart a c
       {| Parts := pre ++ truncated p :: post; Final := final |} timestamp s /\
     Part001.uploadFileMultipart_stream a c
       {| Parts := pre ++ p :: post; Final := final |} timestamp s =
     Part001.uploadFileMultipart_stream a c
       {| Parts := pre ++ truncated p :: post; Final := final |} timestamp s) /\
  (forall e pre post final c s,
     ReadErr (Content p) = Some e ->
     (forall st1 c1 s1,
        Api4.uploadFileMultipart_steps a timestamp pre
          {| Api4.clientIds := []; Api4.haveClientIds := false;
             Api4.resp := emptyResponse |} c s = Some (st1, c1, s1) ->
        exists c',
          Api4.uploadFileMultipart a c
            {| Parts := pre ++ p :: post; Final := final |} timestamp s =
            (None, c', s1) /\
          (StatusCode <$> Err c') = Some StatusBadRequest) /\
     (forall st1 c1 s1,
        Part001.uploadFileMultipart_steps a timestamp Part001.streamMode pre
          Part001.initialState c s = Some (st1, c1, s1) ->
        exists c',
          Part001.uploadFileMultipart_stream a c
            {| Parts := pre ++ p :: post; Final := final |} timestamp s =
            (None, c', s1) /\
          (StatusCode <$> Err c') = Some StatusBadRequest)) /\
  (forall c mr s resp c' s',
     FormName p = "client_ids" -> Data (Content p) <> "" ->
     In p (Parts mr) ->
     Part001.uploadFileMultipartBuffered a c mr timestamp s =
       (Some resp, c', s') ->
     In (Data (Content p)) (ClientIds resp)).
Proof.
  intros Hname Hfile. split; [apply CopyN_capped; done|]. split; [|split].
  - intros Hlong Hread pre post final c s.
    destruct (part_truncated a timestamp p Hfile Hlong) as [H4 H1].
    split.
    + unfold Api4.uploadFileMultipart. cbn [Parts Final].
      by apply file_go_loop_congr.
    + unfold Part001.uploadFileMultipart_stream. cbn [Parts Final].
      by apply stream_loop_congr.
  - intros e pre post final c s He. split.
    + intros st1 c1 s1 Hsteps. unfold Api4.uploadFileMultipart.
      cbn [Parts Final].
      rewrite (Api4Facts.file_go_loop_steps _ _ _ _ _ _ _ _ _ _ _ Hsteps).
      by eapply file_go_value_breaks.
    + intros st1 c1 s1 Hsteps. unfold Part001.uploadFileMultipart_stream.
      cbn [Parts Final].
      rewrite (Part001Facts.loop_steps _ _ _ _ _ _ _ _ _ _ _ _ _ _ Hsteps).
      by eapply stream_value_breaks.
  - intros c mr s resp c' s' Hn Hne Hin Hrun.
    eapply buffered_client_ids_whole; try done.
    unfold isFormValue. by rewrite !bool_decide_eq_true_2.
Qed.

Lemma form_value_capped_by_truncation_witness :
  let big := field "client_ids" (xs (Z.to_nat (maxValueBytes + 1))) in
  let broken := brokenField "client_ids" (xs (Z.to_nat (maxValueBytes + 1)))
                  "unexpected EOF" in
  len (CopyN (Content big) maxValueBytes).1 <= maxValueBytes /\
  Api4.uploadFileMultipart (demoApp roomySettings) demoContext
    {| Parts := [field "channel_id" channel26] ++ big
                :: [filePart "files" "a.txt" "hello"];
       Final := None |} 0 [] =
  Api4.uploadFileMultipart (demoApp roomySettings) demoContext
    {| Parts := [field "channel_id" channel26] ++ truncated big
                :: [filePart "files" "a.txt" "hello"];
       Final := None |} 0 [] /\
  (exists c',
     Part001.uploadFileMultipart_stream (demoApp roomySettings) demoContext
       {| Parts := [field "channel_id" channel26] ++ broken
                   :: [filePart "files" "a.txt" "hello"];
          Final := None |} 0 [] = (None, c', []) /\
     (StatusCode <$> Err c') = Some StatusBadRequest).
Proof.
  split; [|split].
  - apply (form_value_capped_by_truncation (demoApp roomySettings) 0
             (field "client_ids" (xs (Z.to_nat (maxValueBytes + 1)))));
      [discriminate | reflexivity].
  - apply (form_value_capped_by_truncation (demoApp roomySettings) 0
             (field "client_ids" (xs (Z.to_nat (maxValueBytes + 1)))));
      [discriminate | reflexivity | vm_compute; discriminate | reflexivity].
  - pose proof (form_value_capped_by_truncation (demoApp roomySettings) 0
                  (brokenField "client_ids"
                     (xs (Z.to_nat (maxValueBytes + 1))) "unexpected EOF"))
      as (_ & _ & H & _); [discriminate | reflexivity |].
    apply (H "unexpected EOF" [field "channel_id" channel26]
             [filePart "files" "a.txt" "hello"] None demoContext []
             eq_refl)
      with (st1 := Part001.initialState)
           (c1 := setChannelId demoContext channel26).
    reflexivity.
Defined.
